(* ===== verification/_CoqProject ===== *)
-Q . S2P
Prelude.v
UrlEncode.v
Model.v
Api.v
Json.v
Prog.v
Service.v
Backend.v
Store.v
Workflow.v
Queries.v
Toast.v
ToastHook.v
Auth.v
Pages.v
Interleave.v
Repo.v
Cards.v
Loading.v
AdminPages.v
Forms.v
Landing.v
DetailView.v
DetailRace.v
Responsive.v
