(* ===== verification/Prelude.v ===== *)
(** * A verification development of the TicketRax support-ticket client

    TicketRax ([src/client/src]) is a React/TypeScript single-page client of
    a Django REST backend: a public form creates support tickets and an
    authenticated admin console lists, filters, triages and comments on them.
    This development models the client's state-management core in Rocq and
    proves what makes it correct, or shows where it is not.

    ** The program and how its parts interact

    - [services/ticketService.ts] and [services/authService.ts] wrap one axios
      instance ([api]); every exported function issues exactly one HTTP request
      and rethrows the error it gets.  The backend itself is not part of the
      repository: it is the external collaborator of the client.
    - [context/TicketContext.tsx] ([TicketProvider]) owns the process-wide
      snapshot: [tickets], [activities], [loading], [error]; its operations
      [fetchTickets], [createTicket], [updateTicket], [addActivity] await one
      service call each and then update the snapshot with React functional
      updaters ([setTickets(prev => ...)]), emitting toasts.
    - [pages/admin/TicketDetail.tsx] is the workflow controller: it keeps its
      own React state ([status], [priority], [comment], [isSubmitting],
      [activities]) and its handlers chain [updateTicket] and [addActivity].
    - [pages/admin/Dashboard.tsx] and [pages/admin/TicketList.tsx] derive
      counts, the five most recent tickets and the filtered/searched list
      from the snapshot.
    - [context/AuthContext.tsx] and [hooks/use-toast.ts] hold the session and
      the toast queue.

    ** How the development is laid out (files in dependency order)

    - [Prelude] (this file): the JavaScript string primitives the code calls
      ([toLowerCase], [includes], [trim], truthiness of strings), list helpers
      ([count], [replace_where]) with their lemmas, the [ticketrax] hint
      database and the development's tactics.
    - [UrlEncode] (module [URLSearchParams]): the WHATWG urlencoded
      serializer behind [params.toString()] (UTF-8, then [*-._], digits and
      letters kept, space as [+], the rest as [%XX]) and the parser a
      server applies to the query string, with the round trip
      [query_string_roundtrip].
    - [Model]: the entity types of [TicketContext.tsx] and [ticketService.ts]
      (enumerations [TicketStatus], [TicketPriority], [ActivityType]; records
      [Ticket], [TicketActivity], [DjangoTicket], [DjangoActivity], the DTOs),
      the transformation of backend records into client records, and the
      React state of every component ([TicketState], [DetailState],
      [Client]).
    - [Api]: the HTTP requests the services issue (one constructor per
      endpoint, with its method and URL) and the type of each response.
    - [Json]: the JSON body each request carries ([JSON.stringify] of the
      DTO object literals, [undefined] properties left out), the DTO
      interfaces of [ticketService.ts] as types with a typing judgment
      [conforms] and a sound checker, and the server's reading of a body.
    - [Prog]: asynchronous client code as a free monad over those requests
      ([Ret], [Throw], [Call] = [await api...], [Modify] = a React state
      updater), JavaScript [try/catch/finally], and [run], its sequential
      semantics against a gateway given as a type class [Gateway] (server
      state and one handler per request).  [run] is structural, so every
      handler terminates; the log of issued requests is part of the world.
    - [Service]: the [ticketService] and [authService] functions, each one
      request wrapped in [rethrow] ([getFilteredTickets] with its
      [URLSearchParams] query), and the backend contract [BackendSpec] (a
      [Class] over a [Gateway]: ids only grow and stay unique, [GET] lists
      the table, [POST] gives a fresh id and status [new], [PATCH] keeps the
      id and sets the requested fields, an activity is echoed).
    - [Backend]: gateways the theorems are instantiated with: [Django], a
      reference backend modelled from the spec (it parses filtered queries
      with [UrlEncode]'s parser), with the instance [Django_spec] proving it
      honours [BackendSpec]; [offline_gateway], where every request fails;
      and [Flaky], which fails the next requests selected by a predicate.
    - [Store] (module [TicketProvider]): the four operations, translated
      statement by statement ([setLoading], [setTickets(prev => ...)], the
      toasts and their texts, [try/catch/finally]); the snapshot invariant
      [Sync] (the backend's invariant, unique ids, every local id known to
      the backend); [store_step], one operation against the world, and its
      reflexive-transitive closure.
    - [Workflow] (module [TicketDetail]): the page's initial state, the
      activity-loading effect, [handleStatusChange], [handlePriorityChange],
      [handleAddComment], and [on_event], which dispatches the page's
      controls with the state as rendered.
    - [Queries]: the dashboard's [stats] and [recentTickets] (with
      [Array.prototype.sort] as a stable insertion sort [sort_by]), and the
      list page's [filteredTickets].
    - [Toast] (module [Toast]): [hooks/use-toast.ts], the module-level state
      ([count], [memoryState], the [toastTimeouts] map and the pending
      [setTimeout] callbacks) as a record [Sys], the impure [reducer],
      [genId], [toast], and the timers as a FIFO queue fired by [fire].
    - [ToastHook]: the [listeners] array shared by every component calling
      [useToast] and each one's copy of [memoryState]: the first render,
      the subscribing effect and its cleanup, unmounting and [dispatch]'s
      notification, as a step relation [hstep] over [Toast.step] in which
      a component's first render and its effect are separate steps, so
      that a dispatch may come between them.
    - [Auth]: [AuthProvider] ([checkAuth], [login], [logout] over the
      client's [AuthState] and token) and the [Login] page ([validateForm]
      with the e-mail regex as a backtracking matcher, [handleSubmit]).
    - [Pages]: the route table and [AdminLayout]'s guard ([render]), the
      ticket submission form ([SubmitTicket.tsx]), the navigation bar and
      the badges.
    - [Interleave]: the event loop of spec section 5.  [advance] runs an
      async function (of any result type) to its next [await] and sends the
      request, or to its end; a pool of
      suspended tasks and a schedule of [Start]/[Resume] events give every
      interleaving of the store's operations; [run] is one schedule
      ([run_is_a_schedule]).  [fetch_task] and [create_task] cut the two
      operations at their one [await], for any gateway.
    - [Repo]: the Ticket Repository and Activity Log of spec sections
      4.2-4.3 as an abstract machine [repo_step] over the gateway's id table
      and the client's snapshot, activities and error flag, with its
      invariant; [abs] maps a [World] to it.
    - [Cards]: [TicketCard.tsx] and the cards of the dashboard and the list
      page, and [AdminSidebar.tsx] with React Router's [NavLink] rule.
    - [Loading] (module [AppRouter]): the loading overlay of
      [AppRouter.tsx] as a timed state machine: the two flags, the two
      [setTimeout]s, the effect's cleanup and its re-run when a dependency
      changes, and a clock in milliseconds.
    - [AdminPages]: what [Dashboard.tsx] shows (summary cards, charts, the
      recent section) and [TicketList.tsx] as a state machine of its three
      filters, driven by the search box and the two [Select]s, with the
      grid it shows.
    - [Forms]: the login page ([LoginForm]) and the submission page
      ([SubmitForm]) as state machines: page-local state ([isSubmitting],
      the field values, the validation errors; for the submission page
      react-hook-form's values, errors and re-validation), events (edits,
      submit, the response, Cancel), the submit handler suspended at its
      [await] by [Interleave.advance], and what each page renders.
    - [Landing]: [Index.tsx], [TicketSubmitted.tsx] (with its confetti
      loop against the clock), [NotFound.tsx], [Footer.tsx] and
      [Loader.tsx] by what they show and where their links lead, a
      [<Link>] navigating inside the app and a plain [<a href>] reloading
      it.
    - [DetailView]: the render of [TicketDetail.tsx] over the snapshot
      and the page's state: the not-found screen, the badges, the activity
      log, the comment box and the two [Select]s; [mount_page] is the
      mount of the page, whose [useState] initialisers read the snapshot
      of that render.
    - [DetailRace]: two status picks, or a comment and a status pick, in
      flight on the detail page, as [Interleave] schedules of
      [TicketDetail.on_event] ([ui_event]); [status_pick_steps] and
      [comment_click_steps] cut each handler at its [await]s.
    - [Responsive]: [hooks/use-mobile.tsx] ([UseMobile]: the hook's state,
      its mount effect and the media-query listener, which fires only when
      the match flips) and the mobile menu of [Navbar.tsx]
      ([NavbarMobile.mobile_menu]); the theorems show the hook returns the
      current width's verdict after any resizes, and the open menu offers
      the desktop bar's items and closes only on a change of path
      ([follow_link]): a link to the page shown, or Logout, leaves it open.

    ** What the theorems show

    - Refinement and the snapshot invariant (C1, C2): every operation of
      the provider is a step of the abstract repository, on every answer of
      any backend honouring the contract; every world reachable from a
      fresh mount satisfies [Sync] (rule induction on [rtc store_step]).
    - Interleavings (C3, C4, C25): the same operations, interleaved by the
      event loop, break [Sync] (a fetch resolving between a creation's
      request and its response shows the ticket twice) and lose a created
      ticket from the list (the mount-time fetch answers last), for every
      backend honouring the contract [BackendSpec] and every ticket
      created; the witnesses run both schedules on the reference backend.
      Whatever operations are started, resuming each task at least once,
      in any order, ends all of them.
    - The pages as state machines (C5-C7, C20-C23): on the login page the
      label "Logging in..." is never rendered, since [login] sets the
      session's [isLoading] and the page then shows a spinner; on the
      submission page a submission in flight disables the button, so no
      ticket is posted twice, and Cancel does not abandon it; driven by the
      event loop, both pages end where the sequential handlers end (so the
      theorems on [handleSubmit] and [submit] hold of the pages); messages
      are never stale, and an invalid login shows each message until the
      first keystroke in its field.
    - Request bodies (C8): every body conforms to the interface of its call
      site; a PATCH can never clear the assignee.
    - Store (C9, C10): each operation on success and on its error path
      (which snapshot it leaves, which toast it shows, whether it rethrows);
      [updateTicket] does no local lookup ([updateTicket_no_local_check]).
    - Workflow and the detail page (C11-C19): the no-op short-circuit
      issues nothing; a successful change issues exactly PATCH then POST
      and appends one activity; a failed POST after a successful PATCH
      leaves an unaudited change reported with the same toast; the
      optimistic selection is never reverted, which blocks a retry, and
      after a failed PATCH the page shows the picked status in its [Select]
      and the old one in its badge; a page mounted before the tickets load
      keeps [new] and [medium] once the ticket arrives, so its [Select]
      contradicts its badge; the comment guard.  Two status changes whose
      answers arrive out of order leave the snapshot and badge at the
      older status while the [Select] holds the newer one, the status the
      backend was told last (for any backend honouring the contract);
      a status change that ends while a comment is being posted
      re-enables the comment button, and a second click posts the comment
      twice.  (A submission appends one ticket and navigates, its first
      toast hidden by the second: [Pages.submit_success].)
    - Query strings (C24): [getFilteredTickets]'s query is read back by the
      urlencoded parser as exactly the filters set, whatever the search
      holds, and only the filters set, in the order status, priority,
      search.
    - Queries and the dashboard (C26, C27): the recent list is the newest
      [min 5 n] tickets, sorted; the dashboard's numbers agree with each
      other and its chart names with the badges.
    - Toast (C28-C32): at most one toast on screen and the removal queue in
      step with the timeout map after any events; [genId]'s ids are
      distinct within a window of [MAX_SAFE_INTEGER] calls and wrap after
      it; every pending removal fires and removes its toast; every mounted
      [useToast] caller is subscribed once and shows [memoryState], except
      one whose effect comes after a [dispatch]: it stays stale until the
      next one.  ([dismiss("")] schedules removals without closing
      anything: [dismiss_empty_id].)
    - Loading overlay and public pages (C33-C35): on first load the overlay
      stays 2300 ms instead of 1500, because the route-change effect
      depends on [isLoading]; it always disappears; the confetti loop stops
      after [ceil(2000 / dt) + 1] frames.  Every in-app link of the public
      pages opens a page, and the 404 page's plain link reloads the app
      into the 2300 ms splash ([public_links_open_pages]).
    - Auth (C36-C39): login stores token and user; a rejected login
      changes nothing but shows two toasts of which one survives; the mount
      check restores a valid session with two requests; the e-mail test is
      the regex's language.
    - Pages and cards (C40): every ticket card of
      the admin pages opens its own ticket's detail page, with "Tickets"
      highlighted.

    Each theorem with a hypothesis has a witness, [<name>_witness], that
    applies it to a concrete world: the reference backend after the demo
    submission, the sample tickets of [Queries], or the [Flaky] gateway
    that loses one request.

    ** Bounds and fuel

    No fuel is needed: [Prog] programs are well-founded trees and [run] is
    structural on them, so every handler terminates and each theorem speaks
    of the final world; in [Interleave] a task's continuation is a subtree,
    which is why every pool of tasks finishes (C25).  The reference
    backend's ticket ids are decimal strings of an [N] counter, without a
    bound.  [genId]'s counter is an [N] reduced modulo [MAX_SAFE_INTEGER] as
    the code does; the addition before the reduction is exact because the
    counter stays below [2^53] (C29).  Bytes of a query string are [N]
    values below 256; a string's code units are below 256, so UTF-8 needs
    at most two bytes.  [Date] parsing is a section variable ([getTime]); an
    invalid date ([NaN]) compares as [+0], and the sorting theorems assume
    valid dates.  The page machines need no fuel: a submit handler
    suspends once, at its request, and its rest runs to the end
    ([finishes]).  The confetti loop is a [Fixpoint] on the number of
    frames; [ceil(2000 / dt) + 1] frames are enough and necessary (C35).

    ** Not modelled

    - The [Prog] world keeps the toasts a run emits as a list, not the
      [use-toast] state; [show_all] (in [Auth]) replays such a list through
      [Toast] to tell which one stays on screen.
    - In [Interleave] the backend answers a request when it is sent; a
      network that reorders requests in flight is not modelled.  React's
      batching of renders is not modelled: handlers see the state their
      updaters produced.
    - React Router's path matching (approximated in [Pages.Routes]) and
      zod's e-mail check (a section variable).
    - Characters above U+00FF: strings are 8-bit code units throughout.
    - Animation and styling (framer-motion, class names beyond the ones the
      theorems read), the random decorative bubbles of [Index.tsx],
      the mobile breakpoint's use in CSS ([md:] classes), and
      [lib/utils.ts] (the class-name joiner), a card's locale date;
      [console.error] logging.  The text of the JSON bodies
      ([JSON.stringify]'s escaping) is not modelled, only their structure.
    - In [Forms], React Router's [navigate] from a page that has been left
      still takes effect, as [useNavigate]'s does; the pages' events are
      those of one page, other async work in flight is not interleaved
      with them.
*)

From Stdlib Require Import String Ascii NArith Lia.
From stdpp Require Import base list strings decidable option.

(** ** Notation *)

Declare Scope js_scope.
Delimit Scope js_scope with js.
(** String concatenation, as in a JavaScript template literal. *)
Infix "+s+" := String.append (at level 60, right associativity) : js_scope.

Create HintDb ticketrax discriminated.
Create Rewrite HintDb ticketrax_rw.

(** ** JavaScript string primitives on 8-bit code units *)

(** [String.prototype.toLowerCase] on one code unit: ASCII [A-Z] and the
    Latin-1 capitals [U+00C0..U+00DE] except the multiplication sign
    [U+00D7] map to the code unit 32 above. *)
Definition lower_char (c : ascii) : ascii :=
  let n := nat_of_ascii c in
  if ((65 <=? n) && (n <=? 90))%bool then ascii_of_nat (n + 32)
  else if ((192 <=? n) && (n <=? 222) && negb (n =? 215))%bool
  then ascii_of_nat (n + 32)
  else c.

Fixpoint toLowerCase (s : string) : string :=
  match s with
  | EmptyString => EmptyString
  | String c s' => String (lower_char c) (toLowerCase s')
  end.

(** [s.includes(q)]: [q] occurs in [s] at some position. *)
Fixpoint includes (s q : string) : bool :=
  (String.prefix q s ||
   match s with
   | EmptyString => false
   | String _ s' => includes s' q
   end)%bool.

(** The white space [String.prototype.trim] removes, restricted to 8-bit
    code units: TAB, LF, VT, FF, CR, SPACE and NO-BREAK SPACE. *)
Definition is_js_space (c : ascii) : bool :=
  let n := nat_of_ascii c in
  ((9 <=? n) && (n <=? 13) || (n =? 32) || (n =? 160))%bool.

Fixpoint trimStart (s : string) : string :=
  match s with
  | EmptyString => EmptyString
  | String c s' => if is_js_space c then trimStart s' else s
  end.

Definition rev_string (s : string) : string :=
  string_of_list_ascii (rev (list_ascii_of_string s)).

(** [s.trim()]: leading white space dropped, then trailing. *)
Definition trim (s : string) : string :=
  rev_string (trimStart (rev_string (trimStart s))).

(** The truthiness of a string in a JavaScript condition. *)
Definition truthy (s : string) : bool := negb (String.eqb s EmptyString).

Definition is_blank (s : string) : bool :=
  forallb is_js_space (list_ascii_of_string s).

(** ** List helpers *)

(** [xs.filter(p).length] *)
Definition count {A} (p : A -> bool) (l : list A) : nat :=
  length (List.filter p l).

(** [xs.map(x => p(x) ? y : x)]: every element satisfying [p] replaced. *)
Definition replace_where {A} (p : A -> bool) (y : A) (l : list A) : list A :=
  map (fun x => if p x then y else x) l.

(** ** Tactics *)

Ltac invc H := inversion H; subst; clear H.

(** Split on every comparison of binary naturals in the goal; [lia]
    closes the contradictory cases. *)
Ltac n_cases :=
  repeat match goal with
  | |- context [N.eqb ?a ?b] => destruct (N.eqb_spec a b)
  | |- context [N.ltb ?a ?b] => destruct (N.ltb_spec a b)
  | |- context [N.leb ?a ?b] => destruct (N.leb_spec a b)
  end; cbn; try lia.

(** Split on every boolean test [if b then _ else _] of the goal. *)
Ltac break_ifs :=
  repeat match goal with
  | |- context [if ?b then _ else _] =>
      lazymatch b with
      | context [if _ then _ else _] => fail
      | _ => destruct b eqn:?
      end
  end.

(** ** Lemmas on the string primitives *)

Lemma includes_empty (s : string) : includes s EmptyString = true.
Proof. destruct s; reflexivity. Qed.

Lemma prefix_append (p s : string) : String.prefix p (p +s+ s)%js = true.
Proof.
  induction p as [|c p IH]; [destruct s; reflexivity|].
  simpl. destruct (ascii_dec c c); [exact IH|congruence].
Qed.

Lemma includes_refl (s : string) : includes s s = true.
Proof.
  destruct s as [|c s]; [reflexivity|]. simpl.
  destruct (ascii_dec c c); [|congruence].
  enough (String.prefix s s = true) as -> by reflexivity.
  induction s as [|d s IH]; [done|]. simpl.
  destruct (ascii_dec d d); [exact IH|congruence].
Qed.

(** A string occurs in any string that has it after some prefix. *)
Lemma includes_append (l m r : string) :
  includes (l +s+ m +s+ r)%js m = true.
Proof.
  induction l as [|c l IH]; simpl.
  - destruct m as [|c m]; [apply includes_empty|].
    simpl. destruct (ascii_dec c c); [|congruence].
    rewrite prefix_append. reflexivity.
  - rewrite IH. apply orb_true_r.
Qed.

(** Text before an occurrence does not hide it. *)
Lemma includes_app_r (l r m : string) :
  includes r m = true -> includes (l +s+ r)%js m = true.
Proof.
  intros H. induction l as [|c l IH]; [exact H|].
  simpl. rewrite IH. apply orb_true_r.
Qed.

Lemma prefix_inv (p s : string) :
  String.prefix p s = true -> exists r, s = (p +s+ r)%js.
Proof.
  revert s. induction p as [|c p IH]; intros s H; [by exists s|].
  destruct s as [|d s]; [done|]. simpl in H.
  destruct (ascii_dec c d) as [<-|]; [|done].
  destruct (IH s H) as [r ->]. by exists r.
Qed.

(** An occurrence found by [includes] splits the string around it. *)
Lemma includes_inv (s q : string) :
  includes s q = true -> exists l r, s = (l +s+ q +s+ r)%js.
Proof.
  induction s as [|c s IH]; intros H; cbn [includes] in H.
  - apply orb_true_iff in H as [H|H]; [|done].
    destruct (prefix_inv _ _ H) as [r Hr]. by exists EmptyString, r.
  - apply orb_true_iff in H as [H|H].
    + destruct (prefix_inv _ _ H) as [r Hr]. exists EmptyString, r. exact Hr.
    + destruct (IH H) as (l & r & ->). by exists (String c l), r.
Qed.

Lemma toLowerCase_append (a b : string) :
  toLowerCase (a +s+ b)%js = (toLowerCase a +s+ toLowerCase b)%js.
Proof. induction a as [|c a IH]; simpl; [done|]. by rewrite IH. Qed.

Lemma lower_char_idem (c : ascii) : lower_char (lower_char c) = lower_char c.
Proof. destruct c as [[] [] [] [] [] [] [] []]; reflexivity. Qed.

Lemma toLowerCase_idem (s : string) : toLowerCase (toLowerCase s) = toLowerCase s.
Proof. induction s as [|c s IH]; simpl; [done|]. by rewrite lower_char_idem, IH. Qed.

Lemma toLowerCase_empty_iff (s : string) : toLowerCase s = EmptyString <-> s = EmptyString.
Proof. by destruct s. Qed.

(** [toLowerCase] keeps occurrences. *)
Lemma includes_toLowerCase (s q : string) :
  includes s q = true -> includes (toLowerCase s) (toLowerCase q) = true.
Proof.
  intros (l & r & ->)%includes_inv. rewrite !toLowerCase_append. apply includes_append.
Qed.

Lemma trimStart_blank (s : string) :
  trimStart s = EmptyString <-> is_blank s = true.
Proof.
  induction s as [|c s IH]; simpl; [done|].
  unfold is_blank in *; simpl.
  destruct (is_js_space c); simpl; [done|].
  split; discriminate.
Qed.

Lemma list_ascii_rev_string (s : string) :
  list_ascii_of_string (rev_string s) = rev (list_ascii_of_string s).
Proof. unfold rev_string. apply list_ascii_of_string_of_list_ascii. Qed.

Lemma is_blank_rev (s : string) : is_blank (rev_string s) = is_blank s.
Proof.
  unfold is_blank. rewrite list_ascii_rev_string.
  induction (list_ascii_of_string s) as [|c l IH]; [done|].
  simpl. rewrite forallb_app, IH. simpl.
  destruct (is_js_space c), (forallb is_js_space l); done.
Qed.

Lemma trimStart_nonblank (s : string) :
  is_blank s = false -> is_blank (trimStart s) = false.
Proof.
  induction s as [|c s IH]; [done|]. unfold is_blank in *; simpl in *.
  destruct (is_js_space c) eqn:Hc; simpl; [exact IH|].
  rewrite Hc. done.
Qed.

Lemma rev_string_empty : rev_string EmptyString = EmptyString.
Proof. reflexivity. Qed.

(** [!s.trim()] holds exactly when [s] consists of white space only. *)
Lemma trim_empty_iff (s : string) :
  trim s = EmptyString <-> is_blank s = true.
Proof.
  unfold trim. split.
  - intros H. destruct (is_blank s) eqn:Hb; [done|].
    apply trimStart_nonblank in Hb.
    rewrite <- is_blank_rev in Hb. apply trimStart_nonblank in Hb.
    rewrite <- is_blank_rev, H in Hb. discriminate.
  - intros H. apply trimStart_blank in H. rewrite H. reflexivity.
Qed.

(** ** Lemmas on the list helpers *)

Lemma count_app {A} (p : A -> bool) (l1 l2 : list A) :
  count p (l1 ++ l2) = count p l1 + count p l2.
Proof. unfold count. rewrite List.filter_app, length_app. done. Qed.

Lemma count_cons {A} (p : A -> bool) (x : A) (l : list A) :
  count p (x :: l) = (if p x then 1 else 0) + count p l.
Proof. unfold count. simpl. by destruct (p x). Qed.

Lemma count_le {A} (p : A -> bool) (l : list A) : count p l <= length l.
Proof.
  unfold count. induction l as [|x l IH]; simpl; [lia|].
  destruct (p x); simpl; lia.
Qed.

Lemma count_ext {A} (p q : A -> bool) (l : list A) :
  (forall x, p x = q x) -> count p l = count q l.
Proof. intros H. unfold count. rewrite (List.filter_ext p q H). done. Qed.

(** Two disjoint tests count the elements satisfying their disjunction. *)
Lemma count_orb {A} (p q : A -> bool) (l : list A) :
  (forall x, p x = true -> q x = false) ->
  count (fun x => p x || q x)%bool l = count p l + count q l.
Proof.
  intros Hd. unfold count. induction l as [|x l IH]; simpl; [done|].
  destruct (p x) eqn:Hp; simpl.
  - rewrite (Hd x Hp). simpl. lia.
  - destruct (q x); simpl; lia.
Qed.

Lemma replace_where_length {A} (p : A -> bool) (y : A) (l : list A) :
  length (replace_where p y l) = length l.
Proof. apply length_map. Qed.

Lemma replace_where_id {A} (p : A -> bool) (y : A) (l : list A) :
  Forall (fun x => p x = false) l -> replace_where p y l = l.
Proof.
  unfold replace_where. induction 1 as [|x l Hx _ IH]; simpl; [done|].
  rewrite Hx, IH. done.
Qed.

(** Replacing by an element with the same key keeps the list of keys. *)
Lemma replace_where_keys {A K} (key : A -> K) (p : A -> bool) (y : A) (l : list A) :
  (forall x, p x = true -> key y = key x) ->
  map key (replace_where p y l) = map key l.
Proof.
  intros H. unfold replace_where. rewrite map_map.
  apply map_ext_in. intros x _. destruct (p x) eqn:E; [apply H|]; done.
Qed.

(** A property of the replacement and of every element left in place holds
    of the whole result. *)
Lemma replace_where_Forall {A} (P : A -> Prop) (p : A -> bool) (y : A) (l : list A) :
  P y -> (forall x, x ∈ l -> p x = false -> P x) -> Forall P (replace_where p y l).
Proof.
  intros Hy Hx. unfold replace_where. induction l as [|x l IH]; simpl; constructor.
  - destruct (p x) eqn:E; [exact Hy|]. apply Hx; [left|done].
  - apply IH. intros z Hz. apply Hx. by right.
Qed.

#[export] Hint Resolve includes_empty includes_refl includes_append includes_app_r
  includes_toLowerCase : ticketrax.
#[export] Hint Rewrite toLowerCase_idem toLowerCase_append : ticketrax_rw.
#[export] Hint Rewrite @count_app @count_cons @replace_where_length : ticketrax_rw.
