(* ===== verification/UrlEncode.v ===== *)
(** * Query strings: [URLSearchParams] and the server's parser

    [getFilteredTickets] ([services/ticketService.ts] 129-149) builds its
    query with [new URLSearchParams()], [append] and [toString()].  This
    file models the WHATWG [application/x-www-form-urlencoded] serializer
    that [toString()] runs, and the parser of the same standard, which is
    how the receiving server reads the query back.

    Strings are sequences of 8-bit code units (as in [Prelude]); a code
    unit is a code point below 256, which UTF-8 writes as one byte below
    128 or as the two bytes [0xC2]/[0xC3], [0x80..0xBF].  Bytes are [N]
    values below 256.  The parser's UTF-8 decoder accepts exactly the
    encodings of such code points and fails on anything else (a code point
    that is not a code unit of the model).

    [parse_query_string] is the left inverse of [query_string] on every
    list of name/value pairs: names and values may hold ['&'], ['='], ['+'],
    ['%'], spaces and Latin-1 letters. *)

From Stdlib Require Import String Ascii NArith.
From stdpp Require Import base list strings decidable option.
From S2P Require Import Prelude.

Local Open Scope N_scope.

Module URLSearchParams.

(** ** Serializer *)

(** UTF-8 encoding of one code unit. *)
Definition utf8_unit (n : N) : list N :=
  if n <? 128 then [n] else [192 + n / 64; 128 + n mod 64].

Definition utf8_encode (cps : list N) : list N := List.flat_map utf8_unit cps.

(** The bytes the urlencoded percent-encode set leaves alone:
    [*-._], digits and ASCII letters. *)
Definition unreserved (b : N) : bool :=
  (b =? 42) || (b =? 45) || (b =? 46) || ((48 <=? b) && (b <=? 57)) ||
  ((65 <=? b) && (b <=? 90)) || (b =? 95) || ((97 <=? b) && (b <=? 122)).

(** An upper-case hexadecimal digit. *)
Definition hex_digit (x : N) : N := if x <? 10 then 48 + x else 55 + x.

(** One byte of the serializer's output: kept, [' '] as ['+'], or
    [%XX]. *)
Definition encode_byte (b : N) : list N :=
  if unreserved b then [b]
  else if b =? 32 then [43]
  else [37; hex_digit (b / 16); hex_digit (b mod 16)].

(** The urlencoded byte serializer applied to the UTF-8 encoding of a
    string. *)
Definition form_encode (s : string) : list N :=
  List.flat_map encode_byte (utf8_encode (map N_of_ascii (list_ascii_of_string s))).

(** [xs.join(sep)] on byte sequences. *)
Fixpoint join (sep : N) (xs : list (list N)) : list N :=
  match xs with
  | [] => []
  | [x] => x
  | x :: xs' => x ++ sep :: join sep xs'
  end.

Definition encode_pair (p : string * string) : list N := form_encode p.1 ++ 61 :: form_encode p.2.

(** [params.toString()]: [name=value] pairs joined by ['&']. *)
Definition serialize (ps : list (string * string)) : list N := join 38 (map encode_pair ps).

Definition string_of_bytes (l : list N) : string := string_of_list_ascii (map ascii_of_N l).
Definition bytes_of_string (s : string) : list N := map N_of_ascii (list_ascii_of_string s).

Definition query_string (ps : list (string * string)) : string := string_of_bytes (serialize ps).

(** ** Parser *)

(** [s.split(sep)] on byte sequences. *)
Fixpoint split_on (sep : N) (l : list N) : list (list N) :=
  match l with
  | [] => [[]]
  | b :: l' =>
      if b =? sep then [] :: split_on sep l'
      else match split_on sep l' with
           | [] => [[b]]
           | x :: xs => (b :: x) :: xs
           end
  end.

(** The bytes before the first [sep], and those after it if there is
    one. *)
Fixpoint split_first (sep : N) (l : list N) : list N * option (list N) :=
  match l with
  | [] => ([], None)
  | b :: l' => if b =? sep then ([], Some l') else let '(x, r) := split_first sep l' in (b :: x, r)
  end.

Definition plus_to_space (b : N) : N := if b =? 43 then 32 else b.

Definition hex_val (h : N) : option N :=
  if (48 <=? h) && (h <=? 57) then Some (h - 48)
  else if (65 <=? h) && (h <=? 70) then Some (h - 55)
  else if (97 <=? h) && (h <=? 102) then Some (h - 87)
  else None.

(** Percent-decoding: [%] and two hex digits give a byte, any other byte
    (a lone [%] included) is kept. *)
Fixpoint percent_decode (l : list N) : list N :=
  match l with
  | [] => []
  | b :: l' =>
      if b =? 37 then
        match l' with
        | h1 :: h2 :: rest =>
            match hex_val h1, hex_val h2 with
            | Some x, Some y => (16 * x + y) :: percent_decode rest
            | _, _ => b :: percent_decode l'
            end
        | _ => b :: percent_decode l'
        end
      else b :: percent_decode l'
  end.

(** UTF-8 decoding into code units. *)
Fixpoint utf8_decode (l : list N) : option (list N) :=
  match l with
  | [] => Some []
  | b :: l' =>
      if b <? 128 then cons b <$> utf8_decode l'
      else if (194 <=? b) && (b <=? 195) then
        match l' with
        | b2 :: l'' =>
            if (128 <=? b2) && (b2 <? 192)
            then cons ((b - 192) * 64 + (b2 - 128)) <$> utf8_decode l''
            else None
        | [] => None
        end
      else None
  end.

Definition decode_component (l : list N) : option string :=
  string_of_bytes <$> utf8_decode (percent_decode (map plus_to_space l)).

(** One [name=value] sequence; without ['='] the value is empty. *)
Definition parse_pair (l : list N) : option (string * string) :=
  let '(k, v) := split_first 61 l in
  name ← decode_component k;
  value ← decode_component (default [] v);
  Some (name, value).

Fixpoint parse_pairs (seqs : list (list N)) : option (list (string * string)) :=
  match seqs with
  | [] => Some []
  | [] :: seqs' => parse_pairs seqs'
  | l :: seqs' => p ← parse_pair l; cons p <$> parse_pairs seqs'
  end.

(** The urlencoded parser: split on ['&'], empty sequences skipped. *)
Definition parse_query_string (q : string) : option (list (string * string)) :=
  parse_pairs (split_on 38 (bytes_of_string q)).

(** ** Facts *)

Lemma divmod_bound (b d : N) : 0 < d -> b = d * (b / d) + b mod d /\ b mod d < d.
Proof. intros. split; [apply N.div_mod; lia|apply N.mod_lt; lia]. Qed.

(** Replace [b / d] and [b mod d] by fresh quotient and remainder. *)
Ltac divmod b d q r :=
  destruct (divmod_bound b d) as [? ?]; [lia|];
  generalize dependent (b / d); generalize dependent (b mod d); intros r ? q ?.

Lemma unreserved_spec b :
  unreserved b = true -> b <> 32 /\ b <> 37 /\ b <> 38 /\ b <> 43 /\ b <> 61.
Proof.
  unfold unreserved. rewrite !orb_true_iff, !andb_true_iff, !N.eqb_eq, !N.leb_le. lia.
Qed.

Lemma hex_digit_range x : x < 16 -> (48 <= hex_digit x <= 57) \/ (65 <= hex_digit x <= 70).
Proof. unfold hex_digit. n_cases. Qed.

Lemma hex_val_digit x : x < 16 -> hex_val (hex_digit x) = Some x.
Proof.
  intros Hx. unfold hex_digit, hex_val. destruct (N.ltb_spec x 10); n_cases; f_equal; lia.
Qed.

Lemma plus_to_space_id b : b <> 43 -> plus_to_space b = b.
Proof. unfold plus_to_space. n_cases. Qed.

(** Decoding one encoded byte gives it back, whatever follows. *)
Lemma decode_encode_byte b rest :
  b < 256 -> percent_decode (map plus_to_space (encode_byte b) ++ rest) = b :: percent_decode rest.
Proof.
  intros Hb. unfold encode_byte. destruct (unreserved b) eqn:Hu.
  - destruct (unreserved_spec b Hu) as (_ & H37 & _ & H43 & _). cbn.
    rewrite plus_to_space_id by done. by rewrite (proj2 (N.eqb_neq _ _) H37).
  - destruct (N.eqb_spec b 32) as [->|Hsp]; [done|].
    divmod b 16%N q r. cbn [map app].
    rewrite (plus_to_space_id (hex_digit q)), (plus_to_space_id (hex_digit r))
      by (destruct (hex_digit_range q), (hex_digit_range r); lia).
    cbn. rewrite !hex_val_digit by lia. do 2 f_equal. lia.
Qed.

Lemma decode_encode_bytes bs :
  Forall (fun b => b < 256) bs ->
  percent_decode (map plus_to_space (List.flat_map encode_byte bs)) = bs.
Proof.
  induction 1 as [|b bs Hb _ IH]; [done|].
  cbn [List.flat_map]. rewrite map_app, decode_encode_byte by done. by rewrite IH.
Qed.

Lemma utf8_unit_bytes n : n < 256 -> Forall (fun b => b < 256) (utf8_unit n).
Proof.
  intros Hn. unfold utf8_unit. divmod n 64%N q r. n_cases; repeat constructor; lia.
Qed.

Lemma utf8_decode_encode cps :
  Forall (fun n => n < 256) cps -> utf8_decode (utf8_encode cps) = Some cps.
Proof.
  induction 1 as [|n cps Hn _ IH]; [done|]. cbn [utf8_encode List.flat_map].
  fold (utf8_encode cps). unfold utf8_unit. divmod n 64%N q r.
  destruct (N.ltb_spec n 128); cbn [app utf8_decode].
  - rewrite (proj2 (N.ltb_lt _ _)) by done. by rewrite IH.
  - rewrite (proj2 (N.ltb_ge (192 + q) 128)) by lia.
    replace ((194 <=? 192 + q) && (192 + q <=? 195)) with true
      by (symmetry; apply andb_true_iff; rewrite !N.leb_le; lia).
    replace ((128 <=? 128 + r) && (128 + r <? 192)) with true
      by (symmetry; apply andb_true_iff; rewrite N.leb_le, N.ltb_lt; lia).
    rewrite IH. cbn. do 2 f_equal. lia.
Qed.

Lemma utf8_encode_bytes cps :
  Forall (fun n => n < 256) cps -> Forall (fun b => b < 256) (utf8_encode cps).
Proof.
  induction 1; [constructor|]. apply Forall_app. split; [by apply utf8_unit_bytes|done].
Qed.

Lemma N_of_ascii_bound c : N_of_ascii c < 256.
Proof. destruct c as [[] [] [] [] [] [] [] []]; cbn; lia. Qed.

Lemma string_bytes s : Forall (fun n => n < 256) (bytes_of_string s).
Proof. apply Forall_map, Forall_forall. intros c _. apply N_of_ascii_bound. Qed.

Lemma bytes_of_string_of_bytes l :
  Forall (fun n => n < 256) l -> bytes_of_string (string_of_bytes l) = l.
Proof.
  intros Hl. unfold bytes_of_string, string_of_bytes.
  rewrite list_ascii_of_string_of_list_ascii, map_map.
  induction Hl as [|n l Hn _ IH]; [done|]. cbn. rewrite IH, N_ascii_embedding; [done|lia].
Qed.

Lemma string_of_bytes_of_string s : string_of_bytes (bytes_of_string s) = s.
Proof.
  unfold bytes_of_string, string_of_bytes. rewrite map_map.
  rewrite (map_ext _ id) by apply ascii_N_embedding. by rewrite map_id, string_of_list_ascii_of_string.
Qed.

(** Each component decodes to the string it encodes. *)
Lemma decode_form_encode s : decode_component (form_encode s) = Some s.
Proof.
  unfold decode_component, form_encode. fold (bytes_of_string s).
  rewrite decode_encode_bytes by (apply utf8_encode_bytes, string_bytes).
  rewrite utf8_decode_encode by apply string_bytes. cbn. by rewrite string_of_bytes_of_string.
Qed.

(** ** Splitting what was joined *)

Lemma in_join sep xs x : In x (join sep xs) -> x = sep \/ exists y, In y xs /\ In x y.
Proof.
  induction xs as [|y [|y' xs] IH]; cbn; [done|intros Hx; right; exists y; split; [left|]; done|].
  intros [Hx|[<-|Hx]]%in_app_or; [right; exists y; split; [left|]; done|by left|].
  destruct (IH Hx) as [->|(z & Hz & Hxz)]; [by left|right; exists z; split; [right|]; done].
Qed.

Lemma split_first_app sep x y : ~ In sep x -> split_first sep (x ++ sep :: y) = (x, Some y).
Proof.
  induction x as [|b x IH]; intros Hx; cbn; [by rewrite N.eqb_refl|].
  rewrite (proj2 (N.eqb_neq b sep)) by (intros ->; apply Hx; by left).
  rewrite IH; [done|]. intros H; apply Hx; by right.
Qed.

Lemma split_on_no_sep sep x : ~ In sep x -> split_on sep x = [x].
Proof.
  induction x as [|b x IH]; intros Hx; cbn; [done|].
  rewrite (proj2 (N.eqb_neq b sep)) by (intros ->; apply Hx; by left).
  rewrite IH; [done|]. intros H; apply Hx; by right.
Qed.

Lemma split_on_app sep x l : ~ In sep x -> split_on sep (x ++ sep :: l) = x :: split_on sep l.
Proof.
  induction x as [|b x IH]; intros Hx; cbn; [by rewrite N.eqb_refl|].
  rewrite (proj2 (N.eqb_neq b sep)) by (intros ->; apply Hx; by left).
  rewrite IH; [done|]. intros H; apply Hx; by right.
Qed.

Lemma split_on_join sep xs :
  xs <> [] -> Forall (fun x => ~ In sep x) xs -> split_on sep (join sep xs) = xs.
Proof.
  induction xs as [|x xs IH]; intros Hne Hxs; [done|]. inversion Hxs as [|? ? Hx Hxs']; subst.
  destruct xs as [|x' xs]; [by apply split_on_no_sep|].
  change (join sep (x :: x' :: xs)) with (x ++ sep :: join sep (x' :: xs)).
  rewrite split_on_app by done. by rewrite IH.
Qed.

(** ** The serializer's output *)

Lemma encode_byte_out b x :
  b < 256 -> In x (encode_byte b) -> x < 256 /\ x <> 38 /\ x <> 61.
Proof.
  intros Hb. unfold encode_byte. destruct (unreserved b) eqn:Hu.
  - intros [<-|[]]. pose proof (unreserved_spec b Hu). lia.
  - destruct (N.eqb_spec b 32); [intros [<-|[]]; lia|].
    divmod b 16%N q r.
    intros [<-|[<-|[<-|[]]]]; [lia|destruct (hex_digit_range q)|destruct (hex_digit_range r)]; lia.
Qed.

Lemma form_encode_out s x : In x (form_encode s) -> x < 256 /\ x <> 38 /\ x <> 61.
Proof.
  unfold form_encode. intros (b & Hb & Hx)%in_flat_map. apply (encode_byte_out b); [|done].
  pose proof (utf8_encode_bytes _ (string_bytes s)) as Hall. unfold bytes_of_string in Hall.
  rewrite Forall_forall in Hall. apply Hall, Hb.
Qed.

Lemma encode_pair_no_amp p : ~ In 38 (encode_pair p).
Proof.
  unfold encode_pair. intros [H|[H|H]]%in_app_or.
  - apply form_encode_out in H; lia.
  - done.
  - apply form_encode_out in H; lia.
Qed.

Lemma serialize_bytes ps : Forall (fun b => b < 256) (serialize ps).
Proof.
  apply List.Forall_forall. intros x Hx%in_join. destruct Hx as [->|(y & Hy & Hxy)]; [lia|].
  apply in_map_iff in Hy as (p & <- & _). unfold encode_pair in Hxy.
  apply in_app_or in Hxy as [H|[<-|H]]; [(apply form_encode_out in H; lia)|lia|(apply form_encode_out in H; lia)].
Qed.

Lemma parse_encode_pair p : parse_pair (encode_pair p) = Some p.
Proof.
  destruct p as [k v]. unfold parse_pair, encode_pair; cbn [fst snd].
  rewrite split_first_app by (intros H; apply form_encode_out in H; lia).
  rewrite decode_form_encode; cbn -[decode_component form_encode]. by rewrite decode_form_encode.
Qed.

Lemma parse_pairs_encode ps : parse_pairs (map encode_pair ps) = Some ps.
Proof.
  induction ps as [|p ps IH]; [done|]. cbn [map].
  destruct (encode_pair p) as [|b l] eqn:He; [by destruct (app_cons_not_nil (form_encode p.1) (form_encode p.2) 61)|].
  cbn [parse_pairs]. rewrite <- He, parse_encode_pair, IH. done.
Qed.

(** The parser reads back every list of pairs the serializer writes. *)
Lemma query_string_roundtrip ps : parse_query_string (query_string ps) = Some ps.
Proof.
  unfold parse_query_string, query_string. rewrite bytes_of_string_of_bytes by apply serialize_bytes.
  unfold serialize. destruct ps as [|p ps]; [done|].
  rewrite split_on_join; [apply parse_pairs_encode|done|].
  apply List.Forall_forall. intros x (q & <- & _)%in_map_iff. apply encode_pair_no_amp.
Qed.

End URLSearchParams.
