(* ===== verification/Model.v ===== *)
(** * The data model of the client

    The entity types of [context/TicketContext.tsx] and
    [services/ticketService.ts]: the enumerations of ticket status, priority
    and activity type; the client records [Ticket] and [TicketActivity]; the
    backend records [DjangoTicket] and [DjangoActivity]; the request DTOs;
    the conversions between them; and the React state of each component,
    gathered in [Client].  Each record lives in a module of its own so that
    its fields keep the source's names. *)

From Stdlib Require Import String Ascii.
From stdpp Require Import base list strings decidable.
From S2P Require Import Prelude.

Local Open Scope string_scope.
Local Open Scope js_scope.

(** ** Enumerations ([TicketContext.tsx], lines 12-13 and 39) *)

Inductive TicketStatus := new | open | pending | resolved | closed.
Inductive TicketPriority := low | medium | high | urgent.
Inductive ActivityType := status_change | priority_change | assignment | comment.

#[export] Instance TicketStatus_eq_dec : EqDecision TicketStatus.
Proof. solve_decision. Defined.
#[export] Instance TicketPriority_eq_dec : EqDecision TicketPriority.
Proof. solve_decision. Defined.
#[export] Instance ActivityType_eq_dec : EqDecision ActivityType.
Proof. solve_decision. Defined.

(** The string literal each value is at run time. *)
Definition TicketStatus_str (s : TicketStatus) : string :=
  match s with
  | new => "new" | open => "open" | pending => "pending"
  | resolved => "resolved" | closed => "closed"
  end.

Definition TicketPriority_str (p : TicketPriority) : string :=
  match p with
  | low => "low" | medium => "medium" | high => "high" | urgent => "urgent"
  end.

Definition ActivityType_str (t : ActivityType) : string :=
  match t with
  | status_change => "status_change" | priority_change => "priority_change"
  | assignment => "assignment" | comment => "comment"
  end.

(** ** Records *)

(** [DjangoUser] ([ticketService.ts] 5-11); [AuthContext]'s [User] and the
    [assignedTo] of a ticket have the same shape. *)
Module User.
Record t := mk {
    id : string; username : string; email : string;
    first_name : string; last_name : string }.
End User.

(** [Ticket] ([TicketContext.tsx] 15-34). *)
Module Ticket.
Record creator := mkCreator { name : string; email : string }.
Record t := mk {
    id : string; title : string; description : string;
    createdBy : creator; assignedTo : option User.t;
    status : TicketStatus; priority : TicketPriority;
    createdAt : string; updatedAt : string }.
End Ticket.

(** [TicketActivity] ([TicketContext.tsx] 36-43). *)
Module Activity.
Record t := mk {
    id : string; ticketId : string; type : ActivityType;
    message : string; createdBy : string; createdAt : string }.
  (** [Omit<TicketActivity, 'id' | 'createdAt'>], the argument of
      [addActivity]. *)
Record input := mkInput {
    in_ticketId : string; in_type : ActivityType;
    in_message : string; in_createdBy : string }.
End Activity.

(** [DjangoTicket] ([ticketService.ts] 13-24). *)
Module DjangoTicket.
Record t := mk {
    id : string; title : string; description : string;
    status : TicketStatus; priority : TicketPriority;
    created_by_name : string; created_by_email : string;
    assigned_to : option User.t;
    created_at : string; updated_at : string }.
End DjangoTicket.

(** [DjangoActivity] ([ticketService.ts] 26-33). *)
Module DjangoActivity.
Record t := mk {
    id : string; ticket : string; type : ActivityType;
    message : string; created_by : string; created_at : string }.
End DjangoActivity.

(** [CreateTicketDto], [UpdateTicketDto], [CreateActivityDto]
    ([ticketService.ts] 36-59).  An optional field left [undefined] is
    omitted from the JSON body: [None]. *)
Module Dto.
Record create_ticket := mkCreateTicket {
    ct_title : string; ct_description : string; ct_priority : TicketPriority;
    ct_created_by_name : string; ct_created_by_email : string }.
Record update_ticket := mkUpdateTicket {
    ut_title : option string; ut_description : option string;
    ut_status : option TicketStatus; ut_priority : option TicketPriority;
    ut_assigned_to : option string }.
Record create_activity := mkCreateActivity {
    ca_ticket : string; ca_type : ActivityType;
    ca_message : string; ca_created_by : string }.
End Dto.

(** The [ticketData] argument of [createTicket] ([TicketContext.tsx]
    177-185). *)
Record TicketInput := mkTicketInput {
  in_title : string; in_description : string; in_priority : TicketPriority;
  in_createdBy : Ticket.creator }.

(** The part of [updates : Partial<Ticket>] that [updateTicket] reads
    ([TicketContext.tsx] 249-255); the other fields are ignored by the
    code. *)
Record TicketUpdates := mkTicketUpdates {
  up_title : option string; up_description : option string;
  up_status : option TicketStatus; up_priority : option TicketPriority;
  up_assignedTo : option User.t }.

Definition no_updates : TicketUpdates := mkTicketUpdates None None None None None.

(** ** Conversions ([TicketContext.tsx]) *)

(** The transformation of a backend ticket into the client shape, written
    three times in the source (in [fetchTickets], [createTicket] and
    [updateTicket]); [assigned_to || undefined] keeps a present user and
    maps [null] to [undefined]. *)
Definition transformTicket (d : DjangoTicket.t) : Ticket.t :=
  {| Ticket.id := DjangoTicket.id d;
     Ticket.title := DjangoTicket.title d;
     Ticket.description := DjangoTicket.description d;
     Ticket.status := DjangoTicket.status d;
     Ticket.priority := DjangoTicket.priority d;
     Ticket.createdBy := Ticket.mkCreator (DjangoTicket.created_by_name d)
                                          (DjangoTicket.created_by_email d);
     Ticket.assignedTo := DjangoTicket.assigned_to d;
     Ticket.createdAt := DjangoTicket.created_at d;
     Ticket.updatedAt := DjangoTicket.updated_at d |}.

Definition transformActivity (d : DjangoActivity.t) : Activity.t :=
  {| Activity.id := DjangoActivity.id d;
     Activity.ticketId := DjangoActivity.ticket d;
     Activity.type := DjangoActivity.type d;
     Activity.message := DjangoActivity.message d;
     Activity.createdBy := DjangoActivity.created_by d;
     Activity.createdAt := DjangoActivity.created_at d |}.

Definition createTicketDto (i : TicketInput) : Dto.create_ticket :=
  {| Dto.ct_title := in_title i;
     Dto.ct_description := in_description i;
     Dto.ct_priority := in_priority i;
     Dto.ct_created_by_name := Ticket.name (in_createdBy i);
     Dto.ct_created_by_email := Ticket.email (in_createdBy i) |}.

(** [assigned_to: updates.assignedTo?.id] *)
Definition updateData (u : TicketUpdates) : Dto.update_ticket :=
  {| Dto.ut_title := up_title u;
     Dto.ut_description := up_description u;
     Dto.ut_status := up_status u;
     Dto.ut_priority := up_priority u;
     Dto.ut_assigned_to := option_map User.id (up_assignedTo u) |}.

Definition createActivityDto (a : Activity.input) : Dto.create_activity :=
  {| Dto.ca_ticket := Activity.in_ticketId a;
     Dto.ca_type := Activity.in_type a;
     Dto.ca_message := Activity.in_message a;
     Dto.ca_created_by := Activity.in_createdBy a |}.

(** ** React state of the components *)

(** [TicketProvider]'s state ([TicketContext.tsx] 114-117). *)
Record TicketState := mkTicketState {
  tickets : list Ticket.t;
  activities : list Activity.t;
  loading : bool;
  error : option string }.

Definition initialTicketState : TicketState := mkTicketState [] [] true None.

(** [TicketDetail]'s local state ([TicketDetail.tsx] 52-57). *)
Module Detail.
Record t := mk {
    activities : list Activity.t;
    loadingActivities : bool;
    status : TicketStatus;
    priority : TicketPriority;
    comment : string;
    isSubmitting : bool }.
End Detail.

(** [AuthProvider]'s state ([AuthContext.tsx] 54-55). *)
Record AuthState := mkAuthState { user : option User.t; isLoading : bool }.

(** A toast as [toast({...})] receives it. *)
Record ToastMsg := mkToast {
  toast_title : string; toast_description : string; toast_destructive : bool }.

(** The whole client: the component states, the browser's [localStorage]
    entry ['token'] and [document.cookie], and the toasts shown so far
    (newest last). *)
Record Client := mkClient {
  store : TicketState;
  detail : Detail.t;
  auth : AuthState;
  token : option string;
  cookie : string;
  toasts : list ToastMsg }.

(** ** State updaters *)

Definition map_store (f : TicketState -> TicketState) (c : Client) : Client :=
  mkClient (f (store c)) (detail c) (auth c) (token c) (cookie c) (toasts c).
Definition map_detail (f : Detail.t -> Detail.t) (c : Client) : Client :=
  mkClient (store c) (f (detail c)) (auth c) (token c) (cookie c) (toasts c).
Definition map_auth (f : AuthState -> AuthState) (c : Client) : Client :=
  mkClient (store c) (detail c) (f (auth c)) (token c) (cookie c) (toasts c).
Definition set_token (v : option string) (c : Client) : Client :=
  mkClient (store c) (detail c) (auth c) v (cookie c) (toasts c).
Definition push_toast (m : ToastMsg) (c : Client) : Client :=
  mkClient (store c) (detail c) (auth c) (token c) (cookie c) (toasts c ++ [m]).

(** [setTickets], [setActivities], [setLoading], [setError]. *)
Definition setTickets (f : list Ticket.t -> list Ticket.t) (s : TicketState) :=
  mkTicketState (f (tickets s)) (activities s) (loading s) (error s).
Definition setActivities (f : list Activity.t -> list Activity.t) (s : TicketState) :=
  mkTicketState (tickets s) (f (activities s)) (loading s) (error s).
Definition setLoading (b : bool) (s : TicketState) :=
  mkTicketState (tickets s) (activities s) b (error s).
Definition setError (e : option string) (s : TicketState) :=
  mkTicketState (tickets s) (activities s) (loading s) e.

(** The setters of [TicketDetail]'s local state. *)
Definition setDetailActivities (f : list Activity.t -> list Activity.t) (d : Detail.t) :=
  Detail.mk (f (Detail.activities d)) (Detail.loadingActivities d) (Detail.status d)
            (Detail.priority d) (Detail.comment d) (Detail.isSubmitting d).
Definition setLoadingActivities (b : bool) (d : Detail.t) :=
  Detail.mk (Detail.activities d) b (Detail.status d)
            (Detail.priority d) (Detail.comment d) (Detail.isSubmitting d).
Definition setStatus (v : TicketStatus) (d : Detail.t) :=
  Detail.mk (Detail.activities d) (Detail.loadingActivities d) v
            (Detail.priority d) (Detail.comment d) (Detail.isSubmitting d).
Definition setPriority (v : TicketPriority) (d : Detail.t) :=
  Detail.mk (Detail.activities d) (Detail.loadingActivities d) (Detail.status d)
            v (Detail.comment d) (Detail.isSubmitting d).
Definition setComment (v : string) (d : Detail.t) :=
  Detail.mk (Detail.activities d) (Detail.loadingActivities d) (Detail.status d)
            (Detail.priority d) v (Detail.isSubmitting d).
Definition setIsSubmitting (b : bool) (d : Detail.t) :=
  Detail.mk (Detail.activities d) (Detail.loadingActivities d) (Detail.status d)
            (Detail.priority d) (Detail.comment d) b.

(** The state of a freshly mounted client: [TicketProvider] loading,
    [TicketDetail]'s defaults for a ticket not yet found ([ticket?.status ||
    'new'], [ticket?.priority || 'medium']), no session, no token. *)
Definition initialDetail : Detail.t := Detail.mk [] false new medium "" false.
Definition initialAuth : AuthState := mkAuthState None true.
Definition initialClient (cookie : string) : Client :=
  mkClient initialTicketState initialDetail initialAuth None cookie [].

(** Reduce projections of the component states through the updaters. *)
Ltac state_simp :=
  cbn [store detail auth token cookie toasts map_store map_detail map_auth
       push_toast set_token setTickets setActivities setLoading setError
       tickets activities loading error Detail.activities Detail.loadingActivities
       Detail.status Detail.priority Detail.comment Detail.isSubmitting
       setDetailActivities setLoadingActivities setStatus setPriority setComment
       setIsSubmitting user isLoading] in *.

Lemma TicketStatus_str_inj (s1 s2 : TicketStatus) :
  TicketStatus_str s1 = TicketStatus_str s2 -> s1 = s2.
Proof. destruct s1, s2; simpl; congruence. Qed.

Lemma TicketPriority_str_inj (p1 p2 : TicketPriority) :
  TicketPriority_str p1 = TicketPriority_str p2 -> p1 = p2.
Proof. destruct p1, p2; simpl; congruence. Qed.

Lemma transformTicket_id (d : DjangoTicket.t) :
  Ticket.id (transformTicket d) = DjangoTicket.id d.
Proof. reflexivity. Qed.

Lemma transformTicket_ids (l : list DjangoTicket.t) :
  map Ticket.id (map transformTicket l) = map DjangoTicket.id l.
Proof. rewrite map_map. reflexivity. Qed.

#[export] Hint Rewrite transformTicket_id transformTicket_ids : ticketrax_rw.
