(* ===== verification/Api.v ===== *)
(** * The HTTP surface of the client

    The requests the service layer ([services/ticketService.ts],
    [services/authService.ts]) sends through the shared axios instance
    [api], one constructor per call site, with the method and URL each one
    uses, the type its response body is read at ([response.data]), and the
    failures axios rejects with. *)

From Stdlib Require Import String Ascii.
From stdpp Require Import base list strings.
From S2P Require Import Prelude Model.

Local Open Scope string_scope.
Local Open Scope js_scope.

(** axios rejects on a transport failure (no response) or on a status
    outside 2xx. *)
Inductive HttpError := NetworkError | HttpStatus (code : nat).

(** The outcome of an awaited promise: fulfilled or rejected. *)
Inductive Res (A : Type) := Ok (a : A) | Err (e : HttpError).
Arguments Ok {A} a.
Arguments Err {A} e.

(** [LoginResponse] ([authService.ts] 52-61). *)
Record LoginResponse := mkLoginResponse { lr_token : string; lr_user : User.t }.

Inductive Request :=
| GetTickets                                            (** [getAllTickets] *)
| GetFilteredTickets (query : string)                   (** [getFilteredTickets] *)
| GetTicket (id : string)                               (** [getTicketById] *)
| PostTicket (dto : Dto.create_ticket)                  (** [createTicket] *)
| PatchTicket (id : string) (dto : Dto.update_ticket)   (** [updateTicket] *)
| GetActivities (ticketId : string)                     (** [getTicketActivities] *)
| PostActivity (dto : Dto.create_activity)              (** [createActivity] *)
| PostLogin (email password : string)                   (** [login] *)
| PostLogout                                            (** [logout] *)
| GetUser.                                              (** [getCurrentUser], [isAuthenticated] *)

Definition method (r : Request) : string :=
  match r with
  | GetTickets | GetFilteredTickets _ | GetTicket _ | GetActivities _ | GetUser => "get"
  | PostTicket _ | PostActivity _ | PostLogin _ _ | PostLogout => "post"
  | PatchTicket _ _ => "patch"
  end.

Definition url (r : Request) : string :=
  match r with
  | GetTickets | PostTicket _ => "/tickets/"
  | GetFilteredTickets q => "/tickets/?" +s+ q
  | GetTicket i | PatchTicket i _ => "/tickets/" +s+ i +s+ "/"
  | GetActivities i => "/tickets/" +s+ i +s+ "/activities/"
  | PostActivity _ => "/activities/"
  | PostLogin _ _ => "/auth/login/"
  | PostLogout => "/auth/logout/"
  | GetUser => "/auth/user/"
  end.

(** The type [response.data] is used at. *)
Definition resp (r : Request) : Type :=
  match r with
  | GetTickets | GetFilteredTickets _ => list DjangoTicket.t
  | GetTicket _ | PostTicket _ | PatchTicket _ _ => DjangoTicket.t
  | GetActivities _ => list DjangoActivity.t
  | PostActivity _ => DjangoActivity.t
  | PostLogin _ _ => LoginResponse
  | PostLogout => unit
  | GetUser => User.t
  end.

(** The interceptor attaches the CSRF header to these methods
    ([authService.ts] 39-40). *)
Definition unsafe_method (m : string) : bool :=
  bool_decide (m ∈ ["post"; "put"; "patch"; "delete"]).

(** A request changes server state exactly when its method is unsafe. *)
Definition mutating (r : Request) : bool := unsafe_method (method r).

(** ** The request interceptor ([authService.ts] 17-49) *)

(** The longest prefix without [';'], what [[^;]+] can reach. *)
Fixpoint take_until_semi (s : string) : string :=
  match s with
  | EmptyString => EmptyString
  | String c s' => if Ascii.eqb c ";"%char then EmptyString else String c (take_until_semi s')
  end.

Fixpoint last_char (s : string) : string :=
  match s with
  | EmptyString => EmptyString
  | String c EmptyString => String c EmptyString
  | String _ s' => last_char s'
  end.

(** The group [([^;]+)] after [=\s*]: the greedy [\s*] takes the leading
    white space unless nothing would be left for [[^;]+], in which case it
    backtracks by one character. *)
Definition csrf_value (r : string) : option string :=
  let v := take_until_semi r in
  match v with
  | EmptyString => None
  | _ => match trimStart v with
         | EmptyString => Some (last_char v)
         | v' => Some v'
         end
  end.

(** [\s*csrftoken\s*=\s*([^;]+)] matched at the start of [r]. *)
Definition match_at (r : string) : option string :=
  let r1 := trimStart r in
  if String.prefix "csrftoken" r1 then
    match trimStart (String.substring 9 (String.length r1 - 9) r1) with
    | String c r3 => if Ascii.eqb c "="%char then csrf_value r3 else None
    | EmptyString => None
    end
  else None.

(** The places [(^|;)] can match, leftmost first: the start of the cookie,
    then the text after each [';']. *)
Fixpoint after_semis (s : string) : list string :=
  match s with
  | EmptyString => []
  | String c s' => if Ascii.eqb c ";"%char then s' :: after_semis s' else after_semis s'
  end.

Fixpoint first_match (l : list string) : option string :=
  match l with
  | [] => None
  | r :: l' => match match_at r with Some v => Some v | None => first_match l' end
  end.

(** [getCsrfToken()]: [match ? match.pop() : undefined], where [pop()]
    returns the last group, the value. *)
Definition getCsrfToken (cookie : string) : option string :=
  first_match (cookie :: after_semis cookie).

(** The headers the interceptor sets on a request. *)
Record Headers := mkHeaders { authorization : option string; x_csrftoken : option string }.

Definition intercept (token : option string) (cookie : string) (r : Request) : Headers :=
  {| authorization :=
       match token with
       | Some t => if truthy t then Some ("Token " +s+ t) else None
       | None => None
       end;
     x_csrftoken := if unsafe_method (method r) then getCsrfToken cookie else None |}.
