(* ===== verification/Json.v ===== *)
(** * Request bodies as JSON, and their types

    axios serialises the [data] argument of [api.post] and [api.patch] with
    [JSON.stringify]: an object becomes a JSON object with its properties
    in insertion order, and a property whose value is [undefined] is left
    out.  The bodies are built in [context/TicketContext.tsx] (the DTO
    object literals) and [services/authService.ts] ([{ email, password }]);
    their declared types are the interfaces of [services/ticketService.ts]
    (lines 37-60).  [body] is the JSON a request carries; [conforms] is the
    typing judgment of a JSON object against an interface, with a boolean
    checker [check] proved sound.

    The theorems: every body the client sends conforms to the interface of
    its call site (and so to the shapes of spec section 6), and the server's
    reading of a body gives back the DTO it was built from. *)

From Stdlib Require Import String Ascii.
From stdpp Require Import base list strings.
From S2P Require Import Prelude Model Api.

Local Open Scope string_scope.

(** JSON values, as far as the bodies need them. *)
Inductive json :=
| JNull
| JBool (b : bool)
| JStr (s : string)
| JObj (fields : list (string * json)).

(** The types of the interfaces' properties: [string], or a union of
    string literals. *)
Inductive ty := TString | TLit (literals : list string).

(** An interface: each property with its type and whether it is optional
    ([?:]). *)
Definition iface := list (string * ty * bool).

Definition statuses : list string := map TicketStatus_str [new; open; pending; resolved; closed].
Definition priorities : list string := map TicketPriority_str [low; medium; high; urgent].
Definition activityTypes : list string :=
  map ActivityType_str [status_change; priority_change; assignment; comment].

(** [CreateTicketDto] (lines 37-43). *)
Definition CreateTicketDto : iface :=
  [("title", TString, false); ("description", TString, false); ("priority", TLit priorities, false);
   ("created_by_name", TString, false); ("created_by_email", TString, false)].

(** [UpdateTicketDto] (lines 46-52). *)
Definition UpdateTicketDto : iface :=
  [("title", TString, true); ("description", TString, true); ("status", TLit statuses, true);
   ("priority", TLit priorities, true); ("assigned_to", TString, true)].

(** [CreateActivityDto] (lines 55-60). *)
Definition CreateActivityDto : iface :=
  [("ticket", TString, false); ("type", TLit activityTypes, false); ("message", TString, false);
   ("created_by", TString, false)].

(** The argument of [login] ([authService.ts] 76). *)
Definition LoginBody : iface := [("email", TString, false); ("password", TString, false)].

(** ** Serialisation *)

(** A property of an object literal: left out when [undefined]. *)
Definition prop (k : string) (v : option json) : list (string * json) :=
  match v with Some j => [(k, j)] | None => [] end.

(** [createTicketDto] ([TicketContext.tsx] 190-196). *)
Definition json_of_create (d : Dto.create_ticket) : json :=
  JObj [("title", JStr (Dto.ct_title d)); ("description", JStr (Dto.ct_description d));
        ("priority", JStr (TicketPriority_str (Dto.ct_priority d)));
        ("created_by_name", JStr (Dto.ct_created_by_name d));
        ("created_by_email", JStr (Dto.ct_created_by_email d))].

(** [updateData] ([TicketContext.tsx] 249-255): every property is written,
    those that are [undefined] vanish. *)
Definition json_of_update (d : Dto.update_ticket) : json :=
  JObj (prop "title" (JStr <$> Dto.ut_title d) ++
        prop "description" (JStr <$> Dto.ut_description d) ++
        prop "status" (JStr ∘ TicketStatus_str <$> Dto.ut_status d) ++
        prop "priority" (JStr ∘ TicketPriority_str <$> Dto.ut_priority d) ++
        prop "assigned_to" (JStr <$> Dto.ut_assigned_to d))%list.

(** [createActivityDto] ([TicketContext.tsx] 307-312). *)
Definition json_of_activity (d : Dto.create_activity) : json :=
  JObj [("ticket", JStr (Dto.ca_ticket d)); ("type", JStr (ActivityType_str (Dto.ca_type d)));
        ("message", JStr (Dto.ca_message d)); ("created_by", JStr (Dto.ca_created_by d))].

(** The body of each request ([ticketService.ts] 87, 98, 120;
    [authService.ts] 76 and 90: [logout] posts no data). *)
Definition body (r : Request) : option json :=
  match r with
  | PostTicket d => Some (json_of_create d)
  | PatchTicket _ d => Some (json_of_update d)
  | PostActivity d => Some (json_of_activity d)
  | PostLogin e p => Some (JObj [("email", JStr e); ("password", JStr p)])
  | GetTickets | GetFilteredTickets _ | GetTicket _ | GetActivities _ | PostLogout | GetUser => None
  end.

(** The declared type of the [data] argument at each call site. *)
Definition iface_of (r : Request) : option iface :=
  match r with
  | PostTicket _ => Some CreateTicketDto
  | PatchTicket _ _ => Some UpdateTicketDto
  | PostActivity _ => Some CreateActivityDto
  | PostLogin _ _ => Some LoginBody
  | _ => None
  end.

(** ** Typing *)

Inductive has_type : json -> ty -> Prop :=
| T_String s : has_type (JStr s) TString
| T_Lit s ls : s ∈ ls -> has_type (JStr s) (TLit ls).

(** An object conforms to an interface: its keys are distinct, each is a
    property of the interface with a value of its type, and every required
    property is there. *)
Inductive conforms : json -> iface -> Prop :=
| C_Obj fs (I : iface) :
    NoDup fs.*1 ->
    Forall (fun kv => exists t o, (kv.1, t, o) ∈ I /\ has_type kv.2 t) fs ->
    (forall k t, (k, t, false) ∈ I -> k ∈ fs.*1) ->
    conforms (JObj fs) I.

Definition ty_check (v : json) (t : ty) : bool :=
  match v, t with
  | JStr _, TString => true
  | JStr s, TLit ls => bool_decide (s ∈ ls)
  | _, _ => false
  end.

Fixpoint find_prop (I : iface) (k : string) : option (ty * bool) :=
  match I with
  | [] => None
  | (k', t, o) :: I' => if String.eqb k k' then Some (t, o) else find_prop I' k
  end.

Definition check (j : json) (I : iface) : bool :=
  match j with
  | JObj fs =>
      bool_decide (NoDup fs.*1) &&
      forallb (fun kv => match find_prop I kv.1 with Some (t, _) => ty_check kv.2 t | None => false end) fs &&
      forallb (fun p => p.2 || bool_decide (p.1.1 ∈ fs.*1)) I
  | _ => false
  end.

(** ** The server's reading of a body (spec section 6) *)

Definition field (fs : list (string * json)) (k : string) : option json :=
  snd <$> List.find (fun kv => String.eqb kv.1 k) fs.

Definition str (j : json) : option string := match j with JStr s => Some s | _ => None end.

Definition lit {A} (all : list A) (show : A -> string) (s : string) : option A :=
  List.find (fun a => String.eqb (show a) s) all.

(** An optional property: absent is [None], present must parse. *)
Definition opt_field {A} (fs : list (string * json)) (k : string) (parse : string -> option A)
    : option (option A) :=
  match field fs k with
  | None => Some None
  | Some j => Some <$> (str j ≫= parse)
  end.

Definition decode_create (j : json) : option Dto.create_ticket :=
  match j with
  | JObj fs =>
      t ← field fs "title" ≫= str; d ← field fs "description" ≫= str;
      p ← (field fs "priority" ≫= str) ≫= lit [low; medium; high; urgent] TicketPriority_str;
      n ← field fs "created_by_name" ≫= str; e ← field fs "created_by_email" ≫= str;
      Some (Dto.mkCreateTicket t d p n e)
  | _ => None
  end.

Definition decode_update (j : json) : option Dto.update_ticket :=
  match j with
  | JObj fs =>
      t ← opt_field fs "title" Some; d ← opt_field fs "description" Some;
      s ← opt_field fs "status" (lit [new; open; pending; resolved; closed] TicketStatus_str);
      p ← opt_field fs "priority" (lit [low; medium; high; urgent] TicketPriority_str);
      a ← opt_field fs "assigned_to" Some;
      Some (Dto.mkUpdateTicket t d s p a)
  | _ => None
  end.

Definition decode_activity (j : json) : option Dto.create_activity :=
  match j with
  | JObj fs =>
      t ← field fs "ticket" ≫= str;
      y ← (field fs "type" ≫= str) ≫= lit [status_change; priority_change; assignment; comment] ActivityType_str;
      m ← field fs "message" ≫= str; c ← field fs "created_by" ≫= str;
      Some (Dto.mkCreateActivity t y m c)
  | _ => None
  end.

(** ** The checker is sound *)

Lemma find_prop_in I k t o : find_prop I k = Some (t, o) -> (k, t, o) ∈ I.
Proof.
  induction I as [|[[k' t'] o'] I IH]; cbn; [done|].
  destruct (String.eqb_spec k k') as [->|]; [intros [= -> ->]; by left|]. intros H. right. by apply IH.
Qed.

Lemma ty_check_sound v t : ty_check v t = true -> has_type v t.
Proof.
  destruct v, t; cbn; try discriminate; [constructor|]. intros H%bool_decide_eq_true. by constructor.
Qed.

Lemma check_sound j I : check j I = true -> conforms j I.
Proof.
  destruct j as [|b|s|fs]; cbn; try discriminate.
  intros H. apply andb_true_iff in H as [H Hr]. apply andb_true_iff in H as [Hnd Hf].
  apply bool_decide_eq_true in Hnd.
  constructor; [done| |].
  - apply List.Forall_forall. intros [k v] Hkv. apply forallb_forall with (x := (k, v)) in Hf; [|done].
    cbn in *. destruct (find_prop I k) as [[t o]|] eqn:E; [|discriminate].
    exists t, o. split; [by apply find_prop_in|by apply ty_check_sound].
  - intros k t Hk. apply list_elem_of_In in Hk. apply forallb_forall with (x := (k, t, false)) in Hr; [|done].
    cbn in Hr. by apply bool_decide_eq_true in Hr.
Qed.

(** C8. Every body the client sends is a JSON object of the type its call
    site declares: [createTicket], [updateTicket] and [createActivity]
    send their DTO interfaces of [ticketService.ts] and [login] its
    [{email, password}], with the property names of spec section 6, enum
    values among the declared literals, every required property present
    and no other; the GET requests and [logout] send none.  [updateTicket]
    sends only the fields that are set, and [assigned_to], when sent, is a
    string. *)
Theorem bodies_conform r :
  match body r, iface_of r with
  | Some j, Some ifc => conforms j ifc
  | None, None => True
  | _, _ => False
  end.
Proof.
  destruct r as [|q|i|d|i d|i|d|e p| |]; cbn; try exact I; apply check_sound.
  - destruct d as [t ds [] n e]; vm_compute; reflexivity.
  - destruct d as [[t|] [ds|] [[]|] [[]|] [a|]]; vm_compute; reflexivity.
  - destruct d as [t [] m c]; vm_compute; reflexivity.
  - vm_compute. reflexivity.
Qed.

(** Round trip: reading a body back as spec section 6 describes gives
    the DTO it was serialised from; for an update, a field left out is a
    field not changed. *)
Theorem bodies_roundtrip c u a :
  decode_create (json_of_create c) = Some c /\
  decode_update (json_of_update u) = Some u /\
  decode_activity (json_of_activity a) = Some a.
Proof.
  split_and!.
  - destruct c as [t d [] n e]; reflexivity.
  - destruct u as [[t|] [d|] [[]|] [[]|] [x|]]; reflexivity.
  - destruct a as [t [] m cb]; reflexivity.
Qed.
