(* ===== verification/Prog.v ===== *)
(** * Asynchronous client code and its sequential semantics

    An [async] function of the client is a [Prog]: a tree whose nodes are
    the awaited HTTP calls ([Call], the continuation receives the fulfilled
    value or the rejection) and the React state updates ([Modify], a
    functional updater applied to the whole [Client]).  [bind] is [await]
    sequencing, [catch] and [finally] are JavaScript's [try/catch/finally].

    [run] executes a program against a gateway, a type class [Gateway] with
    a server state and one handler; the world records every request issued,
    in order, so that "no request is made" and "PATCH precedes POST" are
    statements about [log].  [run] is structural on the program: every
    client operation terminates. *)

From stdpp Require Import base list strings.
From S2P Require Import Prelude Model Api.

Inductive Prog (A : Type) : Type :=
| Ret (a : A)
| Throw (e : HttpError)
| Call (r : Request) (k : Res (resp r) -> Prog A)
| Modify (f : Client -> Client) (k : Prog A)
| Get (k : Client -> Prog A).
Arguments Ret {A} a.
Arguments Throw {A} e.
Arguments Call {A} r k.
Arguments Modify {A} f k.
Arguments Get {A} k.

Fixpoint bind {A B} (p : Prog A) (f : A -> Prog B) : Prog B :=
  match p with
  | Ret a => f a
  | Throw e => Throw e
  | Call r k => Call r (fun x => bind (k x) f)
  | Modify g k => Modify g (bind k f)
  | Get k => Get (fun c => bind (k c) f)
  end.

#[export] Instance Prog_ret : MRet Prog := @Ret.
#[export] Instance Prog_bind : MBind Prog := fun A B f p => bind p f.

(** [await api.<method>(url, ...)]: a rejection becomes a throw. *)
Definition await (r : Request) : Prog (resp r) :=
  Call r (fun x => match x with Ok v => Ret v | Err e => Throw e end).

Definition modify (f : Client -> Client) : Prog unit := Modify f (Ret tt).

(** A synchronous read of state outside React ([localStorage]). *)
Definition read : Prog Client := Get Ret.

Definition toast (title description : string) (destructive : bool) : Prog unit :=
  modify (push_toast (mkToast title description destructive)).

(** [try { p } catch (err) { h(err) }] *)
Fixpoint catch {A} (p : Prog A) (h : HttpError -> Prog A) : Prog A :=
  match p with
  | Ret a => Ret a
  | Throw e => h e
  | Call r k => Call r (fun x => catch (k x) h)
  | Modify g k => Modify g (catch k h)
  | Get k => Get (fun c => catch (k c) h)
  end.

(** [try { p } finally { q }]: [q] runs on both outcomes; a throw of [q]
    replaces the outcome of [p]. *)
Fixpoint finally {A} (p : Prog A) (q : Prog unit) : Prog A :=
  match p with
  | Ret a => bind q (fun _ => Ret a)
  | Throw e => bind q (fun _ => Throw e)
  | Call r k => Call r (fun x => finally (k x) q)
  | Modify g k => Modify g (finally k q)
  | Get k => Get (fun c => finally (k c) q)
  end.

Definition try_catch_finally {A} (p : Prog A) (h : HttpError -> Prog A)
    (q : Prog unit) : Prog A :=
  finally (catch p h) q.

(** ** The gateway and the world *)

(** The backend as the client sees it: it receives each request with the
    headers the interceptor attached. *)
Class Gateway (S : Type) :=
  handle : S -> Headers -> forall r : Request, S * Res (resp r).

Record World (S : Type) := mkWorld { srv : S; client : Client; log : list Request }.
Arguments mkWorld {S} srv client log.
Arguments srv {S} w.
Arguments client {S} w.
Arguments log {S} w.

(** The interceptor reads [localStorage] and [document.cookie] when the
    request leaves. *)
Definition hdrs (c : Client) (r : Request) : Headers :=
  intercept (token c) (cookie c) r.

Section Run.
Context {S : Type} `{!Gateway S}.

Fixpoint run {A} (p : Prog A) (w : World S) : World S * Res A :=
    match p with
    | Ret a => (w, Ok a)
    | Throw e => (w, Err e)
    | Call r k =>
        let '(s', x) := handle (srv w) (hdrs (client w) r) r in
        run (k x) (mkWorld s' (client w) (log w ++ [r]))
    | Modify f k => run k (mkWorld (srv w) (f (client w)) (log w))
    | Get k => run (k (client w)) w
    end.

  (** Continue with [f] on a fulfilled outcome. *)
Definition and_then {A B} (o : World S * Res A) (f : A -> World S -> World S * Res B)
      : World S * Res B :=
    match o with
    | (w', Ok a) => f a w'
    | (w', Err e) => (w', Err e)
    end.

Lemma run_bind_raw {A B} (p : Prog A) (f : A -> Prog B) w :
    run (bind p f) w = and_then (run p w) (fun a => run (f a)).
  Proof.
    revert w. induction p as [a|e|r k IH|g k IH|k IH]; intros w; try done; simpl.
    - destruct (handle (srv w) (hdrs (client w) r) r). apply IH.
    - apply IH.
    - apply IH.
  Qed.

Lemma run_bind {A B} (p : Prog A) (f : A -> Prog B) w :
    run (x ← p; f x) w = and_then (run p w) (fun a => run (f a)).
  Proof. apply run_bind_raw. Qed.

Lemma run_catch {A} (p : Prog A) h w :
    run (catch p h) w =
      match run p w with
      | (w', Ok a) => (w', Ok a)
      | (w', Err e) => run (h e) w'
      end.
  Proof.
    revert w. induction p as [a|e|r k IH|g k IH|k IH]; intros w; try done; simpl.
    - destruct (handle (srv w) (hdrs (client w) r) r). apply IH.
    - apply IH.
    - apply IH.
  Qed.

Lemma run_finally {A} (p : Prog A) q w :
    run (finally p q) w =
      let '(w', x) := run p w in
      match run q w' with
      | (w'', Ok _) => (w'', x)
      | (w'', Err e) => (w'', Err e)
      end.
  Proof.
    revert w. induction p as [a|e|r k IH|g k IH|k IH]; intros w; simpl.
    - rewrite run_bind_raw. destruct (run q w) as [? []]; done.
    - rewrite run_bind_raw. destruct (run q w) as [? []]; done.
    - destruct (handle (srv w) (hdrs (client w) r) r). apply IH.
    - apply IH.
    - apply IH.
  Qed.

Lemma run_await r w :
    run (await r) w =
      let '(s', x) := handle (srv w) (hdrs (client w) r) r in
      (mkWorld s' (client w) (log w ++ [r]), x).
  Proof. simpl. destruct (handle (srv w) (hdrs (client w) r) r) as [s' []]; done. Qed.

Lemma run_read w : run read w = (w, Ok (client w)).
  Proof. done. Qed.

Lemma run_ret {A} (a : A) w : run (Ret a) w = (w, Ok a).
  Proof. done. Qed.

Lemma run_throw {A} e w : run (Throw (A:=A) e) w = (w, Err e).
  Proof. done. Qed.

Lemma run_toast ti de b w :
    run (toast ti de b) w =
      (mkWorld (srv w) (push_toast (mkToast ti de b) (client w)) (log w), Ok tt).
  Proof. done. Qed.

Lemma run_modify f w :
    run (modify f) w = (mkWorld (srv w) (f (client w)) (log w), Ok tt).
  Proof. done. Qed.

  (** Requests are only ever appended to the log. *)
Lemma run_log_extends {A} (p : Prog A) w :
    exists l, log (fst (run p w)) = log w ++ l.
  Proof.
    revert w. induction p as [a|e|r k IH|g k IH|k IH]; intros w; simpl.
    - exists []. by rewrite app_nil_r.
    - exists []. by rewrite app_nil_r.
    - destruct (handle (srv w) (hdrs (client w) r) r) as [s' x].
      destruct (IH x (mkWorld s' (client w) (log w ++ [r]))) as [l Hl].
      exists (r :: l). rewrite Hl. simpl. by rewrite <- app_assoc.
    - destruct (IH (mkWorld (srv w) (g (client w)) (log w))) as [l Hl].
      exists l. exact Hl.
    - apply IH.
  Qed.
End Run.

(** React state updates leave the headers alone. *)
Lemma hdrs_map_store f c r : hdrs (map_store f c) r = hdrs c r.
Proof. done. Qed.
Lemma hdrs_map_detail f c r : hdrs (map_detail f c) r = hdrs c r.
Proof. done. Qed.
Lemma hdrs_map_auth f c r : hdrs (map_auth f c) r = hdrs c r.
Proof. done. Qed.
Lemma hdrs_push_toast m c r : hdrs (push_toast m c) r = hdrs c r.
Proof. done. Qed.

Create Rewrite HintDb prog_rw.
#[export] Hint Rewrite @run_bind @run_catch @run_finally @run_await @run_modify @run_read @run_ret @run_throw @run_toast
  hdrs_map_store hdrs_map_detail hdrs_map_auth hdrs_push_toast : prog_rw.

(** Execute a program run symbolically: rewrite with the combinator
    equations and reduce the continuations they expose, until the next
    gateway answer blocks the computation. *)
Ltac run_simp :=
  repeat progress (autorewrite with prog_rw;
    try match goal with |- context [run (await ?r) ?w] => rewrite (run_await r w) end;
    cbn [and_then fst snd srv client log]).

(** Feed the gateway answer [H : handle _ _ r = (s', x)] to the run and
    continue. *)
Ltac run_with H := rewrite ?H; run_simp.
