(* ===== verification/Service.v ===== *)
(** * The service layer and the backend contract

    [TicketService] and [AuthService] are [services/ticketService.ts] and
    [services/authService.ts]: each function awaits one request and rethrows
    what it catches (after a [console.error], not modelled).  [login],
    [logout] and [isAuthenticated] also write [localStorage].

    [BackendSpec] is the contract the client relies on (spec section 6): an
    abstract ticket table [srv_tickets] with an invariant, and what each
    endpoint promises about it.  The client's theorems in [Store] and
    [Workflow] are proved against this class, for every gateway that
    satisfies it; [Backend] gives one. *)

From stdpp Require Import base list strings.
From S2P Require Import Prelude UrlEncode Model Api Prog.

Local Open Scope string_scope.
Local Open Scope js_scope.

(** [try { ... } catch (error) { console.error(...); throw error; }] *)
Definition rethrow {A} (p : Prog A) : Prog A := catch p Throw.

Module TicketService.
Definition getAllTickets : Prog (list DjangoTicket.t) := rethrow (await GetTickets).
Definition getTicketById (id : string) : Prog DjangoTicket.t :=
    rethrow (await (GetTicket id)).
Definition createTicket (dto : Dto.create_ticket) : Prog DjangoTicket.t :=
    rethrow (await (PostTicket dto)).
Definition updateTicket (id : string) (dto : Dto.update_ticket) : Prog DjangoTicket.t :=
    rethrow (await (PatchTicket id dto)).
Definition getTicketActivities (ticketId : string) : Prog (list DjangoActivity.t) :=
    rethrow (await (GetActivities ticketId)).
Definition createActivity (dto : Dto.create_activity) : Prog DjangoActivity.t :=
    rethrow (await (PostActivity dto)).

  (** The argument of [getFilteredTickets]:
      [Partial<{ status; priority; search }>]. *)
Record Filters := mkFilters {
    f_status : option TicketStatus;
    f_priority : option TicketPriority;
    f_search : option string }.

  (** [if (filters.x) params.append('x', filters.x)]: a present, truthy
      value is appended. *)
Definition append_if (name : string) (v : option string) : list (string * string) :=
    match v with
    | Some x => if truthy x then [(name, x)] else []
    | None => []
    end.

  (** The entries of [params], in the order of the three [append]s. *)
Definition filter_params (filters : Filters) : list (string * string) :=
    append_if "status" (TicketStatus_str <$> f_status filters) ++
    append_if "priority" (TicketPriority_str <$> f_priority filters) ++
    append_if "search" (f_search filters).

  (** [api.get(`/tickets/?${params.toString()}`)] *)
Definition getFilteredTickets (filters : Filters) : Prog (list DjangoTicket.t) :=
    rethrow (await (GetFilteredTickets
                      (URLSearchParams.query_string (filter_params filters)))).
End TicketService.

Module AuthService.
  (** [login]: the token is stored before the response is returned. *)
Definition login (email password : string) : Prog LoginResponse :=
    rethrow (r ← await (PostLogin email password);
             _ ← modify (set_token (Some (lr_token r)));
             Ret r).

  (** [logout]: a failed request is swallowed; the token is removed in
      every case. *)
Definition logout : Prog unit :=
    finally (catch (await PostLogout) (fun _ => Ret tt))
            (modify (set_token None)).

Definition getCurrentUser : Prog User.t := rethrow (await GetUser).

  (** [isAuthenticated]: no token (or an empty one) answers [false] without
      a request; a failed check removes the token. *)
Definition isAuthenticated : Prog bool :=
    catch (c ← read;
           match token c with
           | Some t => if truthy t then (_ ← await GetUser; Ret true) else Ret false
           | None => Ret false
           end)
          (fun _ => _ ← modify (set_token None); Ret false).
End AuthService.

(** ** The backend contract *)

Definition ticket_ids (l : list DjangoTicket.t) : list string := map DjangoTicket.id l.

Class BackendSpec (S : Type) `{!Gateway S} := {
  srv_tickets : S -> list DjangoTicket.t;
  srv_inv : S -> Prop;
  (** every request keeps the invariant and forgets no ticket *)
  handle_inv s h r : srv_inv s -> srv_inv (fst (handle s h r));
  handle_ids_grow s h r :
    srv_inv s -> ticket_ids (srv_tickets s) ⊆ ticket_ids (srv_tickets (fst (handle s h r)));
  srv_nodup s : srv_inv s -> NoDup (ticket_ids (srv_tickets s));
  (** [GET /tickets/] lists the table *)
  get_tickets_ok s h s' l :
    handle s h GetTickets = (s', Ok l) -> l = srv_tickets s';
  (** [POST /tickets/] stores a new ticket under a fresh id, in state [new],
      with the submitted fields *)
  post_ticket_ok s h dto s' t :
    srv_inv s -> handle s h (PostTicket dto) = (s', Ok t) ->
    (DjangoTicket.id t ∉ ticket_ids (srv_tickets s)) /\
    (DjangoTicket.id t ∈ ticket_ids (srv_tickets s')) /\
    DjangoTicket.status t = new /\
    DjangoTicket.title t = Dto.ct_title dto /\
    DjangoTicket.description t = Dto.ct_description dto /\
    DjangoTicket.priority t = Dto.ct_priority dto /\
    DjangoTicket.created_by_name t = Dto.ct_created_by_name dto /\
    DjangoTicket.created_by_email t = Dto.ct_created_by_email dto;
  (** [PATCH /tickets/{id}/] answers the ticket [id], with every field the
      body sets *)
  patch_ticket_ok s h i dto s' t :
    handle s h (PatchTicket i dto) = (s', Ok t) ->
    DjangoTicket.id t = i /\
    (forall v, Dto.ut_status dto = Some v -> DjangoTicket.status t = v) /\
    (forall v, Dto.ut_priority dto = Some v -> DjangoTicket.priority t = v);
  (** [POST /activities/] echoes the submitted activity *)
  post_activity_ok s h dto s' a :
    handle s h (PostActivity dto) = (s', Ok a) ->
    DjangoActivity.ticket a = Dto.ca_ticket dto /\
    DjangoActivity.type a = Dto.ca_type dto /\
    DjangoActivity.message a = Dto.ca_message dto /\
    DjangoActivity.created_by a = Dto.ca_created_by dto
}.

Arguments srv_tickets {S _ _} s.
Arguments srv_inv {S _ _} s.

Lemma run_rethrow {S} `{!Gateway S} {A} (p : Prog A) w : run (rethrow p) w = run p w.
Proof. unfold rethrow. rewrite run_catch. destruct (run p w) as [? []]; done. Qed.

#[export] Hint Rewrite @run_rethrow : prog_rw.

(** ** [getFilteredTickets] *)

Section Filtered.
Context {S : Type} `{!Gateway S}.
Import TicketService.

(** C24. [getFilteredTickets] sends one [GET /tickets/?query] whose query
    string the server's urlencoded parser reads back as exactly the filters
    the caller set (status, then priority, then a non-empty search), with
    any characters in the search term, [&], [=], [+], [%] and accented
    letters included; the promise resolves with the server's answer. *)
Theorem getFilteredTickets_query (filters : Filters) (w : World S) :
  let r := GetFilteredTickets (URLSearchParams.query_string (filter_params filters)) in
  run (getFilteredTickets filters) w =
    (mkWorld (fst (handle (srv w) (hdrs (client w) r) r)) (client w) (log w ++ [r]),
     snd (handle (srv w) (hdrs (client w) r) r)) /\
  URLSearchParams.parse_query_string (URLSearchParams.query_string (filter_params filters)) =
    Some ((match f_status filters with Some s => [("status", TicketStatus_str s)] | None => [] end) ++
          (match f_priority filters with Some p => [("priority", TicketPriority_str p)] | None => [] end) ++
          (match f_search filters with
           | Some q => if bool_decide (q = "") then [] else [("search", q)]
           | None => [] end))%list.
Proof.
  split.
  - unfold getFilteredTickets. run_simp. by destruct (handle _ _ _).
  - rewrite URLSearchParams.query_string_roundtrip. f_equal. unfold filter_params, append_if.
    f_equal; [by destruct (f_status filters) as [[]|]|f_equal; [by destruct (f_priority filters) as [[]|]|]].
    destruct (f_search filters) as [q|]; [|done]. unfold truthy.
    destruct q; [done|]. by rewrite bool_decide_false.
Qed.
End Filtered.
