(* ===== verification/Backend.v ===== *)
(** * A reference backend

    The Django REST backend is not part of the repository; the client only
    consumes its contract (spec section 6).  [Django] is an executable
    reference implementation of that contract: a ticket table, an activity
    table, a counter for fresh ids, a clock for timestamps, the accounts and
    the open sessions.  [Django_spec] proves it satisfies [BackendSpec], so
    the contract is consistent and the client theorems have concrete
    instances: the witnesses of [Store] and [Workflow] run against it. *)

From stdpp Require Import base list strings pretty.
From S2P Require Import Prelude UrlEncode Model Api Prog Service.

Local Open Scope string_scope.
Local Open Scope js_scope.

Module Django.

Record state := mk {
    db_tickets : list DjangoTicket.t;
    db_activities : list DjangoActivity.t;
    next_id : N;
    clock : N;
    accounts : list (string * string * User.t);
    sessions : list (string * User.t) }.

Definition fresh_id (s : state) : string := pretty (next_id s).
Definition stamp (s : state) : string := pretty (clock s).

  (** A request that created a record: the counter and the clock advance. *)
Definition tick (s : state) : state :=
    mk (db_tickets s) (db_activities s) (N.succ (next_id s)) (N.succ (clock s))
       (accounts s) (sessions s).

Definition set_tickets (l : list DjangoTicket.t) (s : state) : state :=
    mk l (db_activities s) (next_id s) (clock s) (accounts s) (sessions s).
Definition set_activities (l : list DjangoActivity.t) (s : state) : state :=
    mk (db_tickets s) l (next_id s) (clock s) (accounts s) (sessions s).
Definition set_sessions (l : list (string * User.t)) (s : state) : state :=
    mk (db_tickets s) (db_activities s) (next_id s) (clock s) (accounts s) l.

Definition find_ticket (s : state) (i : string) : option DjangoTicket.t :=
    List.find (fun t => bool_decide (DjangoTicket.id t = i)) (db_tickets s).

Definition find_user (s : state) (uid : string) : option User.t :=
    List.find (fun u => bool_decide (User.id u = uid)) (map (fun a => a.2) (accounts s)).

  (** The session of an [Authorization: Token <key>] header. *)
Definition session_key (h : Headers) : option string :=
    match authorization h with
    | Some v =>
        if String.prefix "Token " v
        then Some (String.substring 6 (String.length v - 6) v) else None
    | None => None
    end.

Definition session_user (s : state) (h : Headers) : option User.t :=
    k ← session_key h; (fun p => p.2) <$> List.find (fun p => bool_decide (p.1 = k)) (sessions s).

Definition new_ticket (s : state) (dto : Dto.create_ticket) : DjangoTicket.t :=
    {| DjangoTicket.id := fresh_id s;
       DjangoTicket.title := Dto.ct_title dto;
       DjangoTicket.description := Dto.ct_description dto;
       DjangoTicket.status := new;
       DjangoTicket.priority := Dto.ct_priority dto;
       DjangoTicket.created_by_name := Dto.ct_created_by_name dto;
       DjangoTicket.created_by_email := Dto.ct_created_by_email dto;
       DjangoTicket.assigned_to := None;
       DjangoTicket.created_at := stamp s;
       DjangoTicket.updated_at := stamp s |}.

  (** A partial update: the fields present in the body, a fresh
      [updated_at]. *)
Definition patched (dto : Dto.update_ticket) (assignee : option User.t) (now : string)
      (t : DjangoTicket.t) : DjangoTicket.t :=
    {| DjangoTicket.id := DjangoTicket.id t;
       DjangoTicket.title := default (DjangoTicket.title t) (Dto.ut_title dto);
       DjangoTicket.description := default (DjangoTicket.description t) (Dto.ut_description dto);
       DjangoTicket.status := default (DjangoTicket.status t) (Dto.ut_status dto);
       DjangoTicket.priority := default (DjangoTicket.priority t) (Dto.ut_priority dto);
       DjangoTicket.created_by_name := DjangoTicket.created_by_name t;
       DjangoTicket.created_by_email := DjangoTicket.created_by_email t;
       DjangoTicket.assigned_to :=
         match Dto.ut_assigned_to dto with
         | Some _ => assignee
         | None => DjangoTicket.assigned_to t
         end;
       DjangoTicket.created_at := DjangoTicket.created_at t;
       DjangoTicket.updated_at := now |}.

Definition new_activity (s : state) (dto : Dto.create_activity) : DjangoActivity.t :=
    {| DjangoActivity.id := fresh_id s;
       DjangoActivity.ticket := Dto.ca_ticket dto;
       DjangoActivity.type := Dto.ca_type dto;
       DjangoActivity.message := Dto.ca_message dto;
       DjangoActivity.created_by := Dto.ca_created_by dto;
       DjangoActivity.created_at := stamp s |}.

  (** The filters of [GET /tickets/?...] as the backend applies them:
      exact status and priority, and a case-insensitive search in the
      title, the description and the submitter's name and e-mail; other
      parameters are ignored. *)
Definition param_matches (t : DjangoTicket.t) (p : string * string) : bool :=
    if String.eqb p.1 "status" then String.eqb (TicketStatus_str (DjangoTicket.status t)) p.2
    else if String.eqb p.1 "priority" then String.eqb (TicketPriority_str (DjangoTicket.priority t)) p.2
    else if String.eqb p.1 "search" then
      existsb (fun f => includes (toLowerCase f) (toLowerCase p.2))
        [DjangoTicket.title t; DjangoTicket.description t;
         DjangoTicket.created_by_name t; DjangoTicket.created_by_email t]
    else true.

Definition handle_django (s : state) (h : Headers) (r : Request) : state * Res (resp r) :=
    match r as r0 return state * Res (resp r0) with
    | GetTickets => (s, Ok (db_tickets s))
    | GetFilteredTickets q =>
        match URLSearchParams.parse_query_string q with
        | Some ps => (s, Ok (List.filter (fun t => forallb (param_matches t) ps) (db_tickets s)))
        | None => (s, Err (HttpStatus 400))
        end
    | GetTicket i =>
        match find_ticket s i with
        | Some t => (s, Ok t)
        | None => (s, Err (HttpStatus 404))
        end
    | PostTicket dto =>
        let t := new_ticket s dto in
        (tick (set_tickets (db_tickets s ++ [t]) s), Ok t)
    | PatchTicket i dto =>
        match find_ticket s i with
        | None => (s, Err (HttpStatus 404))
        | Some t =>
            let assignee := Dto.ut_assigned_to dto ≫= find_user s in
            if bool_decide (is_Some (Dto.ut_assigned_to dto) /\ assignee = None)
            then (s, Err (HttpStatus 400))
            else
              let t' := patched dto assignee (stamp s) t in
              (tick (set_tickets (replace_where (fun x => bool_decide (DjangoTicket.id x = i)) t'
                                                (db_tickets s)) s), Ok t')
        end
    | GetActivities i =>
        (s, Ok (List.filter (fun a => bool_decide (DjangoActivity.ticket a = i)) (db_activities s)))
    | PostActivity dto =>
        match find_ticket s (Dto.ca_ticket dto) with
        | None => (s, Err (HttpStatus 400))
        | Some _ =>
            let a := new_activity s dto in
            (tick (set_activities (db_activities s ++ [a]) s), Ok a)
        end
    | PostLogin e p =>
        match List.find (fun a => bool_decide (a.1.1 = e /\ a.1.2 = p)) (accounts s) with
        | Some a =>
            let key := "key" +s+ fresh_id s in
            (tick (set_sessions ((key, a.2) :: sessions s) s), Ok (mkLoginResponse key a.2))
        | None => (s, Err (HttpStatus 400))
        end
    | PostLogout =>
        match session_key h with
        | Some k => (set_sessions (List.filter (fun p => negb (bool_decide (p.1 = k))) (sessions s)) s, Ok tt)
        | None => (s, Err (HttpStatus 401))
        end
    | GetUser =>
        match session_user s h with
        | Some u => (s, Ok u)
        | None => (s, Err (HttpStatus 401))
        end
    end.

  (** Every ticket id was drawn from the counter, and no id repeats. *)
Definition ids_below (s : state) : Prop :=
    Forall (fun i => exists k, (k < next_id s)%N /\ i = pretty k) (ticket_ids (db_tickets s)).

Definition inv (s : state) : Prop := NoDup (ticket_ids (db_tickets s)) /\ ids_below s.

Definition below (n : N) (l : list string) : Prop :=
    Forall (fun i => exists k, (k < n)%N /\ i = pretty k) l.

End Django.

#[export] Instance Django_gateway : Gateway Django.state := Django.handle_django.

(** An empty backend with the given accounts. *)
Definition django_empty (accounts : list (string * string * User.t)) : Django.state :=
  Django.mk [] [] 0 0 accounts [].

(** A backend that cannot be reached: every request is rejected with a
    network error. *)
#[export] Instance offline_gateway : Gateway unit := fun s _ r => (s, Err NetworkError).

(** The reference backend behind an unreliable network: the next
    [pending] requests selected by [failing] are lost with a network error,
    every other request reaches the backend. *)
Record Flaky := mkFlaky { failing : Request -> bool; pending : nat; inner : Django.state }.

Definition handle_flaky (st : Flaky) (h : Headers) (r : Request) : Flaky * Res (resp r) :=
  if (failing st r && Nat.ltb 0 (pending st))%bool
  then (mkFlaky (failing st) (Nat.pred (pending st)) (inner st), Err NetworkError)
  else let '(s', x) := Django.handle_django (inner st) h r in
       (mkFlaky (failing st) (pending st) s', x).

#[export] Instance Flaky_gateway : Gateway Flaky := handle_flaky.

Definition is_patch (r : Request) : bool :=
  match r with PatchTicket _ _ => true | _ => false end.
Definition is_post_activity (r : Request) : bool :=
  match r with PostActivity _ => true | _ => false end.

Module DjangoFacts.
Import Django.

Lemma below_mono n m l : (n <= m)%N -> below n l -> below m l.
  Proof.
    intros Hnm Hb. eapply Forall_impl; [exact Hb|].
    intros i (k & Hk & ->). exists k. split; [lia|done].
  Qed.

Lemma fresh_not_below n l : below n l -> pretty n ∉ l.
  Proof.
    intros Hb Hin. unfold below in Hb. rewrite Forall_forall in Hb.
    destruct (Hb _ Hin) as (k & Hk & Heq).
    apply (inj pretty) in Heq. lia.
  Qed.

Lemma find_ticket_id s i t : find_ticket s i = Some t -> DjangoTicket.id t = i.
  Proof.
    unfold find_ticket. intros H. apply List.find_some in H as [_ H].
    by apply bool_decide_eq_true in H.
  Qed.

  (** What a request does to the ticket ids and the counter. *)
Lemma handle_ids s h r :
    (next_id s <= next_id (fst (handle_django s h r)))%N /\
    (ticket_ids (db_tickets (fst (handle_django s h r))) = ticket_ids (db_tickets s) \/
     exists dto, r = PostTicket dto /\
       ticket_ids (db_tickets (fst (handle_django s h r))) =
         (ticket_ids (db_tickets s) ++ [fresh_id s])%list /\
       next_id (fst (handle_django s h r)) = N.succ (next_id s)).
  Proof.
    destruct r as [|q|i|dto|i dto|i|dto|e p| |]; cbn; try (split; [lia|by left]).
    - case_match; cbn; split; [lia|by left|lia|by left].
    - destruct (find_ticket s i); cbn; split; [lia|by left|lia|by left].
    - split; [lia|]. right. exists dto. split; [done|].
      unfold ticket_ids. rewrite map_app. done.
    - destruct (find_ticket s i) as [t|] eqn:Hf; cbn; [|split; [lia|by left]].
      case_bool_decide; cbn; split; try lia; left; [done|].
      apply replace_where_keys. intros x Hx. apply bool_decide_eq_true in Hx.
      cbn. rewrite Hx. by apply find_ticket_id in Hf.
    - destruct (find_ticket s (Dto.ca_ticket dto)); cbn; split; [lia|by left|lia|by left].
    - case_match; cbn; split; [lia|by left|lia|by left].
    - case_match; cbn; split; [lia|by left|lia|by left].
    - case_match; cbn; split; [lia|by left|lia|by left].
  Qed.

Lemma handle_inv s h r : inv s -> inv (fst (handle_django s h r)).
  Proof.
    intros [Hnd Hb]. destruct (handle_ids s h r) as [Hmono [Heq | (dto & -> & Heq & Hn)]].
    - unfold inv, ids_below. rewrite Heq. split; [done|]. by eapply below_mono.
    - unfold inv, ids_below. rewrite Heq, Hn. split.
      + apply NoDup_app. split; [done|]. split; [|apply NoDup_singleton].
        intros x Hx ->%list_elem_of_singleton. by apply (fresh_not_below (next_id s)) in Hx.
      + apply Forall_app. split.
        * eapply below_mono; [|exact Hb]. lia.
        * constructor; [|constructor]. exists (next_id s). split; [lia|done].
  Qed.

Lemma handle_ids_grow s h r :
    ticket_ids (db_tickets s) ⊆ ticket_ids (db_tickets (fst (handle_django s h r))).
  Proof.
    destruct (handle_ids s h r) as [_ [-> | (dto & _ & -> & _)]]; [done|].
    apply list_subseteq_app_l. done.
  Qed.
End DjangoFacts.

#[export] Instance Django_spec : @BackendSpec Django.state Django_gateway.
Proof.
  refine {| srv_tickets := Django.db_tickets; srv_inv := Django.inv |}.
  - intros s h r. apply DjangoFacts.handle_inv.
  - intros s h r _. apply DjangoFacts.handle_ids_grow.
  - by intros s [? _].
  - intros s h s' l H. cbn in H. by simplify_eq.
  - intros s h dto s' t [_ Hb] H. cbn in H. simplify_eq. cbn.
    unfold ticket_ids. rewrite map_app. cbn.
    split; [by apply DjangoFacts.fresh_not_below|].
    split; [apply elem_of_app; right; by left|].
    repeat split.
  - intros s h i dto s' t H. cbn in H.
    destruct (Django.find_ticket s i) as [t0|] eqn:Hf; [|done].
    case_bool_decide; simplify_eq. cbn.
    split; [by apply DjangoFacts.find_ticket_id in Hf|].
    split; intros v ->; done.
  - intros s h dto s' a H. cbn in H.
    destruct (Django.find_ticket s (Dto.ca_ticket dto)); simplify_eq. done.
Defined.

Lemma django_empty_inv accounts : Django.inv (django_empty accounts).
Proof. split; constructor. Qed.
