(* ===== verification/Store.v ===== *)
(** * The ticket store: [TicketProvider] ([context/TicketContext.tsx])

    The provider's state is [store : TicketState] of the [Client]; its
    operations are [Prog]s that await one service call and then apply React
    functional updaters, in the order of the source, inside the same
    [try/catch/finally].  The synchronous helpers read the render-time
    snapshot.

    The theorems give each operation's outcome on success and on failure,
    and show that the snapshot invariant [Sync] (unique ids, each id known to
    the backend) is preserved by every operation against any backend that
    satisfies [BackendSpec]. *)

From stdpp Require Import base list strings relations.
From S2P Require Import Prelude Model Api Prog Service Backend.

Local Open Scope string_scope.

Module TicketProvider.

  (** [fetchTickets] (lines 134-168): the snapshot is replaced wholesale. *)
Definition fetchTickets : Prog unit :=
    try_catch_finally
      (_ ← modify (map_store (setLoading true));
       fetchedTickets ← TicketService.getAllTickets;
       let transformedTickets := map transformTicket fetchedTickets in
       _ ← modify (map_store (setTickets (fun _ => transformedTickets)));
       modify (map_store (setError None)))
      (fun _ =>
         _ ← modify (map_store (setError (Some "Failed to load tickets from server")));
         toast "Error" "Failed to load tickets. Please try again later." true)
      (modify (map_store (setLoading false))).

  (** [createTicket] (lines 177-235): the canonical ticket is appended. *)
Definition createTicket (ticketData : TicketInput) : Prog Ticket.t :=
    try_catch_finally
      (_ ← modify (map_store (setLoading true));
       newTicket ← TicketService.createTicket (createTicketDto ticketData);
       let transformedTicket := transformTicket newTicket in
       _ ← modify (map_store (setTickets (fun prev => (prev ++ [transformedTicket])%list)));
       _ ← toast "Ticket Created" "Your ticket has been submitted successfully." false;
       Ret transformedTicket)
      (fun err =>
         _ ← toast "Error" "Failed to create ticket. Please try again." true;
         Throw err)
      (modify (map_store (setLoading false))).

Definition same_id (ticketId : string) (t : Ticket.t) : bool :=
    bool_decide (Ticket.id t = ticketId).

  (** [updateTicket] (lines 244-296): the entry with the requested id is
      replaced by the server's answer; no local lookup guards the request. *)
Definition updateTicket (ticketId : string) (updates : TicketUpdates) : Prog Ticket.t :=
    try_catch_finally
      (_ ← modify (map_store (setLoading true));
       updatedTicket ← TicketService.updateTicket ticketId (updateData updates);
       let transformedTicket := transformTicket updatedTicket in
       _ ← modify (map_store (setTickets (replace_where (same_id ticketId) transformedTicket)));
       _ ← toast "Ticket Updated" "Ticket has been updated successfully." false;
       Ret transformedTicket)
      (fun err =>
         _ ← toast "Error" "Failed to update ticket. Please try again." true;
         Throw err)
      (modify (map_store (setLoading false))).

  (** [addActivity] (lines 303-340): the canonical activity is appended. *)
Definition addActivity (activityData : Activity.input) : Prog Activity.t :=
    try_catch_finally
      (_ ← modify (map_store (setLoading true));
       newActivity ← TicketService.createActivity (createActivityDto activityData);
       let transformedActivity := transformActivity newActivity in
       _ ← modify (map_store (setActivities (fun prev => (prev ++ [transformedActivity])%list)));
       Ret transformedActivity)
      (fun err =>
         _ ← toast "Error" "Failed to add comment or update. Please try again." true;
         Throw err)
      (modify (map_store (setLoading false))).

  (** [getTicketById] (lines 350-352) *)
Definition getTicketById (tickets : list Ticket.t) (id : string) : option Ticket.t :=
    List.find (same_id id) tickets.

  (** [getActivitiesByTicketId] (lines 360-362) *)
Definition getActivitiesByTicketId (activities : list Activity.t) (ticketId : string)
      : list Activity.t :=
    List.filter (fun a => bool_decide (Activity.ticketId a = ticketId)) activities.

  (** [filterTickets] (lines 370-376): an absent filter does not constrain. *)
Definition filterTickets (tickets : list Ticket.t) (status : option TicketStatus)
      (priority : option TicketPriority) : list Ticket.t :=
    List.filter (fun t =>
      match status with
      | Some s => bool_decide (Ticket.status t = s)
      | None => true
      end &&
      match priority with
      | Some p => bool_decide (Ticket.priority t = p)
      | None => true
      end)%bool tickets.

End TicketProvider.

Import TicketProvider.
Local Close Scope string_scope.

Ltac store_unfold :=
  unfold fetchTickets, createTicket, updateTicket, addActivity, try_catch_finally,
    TicketService.getAllTickets, TicketService.createTicket,
    TicketService.updateTicket, TicketService.createActivity.

(** Run a store operation up to its request, feed the answer [H], and
    reduce the resulting state. *)
Ltac store_exec H := store_unfold; run_simp; rewrite H; run_simp; state_simp.

Definition snapshot {S} (w : World S) : list Ticket.t := tickets (store (client w)).

(** ** The snapshot invariant *)

(** The operations of the provider, as the UI triggers them. *)
Inductive StoreOp :=
| OpFetch
| OpCreate (i : TicketInput)
| OpUpdate (id : string) (u : TicketUpdates)
| OpAddActivity (a : Activity.input).

Section Defs.
Context {S : Type} `{!Gateway S} `{!BackendSpec S}.

Definition exec_op (o : StoreOp) (w : World S) : World S :=
    match o with
    | OpFetch => fst (run fetchTickets w)
    | OpCreate i => fst (run (createTicket i) w)
    | OpUpdate id u => fst (run (updateTicket id u) w)
    | OpAddActivity a => fst (run (addActivity a) w)
    end.

Definition snapshot_ids (w : World S) : list string := map Ticket.id (snapshot w).

  (** Unique ids in the snapshot, each of them known to the backend. *)
Definition Sync (w : World S) : Prop :=
    srv_inv (srv w) /\ NoDup (snapshot_ids w) /\
    snapshot_ids w ⊆ ticket_ids (srv_tickets (srv w)).

Definition store_step (w w' : World S) : Prop := exists o, w' = exec_op o w.

End Defs.

(** The scenario of the spec: a public submission on an empty backend. *)
Definition demo_input : TicketInput :=
  mkTicketInput "Login broken" "Cannot log in since update" high
    (Ticket.mkCreator "Ana" "ana@x.com").

Definition demo_world : World Django.state :=
  mkWorld (django_empty []) (initialClient "csrftoken=abc") [].

Definition offline_world : World unit := mkWorld tt (initialClient "") [].

(** The demo world after the submission: one ticket, id ["0"]. *)
Definition demo_world1 : World Django.state := fst (run (createTicket demo_input) demo_world).

Definition open_updates : TicketUpdates := mkTicketUpdates None None (Some open) None None.

Definition demo_comment : Activity.input :=
  Activity.mkInput "0" comment "Looking into it" "Admin".

Section Outcomes.
Context {S : Type} `{!Gateway S}.

  (** C9. On a successful [GET /tickets/], [fetchTickets] replaces the
      snapshot by the server's list, transformed, clears the error flag and
      ends with [loading] false; exactly one request is made and no toast is
      shown. *)
Theorem fetchTickets_success w s' l :
    handle (srv w) (hdrs (client w) GetTickets) GetTickets = (s', Ok l) ->
    let '(w', x) := run fetchTickets w in
    x = Ok tt /\ srv w' = s' /\ log w' = log w ++ [GetTickets] /\
    snapshot w' = map transformTicket l /\
    error (store (client w')) = None /\ loading (store (client w')) = false /\
    toasts (client w') = toasts (client w).
  Proof. intros H. store_exec H. done. Qed.

  (** When [GET /tickets/] fails, [fetchTickets] keeps the previous
      snapshot, sets the error message, ends with [loading] false, shows one
      destructive toast, and resolves normally: the error is not rethrown. *)
Theorem fetchTickets_failure w s' e :
    handle (srv w) (hdrs (client w) GetTickets) GetTickets = (s', Err e) ->
    let '(w', x) := run fetchTickets w in
    x = Ok tt /\ snapshot w' = snapshot w /\
    error (store (client w')) = Some "Failed to load tickets from server"%string /\
    loading (store (client w')) = false /\
    toasts (client w') = toasts (client w) ++
      [mkToast "Error"%string "Failed to load tickets. Please try again later."%string true].
  Proof. intros H. store_exec H. done. Qed.

  (** On success, [createTicket] posts the DTO built from the form data,
      appends the server's ticket (transformed) to the snapshot and returns
      it. *)
Theorem createTicket_success w i s' d :
    handle (srv w) (hdrs (client w) (PostTicket (createTicketDto i)))
      (PostTicket (createTicketDto i)) = (s', Ok d) ->
    let '(w', x) := run (createTicket i) w in
    x = Ok (transformTicket d) /\ log w' = log w ++ [PostTicket (createTicketDto i)] /\
    snapshot w' = snapshot w ++ [transformTicket d] /\
    loading (store (client w')) = false.
  Proof. intros H. store_exec H. done. Qed.

  (** C10. When the creation request fails, [createTicket] leaves the
      snapshot unchanged, shows a destructive toast and rethrows the same
      error. *)
Theorem createTicket_failure w i s' e :
    handle (srv w) (hdrs (client w) (PostTicket (createTicketDto i)))
      (PostTicket (createTicketDto i)) = (s', Err e) ->
    let '(w', x) := run (createTicket i) w in
    x = Err e /\ snapshot w' = snapshot w /\ loading (store (client w')) = false /\
    toasts (client w') = toasts (client w) ++
      [mkToast "Error"%string "Failed to create ticket. Please try again."%string true].
  Proof. intros H. store_exec H. done. Qed.

  (** On success, [updateTicket] replaces every local entry with the
      requested id by the server's answer (never a merge of local and
      server fields) and returns it. *)
Theorem updateTicket_success w i u s' d :
    handle (srv w) (hdrs (client w) (PatchTicket i (updateData u)))
      (PatchTicket i (updateData u)) = (s', Ok d) ->
    let '(w', x) := run (updateTicket i u) w in
    x = Ok (transformTicket d) /\
    snapshot w' = replace_where (same_id i) (transformTicket d) (snapshot w) /\
    loading (store (client w')) = false.
  Proof. intros H. store_exec H. done. Qed.

  (** When the update request fails, [updateTicket] leaves the snapshot
      unchanged and rethrows the error. *)
Theorem updateTicket_failure w i u s' e :
    handle (srv w) (hdrs (client w) (PatchTicket i (updateData u)))
      (PatchTicket i (updateData u)) = (s', Err e) ->
    let '(w', x) := run (updateTicket i u) w in
    x = Err e /\ snapshot w' = snapshot w /\ loading (store (client w')) = false.
  Proof. intros H. store_exec H. done. Qed.

  (** [updateTicket] sends its PATCH whatever the local snapshot holds:
      there is no local lookup, so an id absent from the snapshot reaches the
      server instead of failing locally with a not-found error. *)
Theorem updateTicket_no_local_check w i u :
    log (fst (run (updateTicket i u) w)) = log w ++ [PatchTicket i (updateData u)].
  Proof.
    store_unfold. run_simp.
    destruct (handle _ _ (PatchTicket i (updateData u))) as [s' [d|e]]; run_simp; done.
  Qed.

  (** On success, [addActivity] appends the server's activity to the
      activity log of the store, in receipt order. *)
Theorem addActivity_success w a s' d :
    handle (srv w) (hdrs (client w) (PostActivity (createActivityDto a)))
      (PostActivity (createActivityDto a)) = (s', Ok d) ->
    let '(w', x) := run (addActivity a) w in
    x = Ok (transformActivity d) /\
    activities (store (client w')) = activities (store (client w)) ++ [transformActivity d] /\
    snapshot w' = snapshot w.
  Proof. intros H. store_exec H. done. Qed.
End Outcomes.

Section Invariant.
Context {S : Type} `{!Gateway S} `{!BackendSpec S}.


Lemma handle_inv_eq s h r s' x : srv_inv s -> handle s h r = (s', x) -> srv_inv s'.
  Proof. intros Hi Hh. pose proof (handle_inv s h r Hi) as G. by rewrite Hh in G. Qed.

Lemma handle_grow_eq s h r s' x :
    srv_inv s -> handle s h r = (s', x) ->
    ticket_ids (srv_tickets s) ⊆ ticket_ids (srv_tickets s').
  Proof. intros Hi Hh. pose proof (handle_ids_grow s h r Hi) as G. by rewrite Hh in G. Qed.

  (** A request that leaves the local ids alone keeps [Sync]. *)
Lemma Sync_after_request w h r s' x c l :
    Sync w -> handle (srv w) h r = (s', x) ->
    map Ticket.id (tickets (store c)) = snapshot_ids w ->
    Sync (mkWorld s' c l).
  Proof.
    intros (Hi & Hnd & Hsub) Hh Hids. unfold Sync, snapshot_ids, snapshot; cbn.
    rewrite Hids. split; [by eapply handle_inv_eq|]. split; [done|].
    etransitivity; [exact Hsub|]. by eapply handle_grow_eq.
  Qed.

Lemma same_id_true i t : same_id i t = true -> Ticket.id t = i.
  Proof. unfold same_id. by rewrite bool_decide_eq_true. Qed.

  (** What the contract says of the ticket [createTicket] receives, in
      the client's shape. *)
Lemma created_ticket_fields s h i s' d :
    srv_inv s -> handle s h (PostTicket (createTicketDto i)) = (s', Ok d) ->
    let t := transformTicket d in
    Ticket.id t ∉ ticket_ids (srv_tickets s) /\ Ticket.id t ∈ ticket_ids (srv_tickets s') /\
    Ticket.status t = new /\ Ticket.title t = in_title i /\
    Ticket.description t = in_description i /\ Ticket.priority t = in_priority i /\
    Ticket.createdBy t = in_createdBy i.
  Proof.
    intros Hi Hh.
    destruct (post_ticket_ok _ _ _ _ _ Hi Hh) as (Hfresh & Hin & Hst & Hti & Hde & Hpr & Hn & He).
    cbn. rewrite Hst, Hti, Hde, Hpr, Hn, He. cbn.
    split_and!; try done. by destruct (in_createdBy i).
  Qed.

  (** One provider operation keeps [Sync]; by cases on the operation and
      on the backend's answer. *)
Lemma exec_op_Sync o w : Sync w -> Sync (exec_op o w).
  Proof.
    intros HS. pose proof HS as (Hi & Hnd & Hsub).
    destruct o as [|i|id u|a]; cbn [exec_op]; store_unfold; run_simp;
      match goal with |- context [handle ?s ?h ?r] =>
        destruct (handle s h r) as [s' [d|e]] eqn:Hh end;
      run_simp; state_simp; try (eapply Sync_after_request; [exact HS|exact Hh|done]).
    - (* fetch: the snapshot is the server's table *)
      apply get_tickets_ok in Hh as Hl. subst d.
      unfold Sync, snapshot_ids, snapshot; cbn. rewrite transformTicket_ids.
      assert (srv_inv s') by (eapply handle_inv_eq; eauto).
      split; [done|]. split; [by apply srv_nodup|done].
    - (* create: the fresh id is appended *)
      destruct (post_ticket_ok _ _ _ _ _ Hi Hh) as (Hfresh & Hin & _).
      unfold Sync, snapshot_ids, snapshot in *; cbn. rewrite map_app. cbn.
      split; [by eapply handle_inv_eq|]. split.
      + apply NoDup_app. split; [done|]. split; [|apply NoDup_singleton].
        intros x Hx ->%list_elem_of_singleton. apply Hfresh, Hsub, Hx.
      + apply list_subseteq_app_iff_l. split; [|by intros x ->%list_elem_of_singleton].
        etransitivity; [exact Hsub|]. by eapply handle_grow_eq.
    - (* update: the replaced entries keep their id *)
      eapply Sync_after_request; [exact HS|exact Hh|].
      unfold snapshot_ids, snapshot. apply replace_where_keys.
      intros x Hx%same_id_true. rewrite Hx. cbn.
      by destruct (patch_ticket_ok _ _ _ _ _ _ Hh) as [-> _].
  Qed.

  (** Every operation of the provider preserves [Sync], whatever the
      backend answers, as long as it honours the contract. *)
Theorem store_op_preserves_Sync o w : Sync w -> Sync (exec_op o w).
  Proof. apply exec_op_Sync. Qed.

  (** C2. A freshly mounted client over a backend in its invariant is in
      [Sync], and so is every world reached from it by any sequence of
      provider operations. *)
Theorem Sync_reachable s0 cookie w :
    srv_inv s0 -> rtc store_step (mkWorld s0 (initialClient cookie) []) w -> Sync w.
  Proof.
    intros Hi Hsteps.
    assert (Sync (mkWorld s0 (initialClient cookie) [])) as H0.
    { split; [done|]. split; [constructor|]. by intros x Hx%not_elem_of_nil. }
    induction Hsteps as [w|w1 w2 w3 [o ->] _ IH]; [done|].
    apply IH. by apply exec_op_Sync.
  Qed.

  (** A successful [createTicket] from a synchronised world adds a
      ticket whose id is not already in the snapshot, in status [new], with
      the submitted title, description, priority and requester. *)
Theorem createTicket_fresh w i s' d :
    Sync w ->
    handle (srv w) (hdrs (client w) (PostTicket (createTicketDto i)))
      (PostTicket (createTicketDto i)) = (s', Ok d) ->
    let t := transformTicket d in
    (Ticket.id t ∉ snapshot_ids w) /\ Ticket.status t = new /\
    Ticket.title t = in_title i /\ Ticket.description t = in_description i /\
    Ticket.priority t = in_priority i /\ Ticket.createdBy t = in_createdBy i.
  Proof.
    intros (Hi & _ & Hsub) Hh.
    destruct (created_ticket_fields _ _ _ _ _ Hi Hh) as (Hfresh & _ & Hf).
    split; [intros Hx; apply Hfresh, Hsub, Hx|exact Hf].
  Qed.
End Invariant.

(** ** Witnesses *)

Lemma fetchTickets_success_witness :
  handle (srv demo_world) (hdrs (client demo_world) GetTickets) GetTickets =
    (django_empty [], Ok []) /\
  let '(w', x) := run fetchTickets demo_world in
  x = Ok tt /\ srv w' = django_empty [] /\ log w' = log demo_world ++ [GetTickets] /\
  snapshot w' = map transformTicket [] /\
  error (store (client w')) = None /\ loading (store (client w')) = false /\
  toasts (client w') = toasts (client demo_world).
Proof. split; [reflexivity|]. eapply fetchTickets_success; reflexivity. Defined.

Lemma fetchTickets_failure_witness :
  handle (srv offline_world) (hdrs (client offline_world) GetTickets) GetTickets =
    (tt, Err NetworkError) /\
  let '(w', x) := run fetchTickets offline_world in
  x = Ok tt /\ snapshot w' = snapshot offline_world /\
  error (store (client w')) = Some "Failed to load tickets from server"%string /\
  loading (store (client w')) = false /\
  toasts (client w') = toasts (client offline_world) ++
    [mkToast "Error" "Failed to load tickets. Please try again later." true].
Proof. split; [reflexivity|]. eapply (fetchTickets_failure _ tt NetworkError); reflexivity. Defined.

Lemma createTicket_success_witness :
  let d := Django.new_ticket (django_empty []) (createTicketDto demo_input) in
  handle (srv demo_world) (hdrs (client demo_world) (PostTicket (createTicketDto demo_input)))
    (PostTicket (createTicketDto demo_input)) =
    (Django.tick (Django.set_tickets [d] (django_empty [])), Ok d) /\
  let '(w', x) := run (createTicket demo_input) demo_world in
  x = Ok (transformTicket d) /\ log w' = log demo_world ++ [PostTicket (createTicketDto demo_input)] /\
  snapshot w' = snapshot demo_world ++ [transformTicket d] /\
  loading (store (client w')) = false.
Proof. split; [reflexivity|]. eapply createTicket_success; reflexivity. Defined.

Lemma createTicket_failure_witness :
  handle (srv offline_world) (hdrs (client offline_world) (PostTicket (createTicketDto demo_input)))
    (PostTicket (createTicketDto demo_input)) = (tt, Err NetworkError) /\
  let '(w', x) := run (createTicket demo_input) offline_world in
  x = Err NetworkError /\ snapshot w' = snapshot offline_world /\
  loading (store (client w')) = false /\
  toasts (client w') = toasts (client offline_world) ++
    [mkToast "Error" "Failed to create ticket. Please try again." true].
Proof. split; [reflexivity|]. eapply (createTicket_failure _ _ tt); reflexivity. Defined.

Lemma updateTicket_success_witness :
  let d := Django.patched (updateData open_updates) None "1"
             (Django.new_ticket (django_empty []) (createTicketDto demo_input)) in
  (exists s', handle (srv demo_world1) (hdrs (client demo_world1) (PatchTicket "0" (updateData open_updates)))
    (PatchTicket "0" (updateData open_updates)) = (s', Ok d)) /\
  let '(w', x) := run (updateTicket "0" open_updates) demo_world1 in
  x = Ok (transformTicket d) /\
  snapshot w' = replace_where (same_id "0") (transformTicket d) (snapshot demo_world1) /\
  loading (store (client w')) = false.
Proof. split; [eexists; reflexivity|]. eapply updateTicket_success; reflexivity. Defined.

Lemma updateTicket_failure_witness :
  handle (srv demo_world) (hdrs (client demo_world) (PatchTicket "7" (updateData open_updates)))
    (PatchTicket "7" (updateData open_updates)) = (django_empty [], Err (HttpStatus 404)) /\
  let '(w', x) := run (updateTicket "7" open_updates) demo_world in
  x = Err (HttpStatus 404) /\ snapshot w' = snapshot demo_world /\
  loading (store (client w')) = false.
Proof. split; [reflexivity|]. eapply updateTicket_failure; reflexivity. Defined.

Lemma addActivity_success_witness :
  let d := Django.new_activity (srv demo_world1) (createActivityDto demo_comment) in
  (exists s', handle (srv demo_world1) (hdrs (client demo_world1) (PostActivity (createActivityDto demo_comment)))
    (PostActivity (createActivityDto demo_comment)) = (s', Ok d)) /\
  let '(w', x) := run (addActivity demo_comment) demo_world1 in
  x = Ok (transformActivity d) /\
  activities (store (client w')) = activities (store (client demo_world1)) ++ [transformActivity d] /\
  snapshot w' = snapshot demo_world1.
Proof. split; [eexists; reflexivity|]. eapply addActivity_success; reflexivity. Defined.

Lemma demo_world_Sync : Sync demo_world.
Proof.
  split; [apply django_empty_inv|]. split; [constructor|].
  by intros x Hx%not_elem_of_nil.
Qed.

Lemma store_op_preserves_Sync_witness :
  Sync demo_world /\ Sync (exec_op (OpCreate demo_input) demo_world).
Proof. split; [exact demo_world_Sync|]. apply store_op_preserves_Sync. exact demo_world_Sync. Defined.

Lemma Sync_reachable_witness :
  srv_inv (django_empty []) /\
  rtc store_step demo_world (exec_op OpFetch (exec_op (OpCreate demo_input) demo_world)) /\
  Sync (exec_op OpFetch (exec_op (OpCreate demo_input) demo_world)).
Proof.
  assert (rtc store_step demo_world (exec_op OpFetch (exec_op (OpCreate demo_input) demo_world))) as R.
  { eapply rtc_l; [exists (OpCreate demo_input); reflexivity|].
    eapply rtc_l; [exists OpFetch; reflexivity|]. apply rtc_refl. }
  split; [apply django_empty_inv|]. split; [exact R|].
  exact (Sync_reachable (django_empty []) "csrftoken=abc" _ (django_empty_inv []) R).
Defined.

Lemma createTicket_fresh_witness :
  let d := Django.new_ticket (django_empty []) (createTicketDto demo_input) in
  Sync demo_world /\
  handle (srv demo_world) (hdrs (client demo_world) (PostTicket (createTicketDto demo_input)))
    (PostTicket (createTicketDto demo_input)) =
    (Django.tick (Django.set_tickets [d] (django_empty [])), Ok d) /\
  let t := transformTicket d in
  (Ticket.id t ∉ snapshot_ids demo_world) /\ Ticket.status t = new /\
  Ticket.title t = in_title demo_input /\ Ticket.description t = in_description demo_input /\
  Ticket.priority t = in_priority demo_input /\ Ticket.createdBy t = in_createdBy demo_input.
Proof.
  split; [exact demo_world_Sync|]. split; [reflexivity|].
  eapply createTicket_fresh; [exact demo_world_Sync|reflexivity].
Defined.
