(* ===== verification/Workflow.v ===== *)
(** * The workflow controller: [TicketDetail] ([pages/admin/TicketDetail.tsx])

    The detail page keeps its own React state ([Detail.t]: the activities it
    shows, the selected [status] and [priority], the comment being typed,
    [isSubmitting]).  Its handlers chain the provider's operations: a status
    or priority change is [updateTicket] then [addActivity]; a comment is one
    [addActivity].  The handlers read the page's state as it was rendered,
    which [on_event] passes to them from the current client.

    The theorems give the two-step protocol: the no-op short-circuit, the
    successful change (PATCH then POST, one activity with the from/to
    message), the failed update (nothing recorded) and the partial failure
    (ticket changed, no audit entry, same toast), the comment guard, and
    the consequences of the optimistic, never reverted, local selection. *)

From stdpp Require Import base list strings relations.
From S2P Require Import Prelude Model Api Prog Service Backend Store.

Local Open Scope string_scope.
Local Open Scope js_scope.

Module TicketDetail.
Import TicketProvider.

(** [getUserDisplayName] (lines 82-85) *)
Definition getUserDisplayName (user : option User.t) : string :=
  match user with
  | None => "System"
  | Some u =>
      if truthy (User.first_name u) then User.first_name u +s+ " " +s+ User.last_name u
      else User.username u
  end.

(** The initial local state (lines 50-57), computed once at mount from the
    render-time snapshot: a ticket not yet loaded gives ['new'] and
    ['medium'], and nothing re-synchronises them later. *)
Definition mountDetail (tickets : list Ticket.t) (id : string) : Detail.t :=
  let ticket := getTicketById tickets id in
  Detail.mk [] false
    (match ticket with Some t => Ticket.status t | None => new end)
    (match ticket with Some t => Ticket.priority t | None => medium end)
    "" false.

(** The activity-loading effect (lines 59-76). *)
Definition loadActivities (id : string) : Prog unit :=
  if negb (truthy id) then Ret tt else
  _ ← modify (map_detail (setLoadingActivities true));
  finally
    (catch (raw ← TicketService.getTicketActivities id;
            modify (map_detail (setDetailActivities (fun _ => map transformActivity raw))))
           (fun _ => Ret tt))
    (modify (map_detail (setLoadingActivities false))).

Definition status_updates (v : TicketStatus) : TicketUpdates :=
  mkTicketUpdates None None (Some v) None None.
Definition priority_updates (v : TicketPriority) : TicketUpdates :=
  mkTicketUpdates None None None (Some v) None.

Definition status_message (oldStatus value : TicketStatus) : string :=
  "Status changed from " +s+ TicketStatus_str oldStatus +s+ " to " +s+ TicketStatus_str value.
Definition priority_message (oldPriority value : TicketPriority) : string :=
  "Priority changed from " +s+ TicketPriority_str oldPriority +s+ " to " +s+ TicketPriority_str value.

(** [handleStatusChange] (lines 104-136); [status] is the page's selected
    status as rendered. *)
Definition handleStatusChange (ticket : Ticket.t) (user : option User.t)
    (status value : TicketStatus) : Prog unit :=
  if bool_decide (value = status) then Ret tt else
  try_catch_finally
    (_ ← modify (map_detail (setIsSubmitting true));
     let oldStatus := status in
     _ ← modify (map_detail (setStatus value));
     _ ← updateTicket (Ticket.id ticket) (status_updates value);
     created ← addActivity (Activity.mkInput (Ticket.id ticket) status_change
                              (status_message oldStatus value) (getUserDisplayName user));
     _ ← modify (map_detail (setDetailActivities (fun prev => (prev ++ [created])%list)));
     toast "Status Updated" ("Ticket status changed to " +s+ TicketStatus_str value) false)
    (fun _ => toast "Update Failed" "Failed to update ticket status" true)
    (modify (map_detail (setIsSubmitting false))).

(** [handlePriorityChange] (lines 142-173) *)
Definition handlePriorityChange (ticket : Ticket.t) (user : option User.t)
    (priority value : TicketPriority) : Prog unit :=
  if bool_decide (value = priority) then Ret tt else
  try_catch_finally
    (_ ← modify (map_detail (setIsSubmitting true));
     let oldPriority := priority in
     _ ← modify (map_detail (setPriority value));
     _ ← updateTicket (Ticket.id ticket) (priority_updates value);
     created ← addActivity (Activity.mkInput (Ticket.id ticket) priority_change
                              (priority_message oldPriority value) (getUserDisplayName user));
     _ ← modify (map_detail (setDetailActivities (fun prev => (prev ++ [created])%list)));
     toast "Priority Updated" ("Ticket priority changed to " +s+ TicketPriority_str value) false)
    (fun _ => toast "Update Failed" "Failed to update ticket priority" true)
    (modify (map_detail (setIsSubmitting false))).

(** [handleAddComment] (lines 178-209): a blank comment is ignored; the
    comment is sent untrimmed and cleared only on success. *)
Definition handleAddComment (ticket : Ticket.t) (user : option User.t) (comment_ : string)
    : Prog unit :=
  if negb (truthy (trim comment_)) then Ret tt else
  try_catch_finally
    (_ ← modify (map_detail (setIsSubmitting true));
     created ← addActivity (Activity.mkInput (Ticket.id ticket) comment comment_
                              (getUserDisplayName user));
     _ ← modify (map_detail (setDetailActivities (fun prev => (prev ++ [created])%list)));
     _ ← modify (map_detail (setComment ""));
     toast "Comment Added" "Your comment has been added to the ticket" false)
    (fun _ => toast "Failed to Add Comment" "There was an error adding your comment" true)
    (modify (map_detail (setIsSubmitting false))).

(** What the admin does on the page (lines 298-351). *)
Inductive DetailEvent :=
| SelectStatus (v : TicketStatus)
| SelectPriority (v : TicketPriority)
| TypeComment (s : string)
| ClickAddComment.

(** An event as the rendered page dispatches it: without the ticket the page
    shows "Ticket Not Found" and no controls; the comment button is
    disabled while the comment is blank or a request is in flight. *)
Definition on_event (id : string) (c : Client) (e : DetailEvent) : Prog unit :=
  match getTicketById (tickets (store c)) id with
  | None => Ret tt
  | Some t =>
      match e with
      | SelectStatus v => handleStatusChange t (user (auth c)) (Detail.status (detail c)) v
      | SelectPriority v => handlePriorityChange t (user (auth c)) (Detail.priority (detail c)) v
      | TypeComment s => modify (map_detail (setComment s))
      | ClickAddComment =>
          if (negb (truthy (trim (Detail.comment (detail c)))) || Detail.isSubmitting (detail c))%bool
          then Ret tt
          else handleAddComment t (user (auth c)) (Detail.comment (detail c))
      end
  end.

(** Dispatch an event against the current world. *)
Definition step_event {S} `{!Gateway S} (id : string) (w : World S) (e : DetailEvent) : World S :=
  fst (run (on_event id (client w) e) w).

End TicketDetail.

Import TicketDetail TicketProvider.
Local Close Scope string_scope.

Ltac wf_unfold :=
  unfold handleStatusChange, handlePriorityChange, handleAddComment, try_catch_finally;
  store_unfold.

(** The ticket of the demo scenario, as the store holds it after the
    submission ([demo_world1]), and the same world behind a network that
    loses the next request selected by [f]. *)
Definition demo_ticket : Ticket.t :=
  transformTicket (Django.new_ticket (django_empty []) (createTicketDto demo_input)).

Definition flaky_world (f : Request -> bool) : World Flaky :=
  mkWorld (mkFlaky f 1 (srv demo_world1)) (client demo_world1) (log demo_world1).

Section Protocol.
Context {S : Type} `{!Gateway S}.

(** C11. Selecting the status the page already shows does nothing: no
    request, no state change, no activity. *)
Theorem handleStatusChange_noop t u s w :
  run (handleStatusChange t u s s) w = (w, Ok tt).
Proof. unfold handleStatusChange. by rewrite bool_decide_true. Qed.

(** C12. A status change to a new value that both requests accept issues
    exactly the PATCH of the status and then the POST of a [status_change]
    activity with the from/to message; the snapshot takes the server's
    ticket, the activity is appended to the store's and the page's logs, and
    the page shows the new value. *)
Theorem handleStatusChange_success w t u s v s1 d s2 a :
  v <> s ->
  let r1 := PatchTicket (Ticket.id t) (updateData (status_updates v)) in
  let r2 := PostActivity (createActivityDto (Activity.mkInput (Ticket.id t) status_change
                                               (status_message s v) (getUserDisplayName u))) in
  handle (srv w) (hdrs (client w) r1) r1 = (s1, Ok d) ->
  handle s1 (hdrs (client w) r2) r2 = (s2, Ok a) ->
  let '(w', x) := run (handleStatusChange t u s v) w in
  x = Ok tt /\ log w' = log w ++ [r1; r2] /\
  snapshot w' = replace_where (same_id (Ticket.id t)) (transformTicket d) (snapshot w) /\
  activities (store (client w')) = activities (store (client w)) ++ [transformActivity a] /\
  Detail.activities (detail (client w')) =
    Detail.activities (detail (client w)) ++ [transformActivity a] /\
  Detail.status (detail (client w')) = v /\ Detail.isSubmitting (detail (client w')) = false.
Proof.
  intros Hne r1 r2 H1 H2. subst r1 r2. wf_unfold. rewrite ?bool_decide_false by done.
  run_simp. rewrite H1. run_simp. rewrite H2. run_simp. state_simp.
  by rewrite <- app_assoc.
Qed.

(** When the PATCH fails, no activity is requested or recorded and the
    snapshot is unchanged, but the page keeps showing the new value: the
    optimistic [setStatus(value)] is never reverted. *)
Theorem handleStatusChange_update_fails w t u s v s1 e :
  v <> s ->
  let r1 := PatchTicket (Ticket.id t) (updateData (status_updates v)) in
  handle (srv w) (hdrs (client w) r1) r1 = (s1, Err e) ->
  let '(w', x) := run (handleStatusChange t u s v) w in
  x = Ok tt /\ log w' = log w ++ [r1] /\ snapshot w' = snapshot w /\
  activities (store (client w')) = activities (store (client w)) /\
  Detail.activities (detail (client w')) = Detail.activities (detail (client w)) /\
  Detail.status (detail (client w')) = v /\
  last (toasts (client w')) = Some (mkToast "Update Failed" "Failed to update ticket status" true).
Proof.
  intros Hne r1 H1. subst r1. wf_unfold. rewrite ?bool_decide_false by done.
  run_simp. rewrite H1. run_simp. state_simp. repeat split; try done.
  by rewrite !last_app.
Qed.

(** C13. When the PATCH succeeds and the activity POST fails, the ticket is
    changed in the snapshot without an audit entry, and the handler ends
    exactly as for a failed PATCH: it resolves normally and its last toast is
    the same "Update Failed" message; no distinct audit error reaches the
    caller. *)
Theorem handleStatusChange_audit_fails w t u s v s1 d s2 e :
  v <> s ->
  let r1 := PatchTicket (Ticket.id t) (updateData (status_updates v)) in
  let r2 := PostActivity (createActivityDto (Activity.mkInput (Ticket.id t) status_change
                                               (status_message s v) (getUserDisplayName u))) in
  handle (srv w) (hdrs (client w) r1) r1 = (s1, Ok d) ->
  handle s1 (hdrs (client w) r2) r2 = (s2, Err e) ->
  let '(w', x) := run (handleStatusChange t u s v) w in
  x = Ok tt /\ log w' = log w ++ [r1; r2] /\
  snapshot w' = replace_where (same_id (Ticket.id t)) (transformTicket d) (snapshot w) /\
  activities (store (client w')) = activities (store (client w)) /\
  Detail.activities (detail (client w')) = Detail.activities (detail (client w)) /\
  last (toasts (client w')) = Some (mkToast "Update Failed" "Failed to update ticket status" true).
Proof.
  intros Hne r1 r2 H1 H2. subst r1 r2. wf_unfold. rewrite ?bool_decide_false by done.
  run_simp. rewrite H1. run_simp. rewrite H2. run_simp. state_simp.
  repeat split; try done. by rewrite <- app_assoc. by rewrite !last_app.
Qed.

(** C15. A blank comment (empty or white space only) is rejected before
    any request: nothing changes. *)
Theorem handleAddComment_blank t u c w :
  is_blank c = true -> run (handleAddComment t u c) w = (w, Ok tt).
Proof.
  intros Hb. unfold handleAddComment. apply trim_empty_iff in Hb. by rewrite Hb.
Qed.

(** A non-blank comment is posted untrimmed as one [comment] activity,
    appended to both logs, and the text box is cleared. *)
Theorem handleAddComment_success w t u c s1 a :
  is_blank c = false ->
  let r := PostActivity (createActivityDto (Activity.mkInput (Ticket.id t) comment c
                                              (getUserDisplayName u))) in
  handle (srv w) (hdrs (client w) r) r = (s1, Ok a) ->
  let '(w', x) := run (handleAddComment t u c) w in
  x = Ok tt /\ log w' = log w ++ [r] /\ snapshot w' = snapshot w /\
  activities (store (client w')) = activities (store (client w)) ++ [transformActivity a] /\
  Detail.activities (detail (client w')) =
    Detail.activities (detail (client w)) ++ [transformActivity a] /\
  Detail.comment (detail (client w')) = ""%string.
Proof.
  intros Hb r H. subst r. wf_unfold.
  assert (truthy (trim c) = true) as ->.
  { unfold truthy. destruct (trim c) eqn:E; [|done].
    apply trim_empty_iff in E. congruence. }
  cbn [negb]. run_simp. rewrite H. run_simp. state_simp. done.
Qed.

(** [handlePriorityChange] (lines 142-173) is [handleStatusChange] for the
    other [Select]: the same early return on the shown value, and on
    success the PATCH of the priority alone then one [priority_change]
    activity naming the old and the new priority. *)
Theorem handlePriorityChange_noop t u p w :
  run (handlePriorityChange t u p p) w = (w, Ok tt).
Proof. unfold handlePriorityChange. by rewrite bool_decide_true. Qed.

Theorem handlePriorityChange_success w t u p v s1 d s2 a :
  v <> p ->
  let r1 := PatchTicket (Ticket.id t) (updateData (priority_updates v)) in
  let r2 := PostActivity (createActivityDto (Activity.mkInput (Ticket.id t) priority_change
                                               (priority_message p v) (getUserDisplayName u))) in
  handle (srv w) (hdrs (client w) r1) r1 = (s1, Ok d) ->
  handle s1 (hdrs (client w) r2) r2 = (s2, Ok a) ->
  let '(w', x) := run (handlePriorityChange t u p v) w in
  x = Ok tt /\ log w' = log w ++ [r1; r2] /\
  snapshot w' = replace_where (same_id (Ticket.id t)) (transformTicket d) (snapshot w) /\
  Detail.activities (detail (client w')) =
    Detail.activities (detail (client w)) ++ [transformActivity a] /\
  Detail.priority (detail (client w')) = v /\ Detail.status (detail (client w')) = Detail.status (detail (client w)) /\
  Detail.isSubmitting (detail (client w')) = false.
Proof.
  intros Hne r1 r2 H1 H2. subst r1 r2. wf_unfold. rewrite ?bool_decide_false by done.
  run_simp. rewrite H1. run_simp. rewrite H2. run_simp. state_simp.
  by rewrite <- app_assoc.
Qed.

End Protocol.

Section Contract.
Context {S : Type} `{!Gateway S} `{!BackendSpec S}.

(** Against a backend honouring the contract, a successful status
    change leaves exactly one new activity in the store: of type
    [status_change], for this ticket, whose message names both the old and
    the new status; and every snapshot entry of this ticket has the new
    status. *)
Theorem handleStatusChange_audit w t u s v s1 d s2 a :
  v <> s ->
  let r1 := PatchTicket (Ticket.id t) (updateData (status_updates v)) in
  let r2 := PostActivity (createActivityDto (Activity.mkInput (Ticket.id t) status_change
                                               (status_message s v) (getUserDisplayName u))) in
  handle (srv w) (hdrs (client w) r1) r1 = (s1, Ok d) ->
  handle s1 (hdrs (client w) r2) r2 = (s2, Ok a) ->
  let w' := fst (run (handleStatusChange t u s v) w) in
  let act := transformActivity a in
  activities (store (client w')) = activities (store (client w)) ++ [act] /\
  Activity.type act = status_change /\ Activity.ticketId act = Ticket.id t /\
  Activity.message act = status_message s v /\
  includes (Activity.message act) (TicketStatus_str s) = true /\
  includes (Activity.message act) (TicketStatus_str v) = true /\
  Forall (fun x => Ticket.id x = Ticket.id t -> Ticket.status x = v) (snapshot w').
Proof.
  intros Hne r1 r2 H1 H2. subst r1 r2.
  destruct (patch_ticket_ok _ _ _ _ _ _ H1) as (_ & Hst & _).
  destruct (post_activity_ok _ _ _ _ _ H2) as (Hti & Hty & Hme & _).
  wf_unfold. rewrite ?bool_decide_false by done.
  run_simp. rewrite H1. run_simp. rewrite H2. run_simp. state_simp.
  cbn. rewrite Hti, Hty, Hme. cbn.
  split; [done|]. do 3 (split; [done|]).
  unfold status_message.
  split; [apply includes_append|].
  split; [do 3 apply includes_app_r; apply includes_refl|].
  apply replace_where_Forall.
  - intros _. cbn. by apply Hst.
  - intros x _ Hx Heq. unfold same_id in Hx. by rewrite bool_decide_eq_false in Hx.
Qed.
End Contract.

Section Pages.
Context {S : Type} `{!Gateway S}.

(** A status change whose PATCH fails: the ticket is as it was, the
    selection shows the new value, and the PATCH is the only request. *)
Lemma status_change_patch_fails id w t v s1 e :
  getTicketById (snapshot w) id = Some t -> v <> Detail.status (detail (client w)) ->
  let r1 := PatchTicket (Ticket.id t) (updateData (status_updates v)) in
  handle (srv w) (hdrs (client w) r1) r1 = (s1, Err e) ->
  let w1 := step_event id w (SelectStatus v) in
  getTicketById (snapshot w1) id = Some t /\ Detail.status (detail (client w1)) = v /\
  log w1 = log w ++ [r1].
Proof.
  intros Hf Hne r1 H1. subst r1. cbv zeta. unfold snapshot in *.
  unfold step_event, on_event. rewrite Hf. wf_unfold. rewrite ?bool_decide_false by done.
  run_simp. rewrite H1. run_simp. state_simp. done.
Qed.

(** C14. After a status change to [v] whose PATCH fails, selecting [v]
    again does nothing: the page already shows [v] (the optimistic selection
    was not reverted), so the handler short-circuits, while the ticket in the
    snapshot keeps its old status [s].  The admin cannot retry the failed
    change from the page. *)
Theorem status_retry_blocked id w t s v s1 e :
  getTicketById (snapshot w) id = Some t ->
  Detail.status (detail (client w)) = s -> Ticket.status t = s -> v <> s ->
  let r1 := PatchTicket (Ticket.id t) (updateData (status_updates v)) in
  handle (srv w) (hdrs (client w) r1) r1 = (s1, Err e) ->
  let w1 := step_event id w (SelectStatus v) in
  step_event id w1 (SelectStatus v) = w1 /\ log w1 = log w ++ [r1] /\
  getTicketById (snapshot w1) id = Some t /\ Ticket.status t <> v.
Proof.
  intros Hf Hd Ht Hne r1 H1. subst r1. cbv zeta.
  destruct (status_change_patch_fails id w t v s1 e Hf ltac:(congruence) H1) as (Hf1 & Hd1 & Hl1).
  generalize dependent (step_event id w (SelectStatus v)). intros w1 Hf1 Hd1 Hl1.
  split; [|split; [done|split; [done|congruence]]].
  unfold step_event, on_event. unfold snapshot in Hf1. rewrite Hf1, Hd1.
  unfold handleStatusChange. by rewrite bool_decide_true.
Qed.

End Pages.

(** ** Witnesses *)

Lemma handleStatusChange_noop_witness :
  run (handleStatusChange demo_ticket None open open) demo_world1 = (demo_world1, Ok tt).
Proof. apply handleStatusChange_noop. Defined.

Lemma handleStatusChange_success_witness :
  let r1 := PatchTicket (Ticket.id demo_ticket) (updateData (status_updates open)) in
  let r2 := PostActivity (createActivityDto (Activity.mkInput (Ticket.id demo_ticket) status_change
                                               (status_message new open) (getUserDisplayName None))) in
  exists s1 d s2 a,
  open <> new /\
  handle (srv demo_world1) (hdrs (client demo_world1) r1) r1 = (s1, Ok d) /\
  handle s1 (hdrs (client demo_world1) r2) r2 = (s2, Ok a) /\
  let '(w', x) := run (handleStatusChange demo_ticket None new open) demo_world1 in
  x = Ok tt /\ log w' = log demo_world1 ++ [r1; r2] /\
  snapshot w' = replace_where (same_id (Ticket.id demo_ticket)) (transformTicket d) (snapshot demo_world1) /\
  activities (store (client w')) = activities (store (client demo_world1)) ++ [transformActivity a] /\
  Detail.activities (detail (client w')) =
    Detail.activities (detail (client demo_world1)) ++ [transformActivity a] /\
  Detail.status (detail (client w')) = open /\ Detail.isSubmitting (detail (client w')) = false.
Proof.
  do 4 eexists. split; [discriminate|]. split; [reflexivity|]. split; [reflexivity|].
  eapply handleStatusChange_success; [discriminate|reflexivity|reflexivity].
Defined.

Lemma handlePriorityChange_success_witness :
  let r1 := PatchTicket (Ticket.id demo_ticket) (updateData (priority_updates urgent)) in
  let r2 := PostActivity (createActivityDto (Activity.mkInput (Ticket.id demo_ticket) priority_change
                                               (priority_message high urgent) (getUserDisplayName None))) in
  exists s1 d s2 a,
  urgent <> high /\
  handle (srv demo_world1) (hdrs (client demo_world1) r1) r1 = (s1, Ok d) /\
  handle s1 (hdrs (client demo_world1) r2) r2 = (s2, Ok a) /\
  let '(w', x) := run (handlePriorityChange demo_ticket None high urgent) demo_world1 in
  x = Ok tt /\ log w' = log demo_world1 ++ [r1; r2] /\
  snapshot w' = replace_where (same_id (Ticket.id demo_ticket)) (transformTicket d) (snapshot demo_world1) /\
  Detail.activities (detail (client w')) =
    Detail.activities (detail (client demo_world1)) ++ [transformActivity a] /\
  Detail.priority (detail (client w')) = urgent /\
  Detail.status (detail (client w')) = Detail.status (detail (client demo_world1)) /\
  Detail.isSubmitting (detail (client w')) = false.
Proof.
  do 4 eexists. split; [discriminate|]. split; [reflexivity|]. split; [reflexivity|].
  eapply handlePriorityChange_success; [discriminate|reflexivity|reflexivity].
Defined.

Lemma handleStatusChange_audit_witness :
  let r1 := PatchTicket (Ticket.id demo_ticket) (updateData (status_updates open)) in
  let r2 := PostActivity (createActivityDto (Activity.mkInput (Ticket.id demo_ticket) status_change
                                               (status_message new open) (getUserDisplayName None))) in
  exists s1 d s2 a,
  open <> new /\
  handle (srv demo_world1) (hdrs (client demo_world1) r1) r1 = (s1, Ok d) /\
  handle s1 (hdrs (client demo_world1) r2) r2 = (s2, Ok a) /\
  let w' := fst (run (handleStatusChange demo_ticket None new open) demo_world1) in
  let act := transformActivity a in
  activities (store (client w')) = activities (store (client demo_world1)) ++ [act] /\
  Activity.type act = status_change /\ Activity.ticketId act = Ticket.id demo_ticket /\
  Activity.message act = status_message new open /\
  includes (Activity.message act) (TicketStatus_str new) = true /\
  includes (Activity.message act) (TicketStatus_str open) = true /\
  Forall (fun x => Ticket.id x = Ticket.id demo_ticket -> Ticket.status x = open) (snapshot w').
Proof.
  do 4 eexists. split; [discriminate|]. split; [reflexivity|]. split; [reflexivity|].
  eapply handleStatusChange_audit; [discriminate|reflexivity|reflexivity].
Defined.

Lemma handleStatusChange_update_fails_witness :
  let w := flaky_world is_patch in
  let r1 := PatchTicket (Ticket.id demo_ticket) (updateData (status_updates open)) in
  exists s1,
  open <> new /\
  handle (srv w) (hdrs (client w) r1) r1 = (s1, Err NetworkError) /\
  let '(w', x) := run (handleStatusChange demo_ticket None new open) w in
  x = Ok tt /\ log w' = log w ++ [r1] /\ snapshot w' = snapshot w /\
  activities (store (client w')) = activities (store (client w)) /\
  Detail.activities (detail (client w')) = Detail.activities (detail (client w)) /\
  Detail.status (detail (client w')) = open /\
  last (toasts (client w')) = Some (mkToast "Update Failed" "Failed to update ticket status" true).
Proof.
  eexists. split; [discriminate|]. split; [reflexivity|].
  eapply handleStatusChange_update_fails; [discriminate|reflexivity].
Defined.

Lemma handleStatusChange_audit_fails_witness :
  let w := flaky_world is_post_activity in
  let r1 := PatchTicket (Ticket.id demo_ticket) (updateData (status_updates open)) in
  let r2 := PostActivity (createActivityDto (Activity.mkInput (Ticket.id demo_ticket) status_change
                                               (status_message new open) (getUserDisplayName None))) in
  exists s1 d s2,
  open <> new /\
  handle (srv w) (hdrs (client w) r1) r1 = (s1, Ok d) /\
  handle s1 (hdrs (client w) r2) r2 = (s2, Err NetworkError) /\
  let '(w', x) := run (handleStatusChange demo_ticket None new open) w in
  x = Ok tt /\ log w' = log w ++ [r1; r2] /\
  snapshot w' = replace_where (same_id (Ticket.id demo_ticket)) (transformTicket d) (snapshot w) /\
  activities (store (client w')) = activities (store (client w)) /\
  Detail.activities (detail (client w')) = Detail.activities (detail (client w)) /\
  last (toasts (client w')) = Some (mkToast "Update Failed" "Failed to update ticket status" true).
Proof.
  do 3 eexists. split; [discriminate|]. split; [reflexivity|]. split; [reflexivity|].
  eapply handleStatusChange_audit_fails; [discriminate|reflexivity|reflexivity].
Defined.

Lemma handleAddComment_blank_witness :
  is_blank "  "%string = true /\
  run (handleAddComment demo_ticket None "  "%string) demo_world1 = (demo_world1, Ok tt).
Proof. split; [reflexivity|]. apply handleAddComment_blank. reflexivity. Defined.

Lemma handleAddComment_success_witness :
  let c := "Looking into it"%string in
  let r := PostActivity (createActivityDto (Activity.mkInput (Ticket.id demo_ticket) comment c
                                              (getUserDisplayName None))) in
  exists s1 a,
  is_blank c = false /\
  handle (srv demo_world1) (hdrs (client demo_world1) r) r = (s1, Ok a) /\
  let '(w', x) := run (handleAddComment demo_ticket None c) demo_world1 in
  x = Ok tt /\ log w' = log demo_world1 ++ [r] /\ snapshot w' = snapshot demo_world1 /\
  activities (store (client w')) = activities (store (client demo_world1)) ++ [transformActivity a] /\
  Detail.activities (detail (client w')) =
    Detail.activities (detail (client demo_world1)) ++ [transformActivity a] /\
  Detail.comment (detail (client w')) = ""%string.
Proof.
  do 2 eexists. split; [reflexivity|]. split; [reflexivity|].
  eapply handleAddComment_success; reflexivity.
Defined.

Lemma status_retry_blocked_witness :
  let w := flaky_world is_patch in
  let r1 := PatchTicket (Ticket.id demo_ticket) (updateData (status_updates open)) in
  exists s1,
  getTicketById (snapshot w) "0"%string = Some demo_ticket /\
  Detail.status (detail (client w)) = new /\ Ticket.status demo_ticket = new /\ open <> new /\
  handle (srv w) (hdrs (client w) r1) r1 = (s1, Err NetworkError) /\
  let w1 := step_event "0"%string w (SelectStatus open) in
  step_event "0"%string w1 (SelectStatus open) = w1 /\ log w1 = log w ++ [r1] /\
  getTicketById (snapshot w1) "0"%string = Some demo_ticket /\ Ticket.status demo_ticket <> open.
Proof.
  eexists. do 4 (split; [first [reflexivity|discriminate]|]). split; [reflexivity|].
  eapply status_retry_blocked; first [reflexivity|discriminate].
Defined.

