(* ===== verification/Queries.v ===== *)
(** * Derived views: [Dashboard] and [TicketList]

    Pure functions of the snapshot ([pages/admin/Dashboard.tsx],
    [pages/admin/TicketList.tsx]).  [stats] is the dashboard's [useMemo]
    block; [recentTickets] sorts a copy of the snapshot with the comparator
    [new Date(b.createdAt).getTime() - new Date(a.createdAt).getTime()] and
    keeps five; [filteredTickets] is the list page's status, priority and
    search filter.

    [Array.prototype.sort] is stable and, for a consistent comparator, its
    result is fixed by the specification; [sort_by] is a stable insertion
    sort, and [recent_tickets_unique] shows that any stable sorted
    arrangement gives the same five tickets.  [Date] parsing is a library the
    code only calls: it is the section variable [getTime], [None] standing for
    [NaN] (an invalid date), which the comparison turns into [+0] as
    [SortCompare] does. *)

From Stdlib Require Import ZArith.
From stdpp Require Import base list strings sorting.
From S2P Require Import Prelude Model Store.

Local Open Scope string_scope.
Local Open Scope js_scope.

(** ** The dashboard *)

Definition has_status (s : TicketStatus) (t : Ticket.t) : bool := bool_decide (Ticket.status t = s).
Definition has_priority (p : TicketPriority) (t : Ticket.t) : bool :=
  bool_decide (Ticket.priority t = p).

Record DashboardStats := mkStats {
  totalTickets : nat;
  openTickets : nat;
  pendingTickets : nat;
  resolvedTickets : nat;
  priorityStats : list (string * nat);
  statusStats : list (string * nat) }.

(** [stats] (lines 22-54). *)
Definition stats (tickets : list Ticket.t) : DashboardStats :=
  {| totalTickets := length tickets;
     openTickets := count (fun t => has_status new t || has_status open t)%bool tickets;
     pendingTickets := count (has_status pending) tickets;
     resolvedTickets := count (fun t => has_status resolved t || has_status closed t)%bool tickets;
     priorityStats :=
       [("Low", count (has_priority low) tickets); ("Medium", count (has_priority medium) tickets);
        ("High", count (has_priority high) tickets); ("Urgent", count (has_priority urgent) tickets)];
     statusStats :=
       [("New", count (has_status new) tickets); ("Open", count (has_status open) tickets);
        ("Pending", count (has_status pending) tickets);
        ("Resolved", count (has_status resolved) tickets);
        ("Closed", count (has_status closed) tickets)] |}.

Definition all_statuses : list TicketStatus := [new; open; pending; resolved; closed].

Definition sum_values (l : list (string * nat)) : nat := foldr (fun p acc => p.2 + acc) 0 l.

(** ** The recent tickets *)

Section Sort.
Context {A : Type}.

(** One step of a stable insertion sort: [x] goes before the first element
    the comparator puts strictly after it. *)
Fixpoint insert_by (cmp : A -> A -> Z) (x : A) (l : list A) : list A :=
  match l with
  | [] => [x]
  | y :: l' => if (cmp x y <? 0)%Z then x :: y :: l' else y :: insert_by cmp x l'
  end.

Definition sort_by (cmp : A -> A -> Z) (l : list A) : list A :=
  fold_left (fun acc x => insert_by cmp x acc) l [].

(** A comparator by a key, newest first: [key b - key a]. *)
Definition desc_cmp (key : A -> Z) (a b : A) : Z := (key b - key a)%Z.

Definition newer_eq (key : A -> Z) (a b : A) : Prop := (key b <= key a)%Z.

Definition with_key (key : A -> Z) (k : Z) (l : list A) : list A :=
  List.filter (fun x => (key x =? k)%Z) l.
End Sort.

Section Recent.
(** [new Date(s).getTime()]: [None] is [NaN]. *)
Variable getTime : string -> option Z.

(** The comparator of line 61; a [NaN] difference compares as [+0]. *)
Definition compareCreated (a b : Ticket.t) : Z :=
  match getTime (Ticket.createdAt b), getTime (Ticket.createdAt a) with
  | Some tb, Some ta => (tb - ta)%Z
  | _, _ => 0%Z
  end.

(** [recentTickets] (lines 59-63). *)
Definition recentTickets (tickets : list Ticket.t) : list Ticket.t :=
  take 5 (sort_by compareCreated tickets).

Definition created (t : Ticket.t) : Z := default 0%Z (getTime (Ticket.createdAt t)).

Definition valid_dates (l : list Ticket.t) : Prop :=
  Forall (fun t => is_Some (getTime (Ticket.createdAt t))) l.
End Recent.

(** ** The ticket list *)

(** [filteredTickets] (lines 31-56): a filter value ['all'] does not
    constrain; the search is case-insensitive on four fields. *)
Definition matches_search (searchQuery : string) (t : Ticket.t) : bool :=
  let query := toLowerCase searchQuery in
  (includes (toLowerCase (Ticket.title t)) query ||
   includes (toLowerCase (Ticket.description t)) query ||
   includes (toLowerCase (Ticket.name (Ticket.createdBy t))) query ||
   includes (toLowerCase (Ticket.email (Ticket.createdBy t))) query)%bool.

Definition filteredTickets (tickets : list Ticket.t)
    (statusFilter priorityFilter searchQuery : string) : list Ticket.t :=
  List.filter (fun t =>
    if (negb (String.eqb statusFilter "all") &&
        negb (String.eqb (TicketStatus_str (Ticket.status t)) statusFilter))%bool then false
    else if (negb (String.eqb priorityFilter "all") &&
             negb (String.eqb (TicketPriority_str (Ticket.priority t)) priorityFilter))%bool then false
    else if truthy searchQuery then matches_search searchQuery t
    else true) tickets.

(** The options of the two [Select]s (lines 86-91 and 100-104): the
    value of an option is the enumeration's string, or ['all']. *)
Definition status_select (o : option TicketStatus) : string :=
  match o with None => "all" | Some s => TicketStatus_str s end.

Definition priority_select (o : option TicketPriority) : string :=
  match o with None => "all" | Some p => TicketPriority_str p end.

(** A sample for the witnesses: seven tickets, three of them created at
    the same instant. *)
Definition sample_time (s : string) : option Z :=
  if String.eqb s "2024-03-01" then Some 3%Z
  else if String.eqb s "2024-02-01" then Some 2%Z
  else if String.eqb s "2024-01-01" then Some 1%Z
  else None.

Definition sample_ticket (id createdAt : string) : Ticket.t :=
  Ticket.mk id "t" "d" (Ticket.mkCreator "Ana" "ana@x.com") None new low createdAt createdAt.

Definition sample_tickets : list Ticket.t :=
  [sample_ticket "1" "2024-01-01"; sample_ticket "2" "2024-02-01"; sample_ticket "3" "2024-02-01";
   sample_ticket "4" "2024-03-01"; sample_ticket "5" "2024-02-01"; sample_ticket "6" "2024-01-01";
   sample_ticket "7" "2024-03-01"].

(** ** The stable sort *)

Local Close Scope string_scope.

Section SortFacts.
Context {A : Type} (key : A -> Z).
Local Abbreviation cmp := (desc_cmp key).
Local Abbreviation R := (newer_eq key).

Lemma insert_by_perm (c : A -> A -> Z) x l : insert_by c x l ≡ₚ x :: l.
Proof.
  induction l as [|y l IH]; simpl; [done|].
  destruct (c x y <? 0)%Z; [done|]. rewrite IH. apply perm_swap.
Qed.

Lemma sort_by_perm (c : A -> A -> Z) l : sort_by c l ≡ₚ l.
Proof.
  unfold sort_by. change l with ([] ++ l) at 2. generalize (@nil A).
  induction l as [|x l IH]; intros acc; simpl; [by rewrite app_nil_r|].
  rewrite IH, insert_by_perm. apply Permutation_middle.
Qed.

(** The sort only consults the comparator on the elements it sorts. *)
Lemma sort_by_ext (P : A -> Prop) (c1 c2 : A -> A -> Z) l :
  (forall a b, P a -> P b -> c1 a b = c2 a b) -> Forall P l -> sort_by c1 l = sort_by c2 l.
Proof.
  intros Hc. unfold sort_by. assert (Forall P (@nil A)) as H0 by constructor.
  revert H0. generalize (@nil A).
  induction l as [|x l IH]; intros acc Hacc Hl; [done|]. apply Forall_cons in Hl as [Hx Hl].
  cbn [fold_left]. replace (insert_by c1 x acc) with (insert_by c2 x acc).
  - apply IH; [|done]. rewrite insert_by_perm. by constructor.
  - clear IH Hl. induction Hacc as [|y acc Hy _ IHa]; simpl; [done|].
    by rewrite Hc, IHa.
Qed.

Lemma insert_by_sorted x l : StronglySorted R l -> StronglySorted R (insert_by cmp x l).
Proof.
  unfold newer_eq, desc_cmp.
  induction l as [|y l IH]; intros Hs; simpl; [by repeat constructor|].
  apply StronglySorted_inv in Hs as [Hs Hy].
  destruct (Z.ltb_spec (key y - key x) 0).
  - constructor; [by constructor|]. constructor; [lia|].
    eapply Forall_impl; [exact Hy|]. cbn. intros z Hz. lia.
  - constructor; [by apply IH|]. rewrite insert_by_perm. constructor; [cbn; lia|done].
Qed.

Lemma sort_by_sorted l : StronglySorted R (sort_by cmp l).
Proof.
  unfold sort_by. assert (StronglySorted R []) as H0 by constructor.
  revert H0. generalize (@nil A). induction l as [|x l IH]; intros acc Hacc; [done|].
  apply IH. by apply insert_by_sorted.
Qed.

Lemma with_key_cons k x l :
  with_key key k (x :: l) = if (key x =? k)%Z then x :: with_key key k l else with_key key k l.
Proof. done. Qed.

Lemma with_key_nil_below k l : (forall z, z ∈ l -> (key z < k)%Z) -> with_key key k l = [].
Proof.
  induction l as [|y l IH]; intros H; [done|]. rewrite with_key_cons.
  destruct (Z.eqb_spec (key y) k) as [E|_].
  - specialize (H y ltac:(by left)). lia.
  - apply IH. intros z Hz. apply H. by right.
Qed.

Lemma sorted_head_max y l z : StronglySorted R (y :: l) -> z ∈ y :: l -> (key z <= key y)%Z.
Proof.
  intros Hs [->|Hz]%elem_of_cons; [lia|].
  apply StronglySorted_inv in Hs as [_ Hf]. rewrite Forall_forall in Hf. by apply Hf.
Qed.

(** Inserting into a sorted list puts the new element after every element
    with the same key. *)
Lemma with_key_insert k x l :
  StronglySorted R l ->
  with_key key k (insert_by cmp x l) = with_key key k l ++ (if (key x =? k)%Z then [x] else []).
Proof.
  induction l as [|y l IH]; intros Hs; [simpl; by destruct (key x =? k)%Z|].
  simpl insert_by. destruct (Z.ltb_spec (cmp x y) 0); unfold desc_cmp in *.
  - rewrite with_key_cons. destruct (Z.eqb_spec (key x) k) as [<-|_]; [|by rewrite app_nil_r].
    rewrite with_key_nil_below; [done|].
    intros z Hz. pose proof (sorted_head_max y l z Hs Hz). lia.
  - rewrite !with_key_cons, IH by (by apply StronglySorted_inv in Hs as [? _]).
    by destruct (key y =? k)%Z.
Qed.

Lemma sort_by_with_key k l : with_key key k (sort_by cmp l) = with_key key k l.
Proof.
  unfold sort_by. change (with_key key k l) with (with_key key k [] ++ with_key key k l).
  assert (StronglySorted R []) as H0 by constructor.
  revert H0. generalize (@nil A). induction l as [|x l IH]; intros acc Hacc.
  - by rewrite app_nil_r.
  - cbn [fold_left]. rewrite IH by (by apply insert_by_sorted).
    rewrite with_key_insert by done. rewrite with_key_cons, <- app_assoc.
    by destruct (key x =? k)%Z.
Qed.

Lemma with_key_head k l z r : with_key key k l = z :: r -> z ∈ l /\ key z = k.
Proof.
  induction l as [|y l IH]; [done|]. rewrite with_key_cons.
  destruct (Z.eqb_spec (key y) k) as [E|_]; intros H.
  - injection H as <- _. split; [left|done].
  - destruct (IH H). split; [by right|done].
Qed.

(** Two arrangements sorted newest first that keep, for every key, the same
    elements in the same order are equal: a stable sort has one result. *)
Lemma sorted_stable_unique l1 l2 :
  StronglySorted R l1 -> StronglySorted R l2 ->
  (forall k, with_key key k l1 = with_key key k l2) -> l1 = l2.
Proof.
  revert l2. induction l1 as [|x l1 IH]; intros [|y l2] H1 H2 Hk; [done| | |].
  - specialize (Hk (key y)). rewrite with_key_cons, Z.eqb_refl in Hk. done.
  - specialize (Hk (key x)). rewrite with_key_cons, Z.eqb_refl in Hk. done.
  - assert (key x = key y) as Exy.
    { pose proof (Hk (key x)) as Ex. pose proof (Hk (key y)) as Ey.
      rewrite with_key_cons, Z.eqb_refl in Ex. rewrite (with_key_cons _ y), Z.eqb_refl in Ey.
      apply eq_sym, with_key_head in Ex as [Ex _]. apply with_key_head in Ey as [Ey _].
      pose proof (sorted_head_max _ _ _ H2 Ex). pose proof (sorted_head_max _ _ _ H1 Ey). lia. }
    pose proof (Hk (key x)) as E. rewrite !with_key_cons, Exy, Z.eqb_refl in E.
    injection E as <- Et. f_equal.
    apply StronglySorted_inv in H1 as [H1 _]. apply StronglySorted_inv in H2 as [H2 _].
    apply IH; [done|done|]. intros k. specialize (Hk k). rewrite !with_key_cons in Hk.
    destruct (Z.eqb_spec (key x) k) as [Hx|_]; [by rewrite <- Hx|done].
Qed.
End SortFacts.

(** ** The recent tickets *)

Section RecentFacts.
Variable getTime : string -> option Z.
Local Abbreviation key := (created getTime).
Local Abbreviation R := (newer_eq key).

Lemma compareCreated_valid a b :
  is_Some (getTime (Ticket.createdAt a)) -> is_Some (getTime (Ticket.createdAt b)) ->
  compareCreated getTime a b = desc_cmp key a b.
Proof. intros [ta Ha] [tb Hb]. unfold compareCreated, desc_cmp, created. by rewrite Ha, Hb. Qed.

Lemma sort_created l :
  valid_dates getTime l -> sort_by (compareCreated getTime) l = sort_by (desc_cmp key) l.
Proof. apply sort_by_ext. apply compareCreated_valid. Qed.

(** C26. With valid creation dates, [recentTickets] is the newest tickets
    first: it is sorted by creation date descending, holds [min 5 n] of the
    [n] tickets, all of them from the snapshot, and every ticket left out is
    no newer than every ticket shown. *)
Theorem recent_tickets_newest l :
  valid_dates getTime l ->
  StronglySorted R (recentTickets getTime l) /\
  length (recentTickets getTime l) = min 5 (length l) /\
  (forall x, x ∈ recentTickets getTime l -> x ∈ l) /\
  (forall x y, x ∈ recentTickets getTime l -> y ∈ l -> y ∉ recentTickets getTime l ->
     (created getTime y <= created getTime x)%Z).
Proof.
  intros Hv. unfold recentTickets. rewrite sort_created by done.
  pose proof (sort_by_perm (desc_cmp key) l) as Hp.
  pose proof (Permutation_length Hp) as Hl.
  pose proof (sort_by_sorted key l) as Hs.
  rewrite <- (take_drop 5 (sort_by (desc_cmp key) l)) in Hp, Hs.
  apply StronglySorted_app in Hs as (Hx & Ht & _).
  split_and!; [done| |..].
  - by rewrite length_take, Hl.
  - intros x Hx'. rewrite <- Hp. by apply elem_of_app; left.
  - intros x y Hx' Hy Hn. rewrite <- Hp in Hy.
    apply elem_of_app in Hy as [?|Hy]; [done|]. by apply Hx.
Qed.

(** The result does not depend on the sorting algorithm: any
    arrangement sorted newest first that keeps tickets created at the same
    instant in their snapshot order (a stable sort) gives the same five
    tickets. *)
Theorem recent_tickets_stable_unique l s :
  valid_dates getTime l -> StronglySorted R s ->
  (forall k, with_key key k s = with_key key k l) ->
  recentTickets getTime l = take 5 s.
Proof.
  intros Hv Hs Hk. unfold recentTickets. rewrite sort_created by done. f_equal.
  apply (sorted_stable_unique key); [apply sort_by_sorted|done|].
  intros k. by rewrite sort_by_with_key, Hk.
Qed.
End RecentFacts.

(** ** The dashboard *)

Lemma has_status_at s t : has_status s t = bool_decide (Ticket.status t = s).
Proof. done. Qed.

Lemma has_priority_at p t : has_priority p t = bool_decide (Ticket.priority t = p).
Proof. done. Qed.

(** The dashboard's figures add up: the open, pending and resolved
    cards partition the tickets ([new] counts as open, [closed] as
    resolved), and the status and priority charts each sum to the total. *)
Theorem dashboard_stats_partition l :
  openTickets (stats l) + pendingTickets (stats l) + resolvedTickets (stats l) = totalTickets (stats l) /\
  sum_values (statusStats (stats l)) = totalTickets (stats l) /\
  sum_values (priorityStats (stats l)) = totalTickets (stats l).
Proof.
  unfold stats, sum_values. cbn [totalTickets openTickets pendingTickets resolvedTickets
    statusStats priorityStats foldr snd].
  induction l as [|t l IH]; [done|]. rewrite !count_cons. cbn [length].
  rewrite !(has_status_at _ t), !(has_priority_at _ t).
  destruct (Ticket.status t), (Ticket.priority t); repeat case_bool_decide; try congruence; cbn [orb]; lia.
Qed.

(** ** The ticket list *)

Lemma status_str_eqb a s :
  String.eqb (TicketStatus_str a) (TicketStatus_str s) = bool_decide (a = s).
Proof. destruct a, s; reflexivity. Qed.

Lemma priority_str_eqb a p :
  String.eqb (TicketPriority_str a) (TicketPriority_str p) = bool_decide (a = p).
Proof. destruct a, p; reflexivity. Qed.

Lemma status_select_all o : String.eqb (status_select o) "all"%string = bool_decide (o = None).
Proof. by destruct o as [[]|]. Qed.

Lemma priority_select_all o : String.eqb (priority_select o) "all"%string = bool_decide (o = None).
Proof. by destruct o as [[]|]. Qed.

Lemma truthy_toLowerCase q : truthy (toLowerCase q) = truthy q.
Proof. by destruct q. Qed.

(** With an empty search, the list page's filter is the context's
    [filterTickets]: choosing a status or priority option, or ['all'],
    selects the same tickets in the same order. *)
Theorem filteredTickets_selects l os op :
  filteredTickets l (status_select os) (priority_select op) "" = TicketProvider.filterTickets l os op.
Proof.
  unfold filteredTickets, TicketProvider.filterTickets. apply List.filter_ext. intros t.
  rewrite status_select_all, priority_select_all.
  destruct os as [s|], op as [p|]; cbn [status_select priority_select bool_decide decide];
    rewrite ?status_str_eqb, ?priority_str_eqb;
    repeat case_bool_decide; try congruence; reflexivity.
Qed.

(** The search is case-insensitive: lower-casing the query does not
    change the list. *)
Theorem filteredTickets_case_insensitive l sf pf q :
  filteredTickets l sf pf (toLowerCase q) = filteredTickets l sf pf q.
Proof.
  unfold filteredTickets, matches_search. apply List.filter_ext. intros t.
  by rewrite truthy_toLowerCase, toLowerCase_idem.
Qed.

(** A ticket whose title, description, submitter name or e-mail
    contains the query literally is listed when no status or priority
    filter is set. *)
Theorem filteredTickets_finds_literal l q t :
  t ∈ l ->
  (includes (Ticket.title t) q || includes (Ticket.description t) q ||
   includes (Ticket.name (Ticket.createdBy t)) q ||
   includes (Ticket.email (Ticket.createdBy t)) q)%bool = true ->
  t ∈ filteredTickets l "all" "all" q.
Proof.
  intros Hl Hq. rewrite list_elem_of_In in *. apply filter_In. split; [done|].
  rewrite String.eqb_refl. cbn [negb andb]. destruct (truthy q); [|done].
  unfold matches_search. repeat rewrite orb_true_iff in *.
  destruct Hq as [[[H|H]|H]|H]; apply includes_toLowerCase in H; tauto.
Qed.

(** ** Witnesses *)

Lemma sample_valid : valid_dates sample_time sample_tickets.
Proof. repeat (constructor; [eexists; reflexivity|]). constructor. Qed.

Lemma recent_tickets_newest_witness :
  valid_dates sample_time sample_tickets /\
  length (recentTickets sample_time sample_tickets) = 5 /\
  (forall x y, x ∈ recentTickets sample_time sample_tickets -> y ∈ sample_tickets ->
     y ∉ recentTickets sample_time sample_tickets ->
     (created sample_time y <= created sample_time x)%Z).
Proof.
  pose proof (recent_tickets_newest sample_time sample_tickets sample_valid) as (_ & Hl & _ & Hn).
  split_and!; [exact sample_valid | exact Hl | exact Hn].
Defined.

(** The tickets created on 2024-03-01 first, then those of 2024-02-01, each
    group in snapshot order. *)
Lemma recent_tickets_stable_unique_witness :
  recentTickets sample_time sample_tickets =
  [sample_ticket "4" "2024-03-01"; sample_ticket "7" "2024-03-01"; sample_ticket "2" "2024-02-01";
   sample_ticket "3" "2024-02-01"; sample_ticket "5" "2024-02-01"].
Proof.
  apply (recent_tickets_stable_unique sample_time sample_tickets
    [sample_ticket "4" "2024-03-01"; sample_ticket "7" "2024-03-01"; sample_ticket "2" "2024-02-01";
     sample_ticket "3" "2024-02-01"; sample_ticket "5" "2024-02-01"; sample_ticket "1" "2024-01-01";
     sample_ticket "6" "2024-01-01"]).
  - exact sample_valid.
  - repeat constructor; unfold newer_eq, created; simpl; lia.
  - intros k. unfold with_key, created. cbn -[Z.eqb].
    destruct (Z.eqb_spec 1 k) as [<-|]; [reflexivity|].
    destruct (Z.eqb_spec 2 k) as [<-|]; [reflexivity|].
    destruct (Z.eqb_spec 3 k) as [<-|]; reflexivity.
Defined.

Lemma filteredTickets_finds_literal_witness :
  sample_ticket "2" "2024-02-01" ∈ filteredTickets sample_tickets "all" "all" "Ana".
Proof.
  apply filteredTickets_finds_literal; [|reflexivity].
  apply list_elem_of_In. simpl. tauto.
Defined.
