(* ===== verification/Toast.v ===== *)
(** * The toast queue ([hooks/use-toast.ts])

    The module keeps global mutable state: the id counter [count], the
    toasts on screen [memoryState], the map [toastTimeouts] of scheduled
    removals, and (in the JavaScript event loop) the [setTimeout] callbacks
    still pending.  [Sys] holds all four.  The [reducer] is not pure: on
    [DISMISS_TOAST] it calls [addToRemoveQueue], so it is modelled as a
    function of the whole [Sys].  All removals use the same delay
    [TOAST_REMOVE_DELAY], so the pending callbacks fire in the order they
    were scheduled: [timers] is that queue and [fire] runs its head.
    The [listeners] that copy [memoryState] into React components are
    modelled in [ToastHook]. *)

From Stdlib Require Import NArith.
From stdpp Require Import base list strings pretty.
From S2P Require Import Prelude.

Local Open Scope string_scope.

Module Toast.

(** Lines 10-11 *)
Definition TOAST_LIMIT : nat := 1.
Definition TOAST_REMOVE_DELAY : N := 1000000.

(** [Number.MAX_SAFE_INTEGER], [2^53 - 1]. *)
Definition MAX_SAFE_INTEGER : N := 9007199254740991.

(** [ToasterToast] (lines 17-22): the title and description the code passes
    are strings; [variant: "destructive"] is [destructive]. *)
Record ToasterToast := mk {
  id : string; title : string; description : string;
  destructive : bool; open : bool }.

(** [Partial<ToasterToast>]: an absent field is [None]. *)
Record Patch := mkPatch {
  p_id : option string; p_title : option string; p_description : option string;
  p_destructive : option bool; p_open : option bool }.

(** [Action] (lines 53-57) *)
Inductive Action :=
| ADD_TOAST (toast : ToasterToast)
| UPDATE_TOAST (toast : Patch)
| DISMISS_TOAST (toastId : option string)
| REMOVE_TOAST (toastId : option string).

(** The module's state: [count] (line 36), [memoryState] (line 143), the
    keys of [toastTimeouts] (line 67) in insertion order, and the pending
    removal callbacks in firing order. *)
Record Sys := mkSys {
  count : N; memoryState : list ToasterToast;
  toastTimeouts : list string; timers : list string }.

Definition initialSys : Sys := mkSys 0 [] [] [].

Definition set_count (c : N) (s : Sys) : Sys :=
  mkSys c (memoryState s) (toastTimeouts s) (timers s).
Definition set_memoryState (l : list ToasterToast) (s : Sys) : Sys :=
  mkSys (count s) l (toastTimeouts s) (timers s).

(** [genId] (lines 42-45): the counter wraps at [MAX_SAFE_INTEGER]; the
    addition is exact since [count] stays below [2^53]. *)
Definition genId (s : Sys) : Sys * string :=
  let c := ((count s + 1) mod MAX_SAFE_INTEGER)%N in
  (set_count c s, pretty c).

(** [addToRemoveQueue] (lines 73-82): at most one pending removal per id. *)
Definition addToRemoveQueue (toastId : string) (s : Sys) : Sys :=
  if bool_decide (toastId ∈ toastTimeouts s) then s
  else mkSys (count s) (memoryState s) (toastTimeouts s ++ [toastId]) (timers s ++ [toastId]).

(** [{ ...t, ...action.toast }] *)
Definition merge (t : ToasterToast) (p : Patch) : ToasterToast :=
  mk (default (id t) (p_id p)) (default (title t) (p_title p))
     (default (description t) (p_description p))
     (default (destructive t) (p_destructive p)) (default (open t) (p_open p)).

Definition close (t : ToasterToast) : ToasterToast :=
  mk (id t) (title t) (description t) (destructive t) false.

(** [if (toastId)]: an id is truthy when present and non-empty. *)
Definition truthy_id (toastId : option string) : bool :=
  match toastId with Some x => truthy x | None => false end.

(** [reducer] (lines 88-135), with the removal scheduling of
    [DISMISS_TOAST]. *)
Definition reducer (s : Sys) (action : Action) : Sys :=
  match action with
  | ADD_TOAST t => set_memoryState (take TOAST_LIMIT (t :: memoryState s)) s
  | UPDATE_TOAST p =>
      set_memoryState
        (map (fun t => if bool_decide (Some (id t) = p_id p) then merge t p else t)
             (memoryState s)) s
  | DISMISS_TOAST toastId =>
      let s' := if truthy_id toastId then addToRemoveQueue (default "" toastId) s
                else foldl (fun acc t => addToRemoveQueue (id t) acc) s (memoryState s) in
      set_memoryState
        (map (fun t => if (bool_decide (Some (id t) = toastId) || bool_decide (toastId = None))%bool
                       then close t else t) (memoryState s)) s'
  | REMOVE_TOAST toastId =>
      set_memoryState
        (match toastId with
         | None => []
         | Some x => List.filter (fun t => negb (bool_decide (id t = x))) (memoryState s)
         end) s
  end.

(** [dispatch] (lines 148-151) *)
Definition dispatch (action : Action) (s : Sys) : Sys := reducer s action.

(** [toast] (lines 160-180): a fresh id, then [ADD_TOAST] of an open toast;
    the id is returned for [dismiss] and [update]. *)
Definition toast (title description : string) (destructive : bool) (s : Sys) : Sys * string :=
  let '(s1, id) := genId s in
  (dispatch (ADD_TOAST (mk id title description destructive true)) s1, id).

(** The callback of [setTimeout] (lines 76-79), for the oldest pending
    removal. *)
Definition fire (s : Sys) : Sys :=
  match timers s with
  | [] => s
  | toastId :: rest =>
      dispatch (REMOVE_TOAST (Some toastId))
        (mkSys (count s) (memoryState s)
           (List.filter (fun k => negb (bool_decide (k = toastId))) (toastTimeouts s)) rest)
  end.

(** What can happen to the toast system: a component shows a toast, a
    toast's [update] or [dismiss] is called, the user closes a toast
    ([onOpenChange(false)], line 175), [useToast().dismiss] is called, or the
    oldest removal timer fires. *)
Inductive Event :=
| EvToast (title description : string) (destructive : bool)
| EvUpdate (toastId : string) (p : Patch)
| EvClose (toastId : string)
| EvDismiss (toastId : option string)
| EvFire.

Definition step (s : Sys) (e : Event) : Sys :=
  match e with
  | EvToast t d v => fst (toast t d v s)
  | EvUpdate i p =>
      dispatch (UPDATE_TOAST (mkPatch (Some i) (p_title p) (p_description p)
                                      (p_destructive p) (p_open p))) s
  | EvClose i => dispatch (DISMISS_TOAST (Some i)) s
  | EvDismiss i => dispatch (DISMISS_TOAST i) s
  | EvFire => fire s
  end.

Definition run_events (s : Sys) (es : list Event) : Sys := foldl step s es.

(** The invariant of the system: at most [TOAST_LIMIT] toasts, the counter
    below [MAX_SAFE_INTEGER], one pending callback per key of
    [toastTimeouts], in the same order. *)
Definition inv (s : Sys) : Prop :=
  length (memoryState s) <= TOAST_LIMIT /\ (count s < MAX_SAFE_INTEGER)%N /\
  timers s = toastTimeouts s /\ NoDup (toastTimeouts s).

End Toast.

Import Toast.
Local Close Scope string_scope.

(** ** The removal queue *)

Definition queue_ok (s : Sys) : Prop := timers s = toastTimeouts s /\ NoDup (toastTimeouts s).

(** The id returned by the [k]-th call of [genId] from [s], counting from 0. *)
Definition nth_id (s : Sys) (k : N) : string :=
  snd (genId (N.iter k (fun s => fst (genId s)) s)).

Lemma addToRemoveQueue_ok i s : queue_ok s -> queue_ok (addToRemoveQueue i s).
Proof.
  intros [Ht Hn]. unfold addToRemoveQueue. case_bool_decide as Hi; [done|].
  split; cbn; [by rewrite Ht|]. apply NoDup_app. split_and!; [done| |apply NoDup_singleton].
  by intros x Hx ->%list_elem_of_singleton.
Qed.

Lemma addToRemoveQueue_keeps i s :
  memoryState (addToRemoveQueue i s) = memoryState s /\ count (addToRemoveQueue i s) = count s.
Proof. unfold addToRemoveQueue. by case_bool_decide. Qed.

Lemma addToRemoveQueue_all_ok l s :
  queue_ok s -> queue_ok (foldl (fun acc t => addToRemoveQueue (id t) acc) s l) /\
  memoryState (foldl (fun acc t => addToRemoveQueue (id t) acc) s l) = memoryState s /\
  count (foldl (fun acc t => addToRemoveQueue (id t) acc) s l) = count s.
Proof.
  revert s. induction l as [|t l IH]; intros s Hs; [done|]. cbn [foldl].
  destruct (IH (addToRemoveQueue (id t) s)) as (? & -> & ->); [by apply addToRemoveQueue_ok|].
  split; [done|]. apply addToRemoveQueue_keeps.
Qed.

Lemma filter_neq_head (k : string) l :
  k ∉ l -> List.filter (fun x => negb (bool_decide (x = k))) (k :: l) = l.
Proof.
  intros Hk. cbn. rewrite bool_decide_true by done. cbn.
  induction l as [|x l IH]; [done|]. cbn.
  apply not_elem_of_cons in Hk as [Hx Hk]. rewrite bool_decide_false by done. cbn.
  by rewrite IH.
Qed.

Lemma genId_count s :
  count (fst (genId s)) = ((count s + 1) mod MAX_SAFE_INTEGER)%N.
Proof. done. Qed.

Lemma count_bound c : (c mod MAX_SAFE_INTEGER < MAX_SAFE_INTEGER)%N.
Proof. apply N.mod_lt. by unfold MAX_SAFE_INTEGER. Qed.

(** The oldest timer fires: its id leaves the queue ... *)
Lemma fire_queue s k rest :
  queue_ok s -> timers s = k :: rest -> queue_ok (fire s) /\ timers (fire s) = rest.
Proof.
  intros [Ht Hn] Hk. unfold fire. rewrite Hk. cbn. rewrite <- Ht, Hk. rewrite <- Ht, Hk in Hn.
  apply NoDup_cons in Hn as [Hk' Hn]. rewrite filter_neq_head by done. done.
Qed.

(** ... and the screen. *)
Lemma fire_memory s k rest :
  timers s = k :: rest ->
  memoryState (fire s) = List.filter (fun t => negb (bool_decide (id t = k))) (memoryState s).
Proof. intros Hk. unfold fire. by rewrite Hk. Qed.

Lemma fire_memory_length s : length (memoryState (fire s)) <= length (memoryState s).
Proof. unfold fire. destruct (timers s); cbn; first [lia | apply count_le]. Qed.

(** ** The invariant *)

Lemma reducer_inv s a : inv s -> inv (reducer s a).
Proof.
  intros (Hl & Hc & Ht & Hn). assert (queue_ok s) as Hq by done.
  destruct a as [t|p|tid|tid]; cbn [reducer].
  - split_and!; cbn; [|done..]. rewrite length_take. unfold TOAST_LIMIT. lia.
  - split_and!; cbn; [|done..]. by rewrite length_map.
  - set (s' := if truthy_id tid then _ else _).
    assert (queue_ok s' /\ count s' = count s) as [[Hq1 Hq2] Hc'].
    { subst s'. destruct (truthy_id tid).
      - split; [by apply addToRemoveQueue_ok|apply addToRemoveQueue_keeps].
      - destruct (addToRemoveQueue_all_ok (memoryState s) s Hq) as (? & _ & ?). done. }
    split_and!; cbn; [by rewrite length_map|by rewrite Hc'|done|done].
  - split_and!; cbn; [|done..]. destruct tid; cbn; [|lia].
    etransitivity; [apply (count_le (fun t => negb (bool_decide (id t = s0))))|done].
Qed.

Lemma step_inv s e : inv s -> inv (step s e).
Proof.
  intros Hs. destruct e as [t d v|i p|i|i|]; cbn [step]; try by apply reducer_inv.
  - unfold toast, genId. cbn [fst]. apply reducer_inv.
    destruct Hs as (? & _ & ? & ?). split_and!; [done|apply count_bound|done..].
  - destruct Hs as (Hl & Hc & Hq). assert (queue_ok s) as Hq0 by done.
    pose proof (fire_memory_length s) as Hfl.
    assert (count (fire s) = count s) as Hfc by (unfold fire; by destruct (timers s)).
    destruct (timers s) as [|k rest] eqn:E.
    + unfold fire. rewrite E. split_and!; [done|done|by rewrite E; apply Hq|apply Hq].
    + destruct (fire_queue s k rest Hq0 E) as [Hq' _]. split_and!; [lia|by rewrite Hfc|apply Hq'..].
Qed.

Lemma drain_from l s :
  queue_ok s -> timers s = l ->
  let s' := Nat.iter (length l) fire s in
  timers s' = [] /\ toastTimeouts s' = [] /\
  forall t, t ∈ memoryState s' -> t ∈ memoryState s /\ id t ∉ l.
Proof.
  cbv zeta. revert s. induction l as [|k rest IH]; intros s Hq Hl.
  - cbn. destruct Hq as [Ht _]. split_and!; [done|congruence|]. intros t Ht'. split; [done|].
    apply not_elem_of_nil.
  - destruct (fire_queue s k rest Hq Hl) as (Hq' & Hr). pose proof (fire_memory s k rest Hl) as Hm.
    cbn [length]. rewrite Nat.iter_succ_r. destruct (IH (fire s) Hq' Hr) as (H1 & H2 & H3).
    split_and!; [done|done|]. intros t Ht%H3. destruct Ht as [Ht Hnot].
    rewrite Hm, list_elem_of_In, filter_In in Ht. destruct Ht as [Ht Hkt].
    split; [by apply list_elem_of_In|]. apply not_elem_of_cons. split; [|done].
    intros Heq. by rewrite bool_decide_true in Hkt.
Qed.

Lemma iter_genId_count s k :
  (count s < MAX_SAFE_INTEGER)%N ->
  count (N.iter k (fun s => fst (genId s)) s) = ((count s + k) mod MAX_SAFE_INTEGER)%N.
Proof.
  intros Hc. induction k as [|k IH] using N.peano_ind.
  - cbn. rewrite N.add_0_r. symmetry. by apply N.mod_small.
  - rewrite N.iter_succ, genId_count, IH. unfold MAX_SAFE_INTEGER in *.
    rewrite N.Div0.add_mod_idemp_l. f_equal. lia.
Qed.

(** Two counters less than one period apart are distinct modulo it. *)
Lemma mod_window (m a d : N) : (0 < d < m)%N -> ((a + d) mod m <> a mod m)%N.
Proof.
  intros Hd Heq.
  pose proof (N.div_mod (a + d) m ltac:(lia)) as H1.
  pose proof (N.div_mod a m ltac:(lia)) as H2.
  rewrite Heq in H1.
  destruct (N.le_gt_cases ((a + d) / m) (a / m)) as [Hq|Hq]; nia.
Qed.

Lemma nth_id_eq s k :
  (count s < MAX_SAFE_INTEGER)%N ->
  nth_id s k = pretty ((count s + k + 1) mod MAX_SAFE_INTEGER)%N.
Proof.
  intros Hc. unfold nth_id, genId. cbn [snd]. rewrite iter_genId_count by done.
  unfold MAX_SAFE_INTEGER in *. rewrite N.Div0.add_mod_idemp_l. done.
Qed.

Lemma initialSys_inv : inv initialSys.
Proof. split_and!; by try constructor. Qed.

(** ** What the toast system guarantees *)

(** C28. Whatever happens (toasts shown, updated, closed, dismissed, timers
    fired, in any order), at most [TOAST_LIMIT] = 1 toast is on screen, the
    id counter stays below [MAX_SAFE_INTEGER], and every scheduled removal
    has exactly one pending callback, in scheduling order. *)
Theorem toast_inv_reachable es : inv (run_events initialSys es).
Proof.
  unfold run_events. pose proof initialSys_inv as H0.
  revert H0. generalize initialSys. induction es as [|e es IH]; intros s Hs; [done|].
  apply IH, step_inv, Hs.
Qed.

(** C29. From any reachable counter, the ids of [MAX_SAFE_INTEGER]
    consecutive [genId] calls are pairwise distinct, and the next call
    repeats the first id: ids are unique only within that window. *)
Theorem genId_unique_wraps s :
  (count s < MAX_SAFE_INTEGER)%N ->
  (forall i j, (i < j < MAX_SAFE_INTEGER)%N -> nth_id s i <> nth_id s j) /\
  nth_id s MAX_SAFE_INTEGER = nth_id s 0.
Proof.
  intros Hc. split.
  - intros i j Hij. rewrite !nth_id_eq by done. intros Heq%(inj pretty).
    apply (mod_window MAX_SAFE_INTEGER (count s + i + 1) (j - i)); [lia|].
    rewrite Heq. f_equal. lia.
  - rewrite !nth_id_eq by done. f_equal.
    replace (count s + MAX_SAFE_INTEGER + 1)%N with (count s + 0 + 1 + 1 * MAX_SAFE_INTEGER)%N by lia.
    by rewrite N.Div0.mod_add.
Qed.

(** C30. Liveness of the removal timers: from any reachable state, after as
    many timer callbacks as there are pending removals, nothing is pending
    any more and every toast whose removal was scheduled is gone from the
    screen; the toasts left were already there and none of them had a
    removal pending.  No callback is lost and none fires for nothing. *)
Theorem timers_drain s :
  inv s ->
  let s' := Nat.iter (length (timers s)) fire s in
  timers s' = [] /\ toastTimeouts s' = [] /\
  forall t, t ∈ memoryState s' -> t ∈ memoryState s /\ id t ∉ timers s.
Proof. intros (_ & _ & Hq). by apply drain_from. Qed.

(** Closing the toast on screen marks it closed and schedules exactly
    one removal; when that timer fires the toast is gone and nothing is left
    pending. *)
Theorem close_then_fire_removes s t :
  inv s -> timers s = [] -> memoryState s = [t] -> truthy (id t) = true ->
  let s1 := step s (EvClose (id t)) in
  memoryState s1 = [close t] /\ timers s1 = [id t] /\
  memoryState (step s1 EvFire) = [] /\ timers (step s1 EvFire) = [] /\
  toastTimeouts (step s1 EvFire) = [].
Proof.
  intros (_ & _ & Ht & _) He Hm Hi. destruct s as [c m tt tm]; cbn in *; subst.
  unfold step, dispatch, reducer. cbn [truthy_id memoryState]. rewrite Hi.
  unfold addToRemoveQueue. rewrite bool_decide_false by apply not_elem_of_nil.
  cbn. by rewrite !bool_decide_true.
Qed.

(** [dismiss("")] disagrees with itself: [if (toastId)] treats the
    empty id as absent and schedules the removal of every toast, while the
    [map] compares ids and closes none, so the toast stays open until the
    timer removes it. *)
Theorem dismiss_empty_id s t :
  inv s -> toastTimeouts s = [] -> memoryState s = [t] -> id t <> ""%string ->
  let s' := step s (EvDismiss (Some ""%string)) in
  memoryState s' = [t] /\ timers s' = [id t] /\ toastTimeouts s' = [id t].
Proof.
  intros (_ & _ & Ht & _) He Hm Hi. destruct s as [c m tt tm]; cbn in *; subst.
  unfold step, dispatch, reducer. cbn [truthy_id memoryState truthy foldl].
  unfold addToRemoveQueue. rewrite bool_decide_false by apply not_elem_of_nil.
  cbn. rewrite bool_decide_false by congruence. done.
Qed.

(** ** Witnesses *)

Definition error_toast : ToasterToast :=
  mk "1" "Error" "Failed to load tickets. Please try again later." true true.

Lemma shown_error_inv : inv (fst (toast (title error_toast) (description error_toast) true initialSys)).
Proof. apply (step_inv initialSys (EvToast _ _ _)), initialSys_inv. Qed.

Lemma genId_unique_wraps_witness :
  (count initialSys < MAX_SAFE_INTEGER)%N /\
  nth_id initialSys MAX_SAFE_INTEGER = nth_id initialSys 0 /\ nth_id initialSys 0 = "1"%string.
Proof.
  assert (Hc : (count initialSys < MAX_SAFE_INTEGER)%N) by reflexivity.
  split_and!; [exact Hc|apply (genId_unique_wraps initialSys Hc)|reflexivity].
Defined.

Lemma close_then_fire_removes_witness :
  let s := fst (toast (title error_toast) (description error_toast) true initialSys) in
  memoryState (step (step s (EvClose "1")) EvFire) = [].
Proof.
  cbv zeta. apply (close_then_fire_removes _ error_toast shown_error_inv); reflexivity.
Defined.

Lemma timers_drain_witness :
  let s := step (fst (toast (title error_toast) (description error_toast) true initialSys))
                (EvClose "1") in
  inv s /\ memoryState (Nat.iter (length (timers s)) fire s) = [].
Proof.
  cbv zeta. assert (Hi : inv (step (fst (toast (title error_toast) (description error_toast) true
                                             initialSys)) (EvClose "1")))
    by apply step_inv, shown_error_inv.
  split; [exact Hi|]. destruct (timers_drain _ Hi) as (_ & _ & H).
  destruct (memoryState _) as [|t l] eqn:E; [reflexivity|].
  exfalso. destruct (H t) as [Ht Hn]; [by left|]. vm_compute in Ht. vm_compute in Hn.
  apply list_elem_of_singleton in Ht as ->. apply Hn. by left.
Defined.

Lemma dismiss_empty_id_witness :
  let s := fst (toast (title error_toast) (description error_toast) true initialSys) in
  memoryState (step s (EvDismiss (Some ""%string))) = [error_toast] /\
  timers (step s (EvDismiss (Some ""%string))) = ["1"%string].
Proof.
  cbv zeta. destruct (dismiss_empty_id _ error_toast shown_error_inv) as (H1 & H2 & _);
    [reflexivity|reflexivity|discriminate|]. split; [exact H1|exact H2].
Defined.
