(* ===== verification/ToastHook.v ===== *)
(** * The subscribers of the toast store ([useToast], [hooks/use-toast.ts])

    [use-toast.ts] keeps one module-level [memoryState] and an array
    [listeners] (lines 142-143) shared by every component that calls
    [useToast] (the toaster, [TicketProvider], [AuthProvider], the login,
    submission and detail pages).  Each such component copies
    [memoryState] into its own React state on its first render (line 187),
    pushes its [setState] onto [listeners] in an effect (line 191) and
    takes it out again in the effect's cleanup (lines 192-196); [dispatch]
    hands the new [memoryState] to every listener (line 150).  The effect
    depends on [[state]], so each notification makes React run the cleanup
    and the effect again.

    [Hooks] is the shared store: the toast system [Toast.Sys], the
    [listeners] array (a component is named by its [setState]) and the
    state of each mounted component.  [hstep] lets React render new
    components, run their subscribing effects later, re-run the effects of
    subscribed components, unmount components, and lets any event of the
    toast system happen, in any order.

    The theorems: in every reachable store no component is subscribed
    twice or after it unmounted, and every [dispatch] brings each
    subscribed component to the new [memoryState]; but a component whose
    first render and effect are separated by a [dispatch] subscribes with a
    stale copy and keeps it until the next [dispatch]. *)

From Stdlib Require Import String.
From stdpp Require Import base list gmap relations.
From S2P Require Import Prelude Toast.

Module ToastHook.
Import Toast.

(** A component calling [useToast], named by its [setState]. *)
Abbreviation Comp := nat.

Record Hooks := mkHooks {
  sys : Sys;
  listeners : list Comp;
  states : gmap Comp (list ToasterToast) }.

Definition initialHooks : Hooks := mkHooks initialSys [] ∅.

(** [listeners.indexOf(setState)], then [splice(index, 1)] when found
    (lines 194-195): the first occurrence goes. *)
Fixpoint remove_first (c : Comp) (l : list Comp) : list Comp :=
  match l with
  | [] => []
  | x :: l' => if decide (x = c) then l' else x :: remove_first c l'
  end.

(** [listeners.forEach((listener) => listener(memoryState))] (line 150):
    the [setState] of an unmounted component does nothing. *)
Definition notify (ms : list ToasterToast) (ls : list Comp)
    (st : gmap Comp (list ToasterToast)) : gmap Comp (list ToasterToast) :=
  foldl (fun m c => match m !! c with Some _ => <[c := ms]> m | None => m end) st ls.

(** Does the event go through [dispatch]?  The removal timer's callback
    exists only while a removal is pending. *)
Definition dispatches (s : Sys) (e : Event) : bool :=
  match e with EvFire => bool_decide (timers s <> []) | _ => true end.

(** An event of the toast system, with [dispatch]'s notification of the
    listeners (lines 148-151). *)
Definition toast_event (e : Event) (h : Hooks) : Hooks :=
  let s' := step (sys h) e in
  mkHooks s' (listeners h)
    (if dispatches (sys h) e then notify (memoryState s') (listeners h) (states h) else states h).

(** The first render: [useState<State>(memoryState)] (line 187). *)
Definition render (c : Comp) (h : Hooks) : Hooks :=
  mkHooks (sys h) (listeners h) (<[c := memoryState (sys h)]> (states h)).

(** The effect: [listeners.push(setState)] (line 191). *)
Definition subscribe (c : Comp) (h : Hooks) : Hooks :=
  mkHooks (sys h) (listeners h ++ [c]) (states h).

(** The effect's cleanup (lines 192-196). *)
Definition cleanup (c : Comp) (h : Hooks) : Hooks :=
  mkHooks (sys h) (remove_first c (listeners h)) (states h).

(** Unmounting: the cleanup runs and the component's state is gone. *)
Definition unmount (c : Comp) (h : Hooks) : Hooks :=
  let h' := cleanup c h in mkHooks (sys h') (listeners h') (delete c (states h')).

(** A re-render whose [state] changed: the effect's dependency changed, so
    the cleanup and then the effect run again. *)
Definition rerun_effect (c : Comp) (h : Hooks) : Hooks := subscribe c (cleanup c h).

(** What React may do, in any order: a first render of a new component,
    the effect of a rendered component that has not subscribed yet (it runs
    after the commit, and a [dispatch] may come first), an unmount, the
    effect's re-run after a subscribed component's [state] changed, and any
    event of the toast system. *)
Inductive hstep : Hooks -> Hooks -> Prop :=
| HS_render c h : states h !! c = None -> hstep h (render c h)
| HS_effect c h : is_Some (states h !! c) -> c ∉ listeners h -> hstep h (subscribe c h)
| HS_unmount c h : is_Some (states h !! c) -> hstep h (unmount c h)
| HS_rerun c h : c ∈ listeners h -> hstep h (rerun_effect c h)
| HS_toast e h : hstep h (toast_event e h).

(** No component is subscribed twice, and only mounted ones are. *)
Definition hinv (h : Hooks) : Prop :=
  NoDup (listeners h) /\ (forall c, c ∈ listeners h -> is_Some (states h !! c)).

End ToastHook.

Import Toast ToastHook.

(** ** The shared array *)

Lemma remove_first_sublist c l : remove_first c l `sublist_of` l.
Proof.
  induction l as [|x l IH]; cbn; [done|].
  case_decide; [by apply sublist_cons|by apply sublist_skip].
Qed.

Lemma elem_of_remove_first c x l :
  NoDup l -> x ∈ remove_first c l <-> x ∈ l /\ x <> c.
Proof.
  induction l as [|y l IH]; cbn; intros Hnd; [set_solver|].
  apply NoDup_cons in Hnd as [Hy Hnd]. case_decide as Hyc; subst.
  - rewrite elem_of_cons. split; [intros Hx; split; [by right|by intros ->]|naive_solver].
  - rewrite !elem_of_cons, IH by done. naive_solver.
Qed.

Lemma NoDup_remove_first c l : NoDup l -> NoDup (remove_first c l).
Proof. intros. eapply sublist_NoDup; [done|apply remove_first_sublist]. Qed.

Lemma lookup_notify ms ls st c :
  notify ms ls st !! c = if bool_decide (c ∈ ls) then (fun _ => ms) <$> st !! c else st !! c.
Proof.
  revert st. induction ls as [|x ls IH]; intros st; cbn; [done|].
  unfold notify in IH. rewrite IH. clear IH.
  destruct (decide (c = x)) as [->|Hne].
  - rewrite (bool_decide_eq_true_2 (x ∈ x :: ls)) by set_solver.
    destruct (st !! x) eqn:Hx; simplify_map_eq; by case_bool_decide.
  - replace (bool_decide (c ∈ x :: ls)) with (bool_decide (c ∈ ls))
      by (apply bool_decide_ext; set_solver).
    destruct (st !! x); by simplify_map_eq.
Qed.

Lemma fire_idle s : timers s = [] -> fire s = s.
Proof. unfold fire. intros ->. done. Qed.

Lemma step_idle s e : dispatches s e = false -> step s e = s.
Proof.
  destruct e; cbn; try discriminate. case_bool_decide as H; [discriminate|]. intros _.
  apply fire_idle. destruct (timers s); [done|]. by contradict H.
Qed.

(** ** The subscriptions stay sound *)

Lemma initialHooks_inv : hinv initialHooks.
Proof. split; [constructor|]. intros c Hc. by apply not_elem_of_nil in Hc. Qed.

Lemma hooks_render_inv c h : hinv h -> hinv (render c h).
Proof.
  intros (Hnd & Hsub). split; [done|]. intros x Hx. cbn. rewrite lookup_insert_is_Some'. right. by apply Hsub.
Qed.

Lemma hooks_subscribe_inv c h : hinv h -> is_Some (states h !! c) -> c ∉ listeners h -> hinv (subscribe c h).
Proof.
  intros (Hnd & Hsub) Hc Hn. unfold hinv, subscribe; cbn. split.
  - apply NoDup_app. split_and!; [done|set_solver|apply NoDup_singleton].
  - intros x. rewrite elem_of_app, list_elem_of_singleton. intros [Hx| ->]; [by apply Hsub|done].
Qed.

Lemma hooks_unmount_inv c h : hinv h -> hinv (unmount c h).
Proof.
  intros (Hnd & Hsub). unfold hinv, unmount, cleanup; cbn. split.
  - by apply NoDup_remove_first.
  - intros x. rewrite elem_of_remove_first, lookup_delete_is_Some by done. intros [Hx Hne]. split; [done|by apply Hsub].
Qed.

Lemma hooks_rerun_inv c h : hinv h -> c ∈ listeners h -> hinv (rerun_effect c h).
Proof.
  intros (Hnd & Hsub) Hc. unfold hinv, rerun_effect, subscribe, cleanup; cbn. split.
  - apply NoDup_app. split_and!; [by apply NoDup_remove_first| |apply NoDup_singleton].
    intros x Hx. rewrite elem_of_remove_first in Hx by done. set_solver.
  - intros x. rewrite elem_of_app, list_elem_of_singleton, elem_of_remove_first by done.
    intros [[Hx _]| ->]; by apply Hsub.
Qed.

Lemma toast_event_inv e h : hinv h -> hinv (toast_event e h).
Proof.
  intros (Hnd & Hsub). unfold hinv, toast_event; cbn. split; [done|]. intros x Hx.
  destruct (dispatches (sys h) e); [|by apply Hsub].
  rewrite lookup_notify. case_bool_decide; [rewrite fmap_is_Some|]; by apply Hsub.
Qed.

(** [dispatch] brings every subscribed component up to date. *)
Lemma toast_event_notifies e h c :
  hinv h -> dispatches (sys h) e = true -> c ∈ listeners h ->
  states (toast_event e h) !! c = Some (memoryState (sys (toast_event e h))).
Proof.
  intros (_ & Hsub) Hd Hc. unfold toast_event. cbn -[notify]. rewrite Hd, lookup_notify.
  rewrite bool_decide_eq_true_2 by done. destruct (Hsub c Hc) as [v ->]. done.
Qed.

Lemma hstep_inv h h' : hstep h h' -> hinv h /\ Toast.inv (sys h) -> hinv h' /\ Toast.inv (sys h').
Proof.
  destruct 1; intros [Hh Hs]; split; cbn;
    auto using hooks_render_inv, hooks_subscribe_inv, hooks_unmount_inv, hooks_rerun_inv, toast_event_inv.
  by apply step_inv.
Qed.

Lemma rtc_hstep_inv h h' : rtc hstep h h' -> hinv h /\ Toast.inv (sys h) -> hinv h' /\ Toast.inv (sys h').
Proof. induction 1; eauto using hstep_inv. Qed.

(** C31. Whatever components render, subscribe, re-run their effects and
    unmount, in any order relative to each other and to the toasts, no
    component is ever in [listeners] twice, none is there after it
    unmounted, at most [TOAST_LIMIT] toasts are kept, and the next
    [dispatch] brings every subscribed component to the new
    [memoryState].  (A component that has rendered but not subscribed yet
    is not reached: see C32.) *)
Theorem toasters_show_memoryState h :
  rtc hstep initialHooks h ->
  NoDup (listeners h) /\ (forall c, c ∈ listeners h -> is_Some (states h !! c)) /\
  length (memoryState (sys h)) <= TOAST_LIMIT /\
  (forall e c, dispatches (sys h) e = true -> c ∈ listeners h ->
     states (toast_event e h) !! c = Some (memoryState (sys (toast_event e h)))).
Proof.
  intros Hr. destruct (rtc_hstep_inv initialHooks h Hr) as [Hh [Hl _]];
    [split; [apply initialHooks_inv|apply initialSys_inv]|].
  destruct Hh as [Hnd Hsub]. split_and!; [done|done|done|]. intros e c Hd Hc.
  by apply toast_event_notifies.
Qed.

(** C32. [useToast] copies [memoryState] at the first render but subscribes
    only in its effect: when a [dispatch] that changes [memoryState] comes
    between the two, the component subscribes with the old toasts and shows
    them until the next [dispatch], which it does receive. *)
Theorem late_subscriber_stale c e h :
  c ∉ listeners h -> dispatches (sys h) e = true ->
  memoryState (step (sys h) e) <> memoryState (sys h) ->
  let h' := subscribe c (toast_event e (render c h)) in
  c ∈ listeners h' /\ states h' !! c = Some (memoryState (sys h)) /\
  memoryState (sys h') <> memoryState (sys h) /\
  (forall e', dispatches (sys h') e' = true ->
     states (toast_event e' h') !! c = Some (memoryState (sys (toast_event e' h')))).
Proof.
  intros Hc Hd Hne. cbn -[notify]. rewrite Hd. split_and!; [set_solver| |done|].
  - rewrite lookup_notify, bool_decide_eq_false_2 by done. by simplify_map_eq.
  - intros e' Hd'. rewrite Hd'. cbn -[notify]. rewrite lookup_notify, bool_decide_eq_true_2 by set_solver.
    rewrite lookup_notify, bool_decide_eq_false_2 by done. by simplify_map_eq.
Qed.

(** ** Witnesses *)

Lemma toasters_show_memoryState_witness :
  let h := rerun_effect 0 (unmount 1 (subscribe 1 (toast_event (EvToast "Error"%string "Failed to load tickets"%string true)
             (render 1 (subscribe 0 (render 0 initialHooks)))))) in
  NoDup (listeners h) /\ (forall c, c ∈ listeners h -> is_Some (states h !! c)) /\
  length (memoryState (sys h)) <= TOAST_LIMIT /\
  (forall e c, dispatches (sys h) e = true -> c ∈ listeners h ->
     states (toast_event e h) !! c = Some (memoryState (sys (toast_event e h)))).
Proof.
  apply toasters_show_memoryState.
  eapply rtc_l; [apply (HS_render 0); reflexivity|].
  eapply rtc_l; [apply (HS_effect 0); [eexists; reflexivity|apply not_elem_of_nil]|].
  eapply rtc_l; [apply (HS_render 1); reflexivity|].
  eapply rtc_l; [apply (HS_toast (EvToast "Error"%string "Failed to load tickets"%string true))|].
  eapply rtc_l; [apply (HS_effect 1); [eexists; reflexivity|cbn; set_solver]|].
  eapply rtc_l; [apply (HS_unmount 1); eexists; reflexivity|].
  eapply rtc_l; [apply (HS_rerun 0); cbn; set_solver|].
  apply rtc_refl.
Defined.

Lemma late_subscriber_stale_witness :
  let h' := subscribe 0 (toast_event (EvToast "Error"%string "Failed to load tickets"%string true) (render 0 initialHooks)) in
  states h' !! 0 = Some [] /\ memoryState (sys h') <> [].
Proof.
  destruct (late_subscriber_stale 0 (EvToast "Error"%string "Failed to load tickets"%string true) initialHooks)
    as (_ & Hs & Hne & _); [apply not_elem_of_nil|reflexivity|cbv; discriminate|].
  split; [exact Hs|exact Hne].
Defined.
