(* ===== verification/Auth.v ===== *)
(** * The session: [AuthProvider] and the login page

    [context/AuthContext.tsx] keeps [user] and [isLoading] ([AuthState] of
    the client) and wraps [authService]: [checkAuth] runs on mount,
    [login] and [logout] are called by the pages.  [pages/admin/Login.tsx]
    validates the form ([validateForm], with the e-mail regex
    [/\S+@\S+\.\S+/]) and calls [login].  Both are [Prog] programs over the
    same client as the ticket store; the token lives in the client's
    [localStorage] entry, set and cleared by [authService].

    The theorems: a login stores the token and the user, a failed one
    changes neither and emits two different "Login Failed" toasts of which
    only the second stays on screen; a logout clears the local session
    whatever the server answers; the mount check keeps a valid session and
    purges a stale token; the e-mail test is the regex's language. *)

From Stdlib Require Import String Ascii.
From stdpp Require Import base list strings.
From S2P Require Import Prelude Model Api Prog Service Backend Toast.

Local Open Scope string_scope.
Local Open Scope js_scope.

Module AuthProvider.

Definition setUser (u : option User.t) (a : AuthState) : AuthState := mkAuthState u (isLoading a).
Definition setIsLoading (b : bool) (a : AuthState) : AuthState := mkAuthState (user a) b.

(** [checkAuth] (lines 65-78), run once on mount. *)
Definition checkAuth : Prog unit :=
  try_catch_finally
    (isAuth ← AuthService.isAuthenticated;
     if (isAuth : bool) then
       (userData ← AuthService.getCurrentUser;
        modify (map_auth (setUser (Some userData))))
     else Ret tt)
    (fun _ => Ret tt)
    (modify (map_auth (setIsLoading false))).

(** [login] (lines 89-110): the error is rethrown after the toast. *)
Definition login (email password : string) : Prog unit :=
  try_catch_finally
    (_ ← modify (map_auth (setIsLoading true));
     response ← AuthService.login email password;
     _ ← modify (map_auth (setUser (Some (lr_user response))));
     toast "Login Successful" ("Welcome back, " +s+ User.username (lr_user response) +s+ "!") false)
    (fun error =>
       _ ← toast "Login Failed" "Invalid email or password. Please try again." true;
       Throw error)
    (modify (map_auth (setIsLoading false))).

(** [logout] (lines 118-133) *)
Definition logout : Prog unit :=
  try_catch_finally
    (_ ← modify (map_auth (setIsLoading true));
     _ ← AuthService.logout;
     _ ← modify (map_auth (setUser None));
     toast "Logged Out" "You have been successfully logged out." false)
    (fun _ => Ret tt)
    (modify (map_auth (setIsLoading false))).

(** [isAuthenticated: !!user] (line 139) *)
Definition isAuthenticated (a : AuthState) : bool := bool_decide (is_Some (user a)).

End AuthProvider.

Module LoginPage.

Definition nonspace (c : ascii) : bool := negb (is_js_space c).

(** [\S+\.\S+] after the ['@']: [seen] says whether the first [\S+] has
    consumed a character yet.  At each character the matcher either takes
    it as the literal ['.'] (then one more non-space character must follow)
    or lets [\S+] consume it; this is the regex's backtracking. *)
Fixpoint after_at (l : list ascii) (seen : bool) : bool :=
  match l with
  | [] => false
  | c :: r =>
      (seen && bool_decide (c = "."%char) &&
         match r with d :: _ => nonspace d | [] => false end) ||
      (nonspace c && after_at r true)
  end.

(** [/\S+@\S+\.\S+/.test] (line 54): the regex is not anchored, so it
    matches when some non-space character followed by ['@'] starts a match
    of the rest. *)
Fixpoint email_test (l : list ascii) : bool :=
  match l with
  | [] => false
  | c :: r =>
      (nonspace c &&
         match r with x :: r' => bool_decide (x = "@"%char) && after_at r' false | [] => false end) ||
      email_test r
  end.

Record ValidationErrors := mkErrors { err_email : string; err_password : string }.

(** [validateForm] (lines 47-69): the errors shown and whether the form is
    valid. *)
Definition validateForm (email password : string) : ValidationErrors * bool :=
  let '(e, ok1) :=
    if negb (truthy email) then ("Email is required", false)
    else if negb (email_test (list_ascii_of_string email)) then ("Email is invalid", false)
    else ("", true) in
  let '(p, ok2) :=
    if negb (truthy password) then ("Password is required", false)
    else if (String.length password <? 6)%nat then ("Password must be at least 6 characters", false)
    else ("", true) in
  (mkErrors e p, (ok1 && ok2)%bool).

(** [handleSubmit] (lines 77-97): the route it navigates to, if any.  The
    page-local [isSubmitting] is set and reset around the call and has no
    effect after it. *)
Definition handleSubmit (email password : string) : Prog (option string) :=
  if negb (snd (validateForm email password)) then Ret None else
  try_catch_finally
    (_ ← AuthProvider.login email password; Ret (Some "/admin/dashboard"))
    (fun _ => _ ← toast "Login Failed" "Invalid credentials. Please try again." true; Ret None)
    (Ret tt).

End LoginPage.

(** The toasts a run emitted, shown one after the other by [use-toast]. *)
Definition show_all (msgs : list ToastMsg) (s : Toast.Sys) : Toast.Sys :=
  foldl (fun s m => fst (Toast.toast (toast_title m) (toast_description m) (toast_destructive m) s))
        s msgs.

(** ** Sample worlds *)

Definition ana : User.t := User.mk "1" "ana" "ana@x.com" "Ana" "Silva".

(** The reference backend with one account, and a freshly mounted client. *)
Definition auth_world : World Django.state :=
  mkWorld (django_empty [("ana@x.com", "secret1", ana)]) (initialClient "csrftoken=abc") [].

(** The same after a successful login. *)
Definition auth_world1 : World Django.state :=
  fst (run (AuthProvider.login "ana@x.com" "secret1") auth_world).

(** A client holding a token the backend no longer knows. *)
Definition stale_world : World Django.state :=
  mkWorld (django_empty [("ana@x.com", "secret1", ana)])
    (set_token (Some "key0") (initialClient "csrftoken=abc")) [].

Import AuthProvider LoginPage.
Local Close Scope string_scope.

Ltac auth_unfold :=
  unfold checkAuth, AuthProvider.login, logout, handleSubmit, AuthService.login,
    AuthService.logout, AuthService.getCurrentUser, AuthService.isAuthenticated,
    try_catch_finally.

(** ** The e-mail regex *)

Lemma after_at_spec l seen :
  after_at l seen = true <->
  exists m d q, l = m ++ "."%char :: d :: q /\ (seen = true \/ m <> []) /\
                Forall (fun c => nonspace c = true) m /\ nonspace d = true.
Proof.
  revert seen. induction l as [|c r IH]; intros seen; cbn [after_at].
  - split; [done|]. intros (m & d & q & E & _). by destruct m.
  - rewrite orb_true_iff, !andb_true_iff, IH, bool_decide_eq_true. split.
    + intros [[[Hs ->] Hd]|[Hc (m & d & q & -> & _ & Hm & Hd)]].
      * destruct r as [|d q]; [done|]. exists [], d, q. naive_solver.
      * exists (c :: m), d, q. split_and!; [done|by right|by constructor|done].
    + intros ([|c' m] & d & q & E & Hs & Hm & Hd); injection E as <- E.
      * left. subst r. destruct Hs; naive_solver.
      * right. apply Forall_cons in Hm as [Hc Hm]. split; [done|].
        exists m, d, q. naive_solver.
Qed.

Lemma email_test_app p l : email_test l = true -> email_test (p ++ l) = true.
Proof. induction p as [|c p IH]; [done|]. intros H. cbn. rewrite IH by done. apply orb_true_r. Qed.

(** ** The session *)

Section Session.
Context {S : Type} `{!Gateway S}.

(** C36. A login the backend accepts stores its token and its user, ends
    loading, and greets the user; exactly one request is made. *)
Theorem login_success w e p s1 r :
  handle (srv w) (hdrs (client w) (PostLogin e p)) (PostLogin e p) = (s1, Ok r) ->
  let '(w', x) := run (AuthProvider.login e p) w in
  x = Ok tt /\ log w' = log w ++ [PostLogin e p] /\
  token (client w') = Some (lr_token r) /\ user (auth (client w')) = Some (lr_user r) /\
  isLoading (auth (client w')) = false /\
  toasts (client w') = toasts (client w) ++
    [mkToast "Login Successful" ("Welcome back, " +s+ User.username (lr_user r) +s+ "!") false].
Proof. intros H. auth_unfold. run_simp. rewrite H. run_simp. state_simp. done. Qed.

(** C37. When the backend rejects a well-formed login, the page does not
    navigate and the session is unchanged (token and user), but two
    different "Login Failed" toasts are emitted, the provider's and then the
    page's; with [TOAST_LIMIT = 1] only the page's stays on screen. *)
Theorem handleSubmit_login_fails w e p s1 err :
  snd (validateForm e p) = true ->
  handle (srv w) (hdrs (client w) (PostLogin e p)) (PostLogin e p) = (s1, Err err) ->
  let '(w', x) := run (handleSubmit e p) w in
  x = Ok None /\ log w' = log w ++ [PostLogin e p] /\ token (client w') = token (client w) /\
  user (auth (client w')) = user (auth (client w)) /\ isLoading (auth (client w')) = false /\
  toasts (client w') = toasts (client w) ++
    [mkToast "Login Failed" "Invalid email or password. Please try again." true;
     mkToast "Login Failed" "Invalid credentials. Please try again." true] /\
  forall ts, map Toast.description
    (Toast.memoryState (show_all (drop (length (toasts (client w))) (toasts (client w'))) ts)) =
    ["Invalid credentials. Please try again."%string].
Proof.
  intros Hv H. unfold handleSubmit. rewrite Hv. cbn [negb]. auth_unfold.
  run_simp. rewrite H. run_simp. state_simp.
  split_and!; try done; [by rewrite <- app_assoc|].
  intros ts. rewrite <- app_assoc, drop_app_length. done.
Qed.

(** Logging out always clears the local session: whatever the backend
    answers, the token and the user are gone and loading has ended. *)
Theorem logout_clears w :
  let '(w', x) := run AuthProvider.logout w in
  x = Ok tt /\ log w' = log w ++ [PostLogout] /\ token (client w') = None /\
  user (auth (client w')) = None /\ isLoading (auth (client w')) = false.
Proof.
  auth_unfold. run_simp.
  destruct (handle _ _ PostLogout) as [s' [[]|e]]; run_simp; state_simp; done.
Qed.

(** C38. On mount, a token the backend accepts restores the session: the
    user is fetched (twice: once by the freshness check, once by
    [getCurrentUser]) and the second answer is stored; the token is kept. *)
Theorem checkAuth_valid w t s1 u1 s2 u2 :
  token (client w) = Some t -> truthy t = true ->
  handle (srv w) (hdrs (client w) GetUser) GetUser = (s1, Ok u1) ->
  handle s1 (hdrs (client w) GetUser) GetUser = (s2, Ok u2) ->
  let '(w', x) := run checkAuth w in
  x = Ok tt /\ log w' = log w ++ [GetUser; GetUser] /\ user (auth (client w')) = Some u2 /\
  token (client w') = Some t /\ isLoading (auth (client w')) = false.
Proof.
  intros Ht Htr H1 H2. auth_unfold. run_simp. rewrite Ht, Htr. run_simp.
  rewrite H1. run_simp. rewrite H2. run_simp. state_simp. by rewrite <- app_assoc.
Qed.

(** On mount, a token the backend rejects is purged: one request, no
    user, the token removed from storage, loading ended. *)
Theorem checkAuth_stale w t s1 e :
  token (client w) = Some t -> truthy t = true ->
  handle (srv w) (hdrs (client w) GetUser) GetUser = (s1, Err e) ->
  let '(w', x) := run checkAuth w in
  x = Ok tt /\ log w' = log w ++ [GetUser] /\ token (client w') = None /\
  user (auth (client w')) = user (auth (client w)) /\ isLoading (auth (client w')) = false.
Proof.
  intros Ht Htr H1. auth_unfold. run_simp. rewrite Ht, Htr. run_simp.
  rewrite H1. run_simp. state_simp. done.
Qed.
End Session.

(** ** Login form *)

(** C39. The e-mail test accepts exactly the strings of the regex's
    language: some non-space character, ['@'], one or more non-space
    characters, ['.'], and a non-space character, anywhere in the input. *)
Theorem email_test_regex l :
  email_test l = true <->
  exists p a m d q, l = p ++ a :: "@"%char :: m ++ "."%char :: d :: q /\
    nonspace a = true /\ m <> [] /\ Forall (fun c => nonspace c = true) m /\ nonspace d = true.
Proof.
  split.
  - induction l as [|c r IH]; [done|]. cbn [email_test]. rewrite orb_true_iff, andb_true_iff.
    intros [[Hc Hr]|Hr].
    + destruct r as [|x r']; [done|]. apply andb_true_iff in Hr as [Hx%bool_decide_eq_true Ha].
      subst x. apply after_at_spec in Ha as (m & d & q & -> & [?|Hm] & Hf & Hd); [done|].
      by exists [], c, m, d, q.
    + destruct (IH Hr) as (p & a & m & d & q & -> & Ha & Hm & Hf & Hd).
      by exists (c :: p), a, m, d, q.
  - intros (p & a & m & d & q & -> & Ha & Hm & Hf & Hd). apply email_test_app.
    cbn [email_test]. rewrite Ha, bool_decide_true by done. cbn [andb].
    apply orb_true_iff. left. apply after_at_spec. exists m, d, q. naive_solver.
Qed.

Lemma truthy_false s : truthy s = false -> s = ""%string.
Proof. unfold truthy. destruct (String.eqb_spec s ""); naive_solver. Qed.

(** The form is valid exactly when the e-mail passes the regex and the
    password has at least six characters; a valid form shows no error. *)
Theorem validateForm_valid e p :
  (snd (validateForm e p) = true <->
   email_test (list_ascii_of_string e) = true /\ 6 <= String.length p) /\
  (snd (validateForm e p) = true -> fst (validateForm e p) = mkErrors "" "").
Proof.
  unfold validateForm.
  destruct (truthy e) eqn:He; [|apply truthy_false in He as ->];
  destruct (email_test _) eqn:Ht; cbn [negb];
  destruct (truthy p) eqn:Hp; try (apply truthy_false in Hp as ->);
  try destruct (String.length p <? 6)%nat eqn:Hl; cbn;
  rewrite ?Nat.ltb_lt, ?Nat.ltb_ge in *; split; try (split; intros; naive_solver lia); done.
Qed.

(** ** Witnesses *)

Lemma login_success_witness :
  token (client auth_world1) = Some "key0"%string /\ user (auth (client auth_world1)) = Some ana.
Proof.
  pose proof (login_success auth_world "ana@x.com" "secret1" _ _ eq_refl) as H.
  unfold auth_world1. revert H. destruct (run _ auth_world) as [w' x]. intros (_ & _ & Ht & Hu & _).
  cbn [fst]. by rewrite Ht, Hu.
Defined.

Lemma handleSubmit_login_fails_witness :
  snd (run (handleSubmit "ana@x.com" "wrongpw") auth_world) = Ok None /\
  token (client (fst (run (handleSubmit "ana@x.com" "wrongpw") auth_world))) = None.
Proof.
  pose proof (handleSubmit_login_fails auth_world "ana@x.com" "wrongpw" _ _ eq_refl eq_refl) as H.
  revert H. destruct (run _ auth_world) as [w' x]. intros (-> & _ & Ht & _). cbn [fst snd]. by rewrite Ht.
Defined.

Lemma checkAuth_valid_witness :
  user (auth (client (fst (run checkAuth auth_world1)))) = Some ana.
Proof.
  pose proof (checkAuth_valid auth_world1 "key0" _ _ _ _ eq_refl eq_refl eq_refl eq_refl) as H.
  revert H. destruct (run checkAuth auth_world1) as [w' x]. intros (_ & _ & Hu & _). exact Hu.
Defined.

Lemma checkAuth_stale_witness :
  token (client (fst (run checkAuth stale_world))) = None.
Proof.
  pose proof (checkAuth_stale stale_world "key0" _ _ eq_refl eq_refl eq_refl) as H.
  revert H. destruct (run checkAuth stale_world) as [w' x]. intros (_ & _ & Ht & _). exact Ht.
Defined.
