(* ===== verification/Pages.v ===== *)
(** * Pages: the route table, the admin guard, the submission form, badges

    [components/AppRouter.tsx] maps paths to pages; the admin pages are the
    children of [components/admin/AdminLayout.tsx], which shows "Loading..."
    while the session check runs and redirects to the login page without a
    user.  [pages/admin/Login.tsx] redirects an authenticated user to the
    dashboard.  [render] is what the router shows for a path and a session.
    Path matching approximates React Router's: segments split at ['/'],
    empty segments ignored, static segments compared case-insensitively, a
    dynamic segment taken as written.

    [pages/SubmitTicket.tsx] validates the form with a zod schema and calls
    the store's [createTicket]; zod's e-mail check is a library, the section
    variable [zod_email].  The badges map the enumerations to their labels
    and CSS classes. *)

From Stdlib Require Import String Ascii ZArith.
From stdpp Require Import base list strings.
From S2P Require Import Prelude Model Api Prog Service Backend Store Toast Auth.

Local Open Scope string_scope.
Local Open Scope js_scope.

(** ** Routing *)

Module Routes.

Inductive Page :=
| PIndex | PSubmitTicket | PTicketSubmitted | PLogin
| PAdminHome | PDashboard | PTicketList | PTicketDetail (id : string)
| PNotFound.

(** What the screen shows. *)
Inductive View :=
| Shows (p : Page)
| Loading
| Redirect (to : string).

(** The segments of a path: split at ['/'], empty segments dropped. *)
Fixpoint split_path (l : list ascii) (cur : list ascii) : list string :=
  match l with
  | [] => if bool_decide (cur = []) then [] else [string_of_list_ascii (rev cur)]
  | c :: r =>
      if bool_decide (c = "/"%char)
      then (if bool_decide (cur = []) then [] else [string_of_list_ascii (rev cur)]) ++ split_path r []
      else split_path r (c :: cur)
  end.

Definition segments (path : string) : list string := split_path (list_ascii_of_string path) [].

(** A static segment matches regardless of case. *)
Definition seg_is (s lit : string) : bool := String.eqb (toLowerCase s) lit.

(** The route table (lines 67-86). *)
Definition route (path : string) : Page :=
  match segments path with
  | [] => PIndex
  | [a] =>
      if seg_is a "submit-ticket" then PSubmitTicket
      else if seg_is a "ticket-submitted" then PTicketSubmitted
      else if seg_is a "admin" then PAdminHome
      else PNotFound
  | [a; b] =>
      if seg_is a "admin" then
        if seg_is b "login" then PLogin
        else if seg_is b "dashboard" then PDashboard
        else if seg_is b "tickets" then PTicketList
        else PNotFound
      else PNotFound
  | [a; b; c] =>
      if (seg_is a "admin" && seg_is b "tickets")%bool then PTicketDetail c else PNotFound
  | _ => PNotFound
  end.

(** The pages nested under [<Route path="/admin" element={<AdminLayout />}>]. *)
Definition is_admin_page (p : Page) : bool :=
  match p with PAdminHome | PDashboard | PTicketList | PTicketDetail _ => true | _ => false end.

(** [AdminLayout] (lines 10-23). *)
Definition admin_layout (a : AuthState) (p : Page) : View :=
  if isLoading a then Loading
  else if negb (AuthProvider.isAuthenticated a) then Redirect "/admin/login"
  else Shows p.

(** [Login]'s guards (lines 36-38 and 100-106). *)
Definition login_view (a : AuthState) : View :=
  if (AuthProvider.isAuthenticated a && negb (isLoading a))%bool then Redirect "/admin/dashboard"
  else if isLoading a then Loading
  else Shows PLogin.

Definition render (a : AuthState) (path : string) : View :=
  let p := route path in
  if is_admin_page p then admin_layout a p
  else match p with
       | PLogin => login_view a
       | _ => Shows p
       end.

End Routes.

(** ** Ticket submission *)

Module SubmitPage.

(** [TicketFormValues] (line 36) *)
Record TicketFormValues := mkForm {
  f_name : string; f_email : string; f_title : string; f_description : string;
  f_priority : TicketPriority }.

(** [defaultValues] (lines 51-57) *)
Definition defaultValues : TicketFormValues := mkForm "" "" "" "" medium.

(** The fields of [ticketSchema], in its order. *)
Inductive FieldName := FName | FEmail | FTitle | FDescription | FPriority.

#[export] Instance FieldName_eq_dec : EqDecision FieldName.
Proof. solve_decision. Defined.

Definition fieldNames : list FieldName := [FName; FEmail; FTitle; FDescription; FPriority].

Section Schema.
(** [z.string().email()]: a library predicate. *)
Variable zod_email : string -> bool.

(** The message zod reports for a field (lines 27-33), if it fails; [min]
    counts code units.  The priority comes from a [Select] offering the
    enumeration's values, so it never fails. *)
Definition field_issue (f : TicketFormValues) (n : FieldName) : option string :=
  match n with
  | FName => if (String.length (f_name f) <? 2)%nat then Some "Name must be at least 2 characters" else None
  | FEmail => if zod_email (f_email f) then None else Some "Invalid email address"
  | FTitle => if (String.length (f_title f) <? 5)%nat then Some "Title must be at least 5 characters" else None
  | FDescription =>
      if (String.length (f_description f) <? 10)%nat
      then Some "Description must be at least 10 characters" else None
  | FPriority => None
  end.

(** [ticketSchema] (lines 26-34): zod reports every failing field. *)
Definition schema_errors (f : TicketFormValues) : list string := omap (field_issue f) fieldNames.

(** [onSubmit] (lines 64-96): the route it navigates to, if any.
    [form.reset()] and [isSubmitting] are page-local. *)
Definition onSubmit (formData : TicketFormValues) : Prog (option string) :=
  try_catch_finally
    (_ ← TicketProvider.createTicket
           (mkTicketInput (f_title formData) (f_description formData) (f_priority formData)
              (Ticket.mkCreator (f_name formData) (f_email formData)));
     _ ← toast "Ticket Submitted" "Your support ticket has been created successfully." false;
     Ret (Some "/ticket-submitted"))
    (fun _ =>
       _ ← toast "Submission Failed" "There was an error submitting your ticket. Please try again." true;
       Ret None)
    (Ret tt).

(** [form.handleSubmit(onSubmit)] (line 147): [onSubmit] runs only on a
    valid form. *)
Definition submit (f : TicketFormValues) : Prog (option string) :=
  match schema_errors f with [] => onSubmit f | _ :: _ => Ret None end.
End Schema.

End SubmitPage.

(** ** Badges ([components/TicketStatusBadge.tsx], [TicketPriorityBadge.tsx]) *)

Module Badges.

Definition statusClasses (s : TicketStatus) : string :=
  match s with
  | new => "ticket-status-new" | open => "ticket-status-open" | Model.pending => "ticket-status-pending"
  | resolved => "ticket-status-resolved" | closed => "ticket-status-closed"
  end.

Definition statusLabels (s : TicketStatus) : string :=
  match s with
  | new => "New" | open => "Open" | Model.pending => "Pending" | resolved => "Resolved" | closed => "Closed"
  end.

Definition priorityClasses (p : TicketPriority) : string :=
  match p with
  | low => "ticket-priority-low" | medium => "ticket-priority-medium"
  | high => "ticket-priority-high" | urgent => "ticket-priority-urgent"
  end.

Definition priorityLabels (p : TicketPriority) : string :=
  match p with low => "Low" | medium => "Medium" | high => "High" | urgent => "Urgent" end.

End Badges.

(** ** The navigation bar ([components/Navbar.tsx]) *)

Module Navbar.

(** The bar's state (lines 16-19). *)
Record NavState := mkNav { isScrolled : bool; mobileMenuOpen : bool }.

Definition initialNav : NavState := mkNav false false.

Inductive NavEvent :=
| Scroll (scrollY : Z)      (** [handleScroll] (lines 23-25) *)
| PathChange                (** the effect on [location.pathname] (lines 33-35) *)
| ToggleMenu.               (** the mobile menu button (line 153) *)

Definition nav_step (s : NavState) (e : NavEvent) : NavState :=
  match e with
  | Scroll y => mkNav (bool_decide (10 < y)%Z) (mobileMenuOpen s)
  | PathChange => mkNav (isScrolled s) false
  | ToggleMenu => mkNav (isScrolled s) (negb (mobileMenuOpen s))
  end.

(** [isActive] (line 38) *)
Definition isActive (pathname path : string) : bool := String.eqb pathname path.

(** [navBarClass] (lines 41-43) *)
Definition navBarClass (s : NavState) : string :=
  "fixed top-0 w-full z-30 transition-all duration-300 " +s+
  (if isScrolled s then "bg-white/95 shadow-md backdrop-blur-sm" else "bg-transparent").

(** [linkClass] (lines 46-51); both scroll states give the same colour. *)
Definition linkClass (s : NavState) (pathname path : string) : string :=
  "text-sm font-medium transition-colors relative px-2 py-1 rounded-md " +s+
  (if isActive pathname path then "text-primary"
   else (if isScrolled s then "text-gray-700" else "text-gray-700") +s+ " hover:text-primary").

(** [getUserDisplayName] (lines 54-57): [first_name || username]. *)
Definition getUserDisplayName (user : option User.t) : string :=
  match user with
  | None => ""
  | Some u => if truthy (User.first_name u) then User.first_name u else User.username u
  end.

Inductive NavItem :=
| NavLink (to label : string)
| NavText (text : string)
| LogoutButton.

(** The desktop navigation (lines 84-146). *)
Definition desktop_nav (a : AuthState) : list NavItem :=
  [NavLink "/" "Home"; NavLink "/submit-ticket" "Submit a Ticket"] ++
  if negb (AuthProvider.isAuthenticated a) then [NavLink "/admin/login" "Admin Login"]
  else [NavLink "/admin/dashboard" "Dashboard"; NavText (getUserDisplayName (user a)); LogoutButton].

Definition link_target (i : NavItem) : option string :=
  match i with NavLink to _ => Some to | _ => None end.

End Navbar.

Import Routes SubmitPage Navbar.
Local Close Scope string_scope.

(** ** The admin guard *)

(** No admin page is shown unless a user is signed in and the session
    check has finished; once it has finished without a user, every admin
    path redirects to the login page. *)
Theorem admin_pages_guarded a path :
  (forall p, render a path = Shows p -> is_admin_page p = true ->
     AuthProvider.isAuthenticated a = true /\ isLoading a = false) /\
  (is_admin_page (route path) = true -> isLoading a = false ->
     AuthProvider.isAuthenticated a = false -> render a path = Redirect "/admin/login").
Proof.
  unfold render, admin_layout, login_view. split.
  - intros p. destruct (is_admin_page (route path)) eqn:Ha.
    + destruct (isLoading a), (AuthProvider.isAuthenticated a); cbn;
        intros E _; try discriminate E; done.
    + destruct (route path); cbn in Ha; try discriminate;
        destruct (isLoading a), (AuthProvider.isAuthenticated a); cbn;
        intros E Hp; try discriminate E; injection E as <-; discriminate Hp.
  - intros -> -> ->. done.
Qed.

(** ** Ticket submission *)

Section Submission.
Context {S : Type} `{!Gateway S}.
Variable zod_email : string -> bool.

(** A valid form the backend accepts creates one ticket, appended to
    the snapshot, and navigates to the confirmation page; two success toasts
    are emitted, the store's and the page's, and only the page's stays on
    screen. *)
Theorem submit_success w f s1 d :
  schema_errors zod_email f = [] ->
  let i := mkTicketInput (f_title f) (f_description f) (f_priority f)
             (Ticket.mkCreator (f_name f) (f_email f)) in
  handle (srv w) (hdrs (client w) (PostTicket (createTicketDto i)))
    (PostTicket (createTicketDto i)) = (s1, Ok d) ->
  let '(w', x) := run (submit zod_email f) w in
  x = Ok (Some "/ticket-submitted"%string) /\ log w' = log w ++ [PostTicket (createTicketDto i)] /\
  snapshot w' = snapshot w ++ [transformTicket d] /\
  toasts (client w') = toasts (client w) ++
    [mkToast "Ticket Created" "Your ticket has been submitted successfully." false;
     mkToast "Ticket Submitted" "Your support ticket has been created successfully." false] /\
  forall ts, map Toast.description
    (Toast.memoryState (show_all (drop (length (toasts (client w))) (toasts (client w'))) ts)) =
    ["Your support ticket has been created successfully."%string].
Proof.
  intros Hs i H. subst i. unfold submit. rewrite Hs. unfold onSubmit. store_exec H.
  split_and!; try done; [by rewrite <- app_assoc|].
  intros ts. rewrite <- app_assoc, drop_app_length. done.
Qed.
End Submission.

(** ** The navigation bar *)

(** Once the session check has finished, every link of the navigation
    bar opens a page: none leads to the 404 page, to a redirect or to a
    loading screen, signed in or not.  The bar offers the dashboard exactly
    when a user is signed in. *)
Theorem navbar_links_live a :
  isLoading a = false ->
  (forall i to, i ∈ desktop_nav a -> link_target i = Some to ->
     exists p, render a to = Shows p /\ p <> PNotFound) /\
  ((exists l, NavLink "/admin/dashboard" l ∈ desktop_nav a) <->
     AuthProvider.isAuthenticated a = true).
Proof.
  intros Hl. unfold desktop_nav. split.
  - intros [to' l| |] to Hi Ht; cbn in Ht; try discriminate. injection Ht as <-.
    apply list_elem_of_In in Hi.
    destruct (AuthProvider.isAuthenticated a) eqn:Ha; cbn in Hi;
      repeat destruct Hi as [Hi|Hi]; try contradiction; try discriminate Hi;
      injection Hi as <- _; eexists; unfold render, admin_layout, login_view;
      rewrite ?Hl, ?Ha; cbn; (split; [reflexivity|done]).
  - destruct (AuthProvider.isAuthenticated a); cbn [negb]; split; try done.
    + intros _. exists "Dashboard"%string. apply list_elem_of_In. cbn. tauto.
    + intros [l Hin]. apply list_elem_of_In in Hin. cbn in Hin. naive_solver.
Qed.

(** ** Witnesses *)

Lemma navbar_links_live_witness :
  render (mkAuthState None false) "/admin/login" = Shows PLogin /\
  (exists p, render (mkAuthState None false) "/admin/login" = Shows p /\ p <> PNotFound).
Proof.
  split; [reflexivity|].
  apply (proj1 (navbar_links_live (mkAuthState None false) eq_refl)
           (NavLink "/admin/login" "Admin Login") "/admin/login"); [|reflexivity].
  apply list_elem_of_In. cbn. tauto.
Defined.

Lemma admin_pages_guarded_witness :
  render (mkAuthState (Some ana) false) "/admin/dashboard" = Shows PDashboard /\
  AuthProvider.isAuthenticated (mkAuthState (Some ana) false) = true.
Proof.
  assert (H : render (mkAuthState (Some ana) false) "/admin/dashboard" = Shows PDashboard)
    by reflexivity.
  split; [exact H|]. apply (proj1 (admin_pages_guarded _ _) PDashboard H eq_refl).
Defined.

Definition demo_form : TicketFormValues :=
  mkForm "Ana" "ana@x.com" "Login broken" "Cannot log in since update" high.

Lemma submit_success_witness :
  snd (run (submit (fun e => LoginPage.email_test (list_ascii_of_string e)) demo_form) demo_world) =
    Ok (Some "/ticket-submitted"%string).
Proof.
  pose proof (submit_success (fun e => LoginPage.email_test (list_ascii_of_string e))
                demo_world demo_form _ _ eq_refl eq_refl) as H.
  revert H. destruct (run _ demo_world) as [w' x]. intros (-> & _). done.
Defined.
