(* ===== verification/Interleave.v ===== *)
(** * Interleaving: the event loop behind [await]

    [run] (in [Prog]) executes one async function to completion.  In the
    browser several are in flight at once: each runs synchronously until
    its next [await], its request reaches the backend, and its continuation
    is queued until the response arrives; responses may arrive in any
    order.  [advance] runs a program up to its next [await] and sends that
    request; a [Task] is the suspended rest, holding the response it will
    receive.  A pool of tasks and a schedule of [Start] and [Resume] events
    give every interleaving of the store's operations.  The backend handles
    a request when it is sent, which is one of the orders a real network
    allows.

    [run_is_a_schedule] shows that [run] is the schedule that resumes one
    task until it ends, so the sequential theorems of the development are
    about one of these interleavings.  [fetch_task] and [create_task] cut
    two operations at their [await], for any gateway; with them the two
    schedules at the end are proved for any backend honouring the
    contract, any client state and any submission: a ticket created while
    the mount-time fetch is in flight disappears from the list, and a fetch
    that starts after a creation and resolves before it shows the new
    ticket twice.  [store_ops_finish] shows that every operation of the
    provider awaits exactly one request: resuming each started task at least once,
    in any order, ends them all. *)

From stdpp Require Import base list strings.
From S2P Require Import Prelude Model Api Prog Service Backend Store.

(** An async function suspended at an [await]: the request it sent, the
    response the backend gave, and the continuation. *)
Inductive Task (A : Type) :=
| Suspended (r : Request) (x : Res (resp r)) (k : Res (resp r) -> Prog A).
Arguments Suspended {A} r x k.

(** The tasks by the order they were started; a finished one is [None]. *)
Abbreviation Pool := (list (option (Task unit))).

(** A task that ended leaves no slot behind. *)
Definition suspended {A} (o : Res A + Task A) : option (Task A) :=
  match o with inl _ => None | inr t => Some t end.

Section Loop.
Context {S : Type} `{!Gateway S}.

(** Run synchronously until the next [await] (which sends its request) or
    the end: the outcome, or the suspended rest.  An uncaught rejection
    ends the task. *)
Fixpoint advance {A} (p : Prog A) (w : World S) : World S * (Res A + Task A) :=
  match p with
  | Ret a => (w, inl (Ok a))
  | Throw e => (w, inl (Err e))
  | Call r k =>
      let '(s', x) := handle (srv w) (hdrs (client w) r) r in
      (mkWorld s' (client w) (log w ++ [r]), inr (Suspended r x k))
  | Modify f k => advance k (mkWorld (srv w) (f (client w)) (log w))
  | Get k => advance (k (client w)) w
  end.

Inductive Ev :=
| Start (p : Prog unit)   (** an event handler or effect calls an async function *)
| Resume (i : nat).       (** the response awaited by task [i] arrives *)

Definition ev_step (st : World S * Pool) (e : Ev) : World S * Pool :=
  let '(w, pool) := st in
  match e with
  | Start p => let '(w', o) := advance p w in (w', pool ++ [suspended o])
  | Resume i =>
      match pool !! i with
      | Some (Some (Suspended r x k)) => let '(w', o) := advance (k x) w in (w', <[i := suspended o]> pool)
      | _ => (w, pool)
      end
  end.

Definition run_events (st : World S * Pool) (es : list Ev) : World S * Pool := foldl ev_step st es.

(** What is left of a suspended task, run to its end. *)
Definition resume {A} (t : Task A) (w : World S) : World S * Res A :=
  match t with Suspended _ x k => run (k x) w end.

End Loop.

(** An operation as a task: its result is dropped. *)
Definition task {A} (p : Prog A) : Prog unit := bind p (fun _ => Ret tt).

(** The provider's operations as the UI starts them. *)
Definition op_task (o : StoreOp) : Prog unit :=
  match o with
  | OpFetch => TicketProvider.fetchTickets
  | OpCreate i => task (TicketProvider.createTicket i)
  | OpUpdate id u => task (TicketProvider.updateTicket id u)
  | OpAddActivity a => task (TicketProvider.addActivity a)
  end.

(** ** Two interleavings of [createTicket] and [fetchTickets] *)

(** The ids of the tickets the reference backend holds. *)
Definition server_ids (w : World Django.state) : list string :=
  map DjangoTicket.id (Django.db_tickets (srv w)).

Definition all_done (pool : Pool) : Prop := Forall (fun t => t = None) pool.

(** A slot whose task ends at its next resumption, whatever the world:
    the rest of the function after its [await] awaits nothing more. *)
Definition one_shot {S} `{!Gateway S} (t : option (Task unit)) : Prop :=
  match t with
  | None => True
  | Some (Suspended r x k) => forall w : World S, exists w' res, advance (k x) w = (w', inl res)
  end.

(** The provider fetches on mount; the user submits a ticket before the
    list arrives. *)
Definition mount_then_submit (i : TicketInput) : list Ev :=
  [Start TicketProvider.fetchTickets; Start (task (TicketProvider.createTicket i));
   Resume 1; Resume 0].

(** A ticket is submitted; a fetch starts before the creation's response
    arrives and resolves first. *)
Definition submit_then_fetch (i : TicketInput) : list Ev :=
  [Start (task (TicketProvider.createTicket i)); Start TicketProvider.fetchTickets;
   Resume 1; Resume 0].

(** ** The sequential semantics is one schedule *)

Section Sequential.
Context {S : Type} `{!Gateway S}.

(** [advance] is [run] cut at the first [await]. *)
Lemma advance_done {A} (p : Prog A) w w' r : advance p w = (w', inl r) -> run p w = (w', r).
Proof.
  revert w. induction p as [a|e|q k IH|f k IH|k IH]; intros w; cbn [advance run];
    [by intros [= -> ->]|by intros [= -> ->]| |apply IH|apply IH].
  by destruct (handle _ _ _).
Qed.

Lemma advance_suspends {A} (p : Prog A) w w' t :
  advance p w = (w', inr t) -> run p w = resume t w'.
Proof.
  revert w. induction p as [a|e|q k IH|f k IH|k IH]; intros w; cbn [advance run];
    [done|done| |apply IH|apply IH].
  destruct (handle _ _ _) as [s' x]. by intros [= <- <-].
Qed.

Lemma run_events_app st es1 es2 :
  run_events st (es1 ++ es2) = run_events (run_events st es1) es2.
Proof. unfold run_events. apply foldl_app. Qed.

(** A task in slot [n], resumed again and again, ends where [run] ends. *)
Lemma drive (p : Prog unit) w (pool : Pool) n :
  n < length pool ->
  exists es, run_events (let '(w', o) := advance p w in (w', <[n := suspended o]> pool)) es =
             (fst (run p w), <[n := None]> pool).
Proof.
  revert w. induction p as [a|e|r k IH|f k IH|k IH]; intros w Hn; cbn [advance run].
  - by exists [].
  - by exists [].
  - destruct (handle (srv w) (hdrs (client w) r) r) as [s' x].
    destruct (IH x (mkWorld s' (client w) (log w ++ [r])) Hn) as [es Hes].
    exists (Resume n :: es). cbn [run_events foldl ev_step suspended].
    rewrite list_lookup_insert_eq by done.
    destruct (advance (k x) _) as [w' t] eqn:E.
    rewrite list_insert_insert_eq. exact Hes.
  - apply IH, Hn.
  - apply IH, Hn.
Qed.

Lemma insert_last (pool : Pool) t : <[length pool := t]> (pool ++ [None]) = pool ++ [t].
Proof. rewrite <- (Nat.add_0_r (length pool)), insert_app_r. done. Qed.



(** ** The store's operations cut at their one [await] *)

(** [fetchTickets] sends [GET /tickets/] after [setLoading(true)]; its
    rest, on a list, replaces the snapshot with it, leaves the toasts
    alone and sends no other request.  What else the rest does to the
    client (clearing the error, ending loading) is [f]. *)
Lemma fetch_task w s1 L :
  handle (srv w) (hdrs (client w) GetTickets) GetTickets = (s1, Ok L) ->
  exists k f, advance TicketProvider.fetchTickets w =
    (mkWorld s1 (map_store (setLoading true) (client w)) (log w ++ [GetTickets]),
     inr (Suspended GetTickets (Ok L) k)) /\
  (forall c, tickets (store (f c)) = map transformTicket L /\ toasts (f c) = toasts c) /\
  forall w', advance (k (Ok L)) w' = (mkWorld (srv w') (f (client w')) (log w'), inl (Ok tt)).
Proof.
  intros H. unfold TicketProvider.fetchTickets, try_catch_finally, TicketService.getAllTickets.
  cbn -[hdrs handle]. rewrite hdrs_map_store, H. do 2 eexists. split; [reflexivity|].
  match goal with |- _ /\ forall w', advance (?k _) _ = _ =>
    instantiate (1 := fun c => client (fst (advance (k (Ok L)) (mkWorld (srv w) c (log w))))) end.
  split; [|intros w'; reflexivity]. intros c. cbn -[hdrs handle]. by state_simp.
Qed.

(** [createTicket] sends [POST /tickets/]; its rest, on the created
    ticket, appends it to the snapshot, shows "Ticket Created" and ends
    loading, without another request. *)
Lemma create_task w i s1 d :
  let r := PostTicket (createTicketDto i) in
  handle (srv w) (hdrs (client w) r) r = (s1, Ok d) ->
  exists k, advance (task (TicketProvider.createTicket i)) w =
    (mkWorld s1 (map_store (setLoading true) (client w)) (log w ++ [r]), inr (Suspended r (Ok d) k)) /\
  forall w', advance (k (Ok d)) w' =
    (mkWorld (srv w') (map_store (setLoading false)
       (push_toast (mkToast "Ticket Created" "Your ticket has been submitted successfully." false)
       (map_store (setTickets (fun prev => prev ++ [transformTicket d])) (client w')))) (log w'), inl (Ok tt)).
Proof.
  intros r H. subst r. unfold task, TicketProvider.createTicket, try_catch_finally, TicketService.createTicket.
  cbn -[hdrs handle]. rewrite hdrs_map_store, H. eexists. split; [reflexivity|]. done.
Qed.

End Sequential.


Lemma starts_length {S} `{!Gateway S} (w : World S) (pool : Pool) ps :
  length (snd (run_events (w, pool) (map Start ps))) = length pool + length ps.
Proof.
  revert w pool. induction ps as [|p ps IH]; intros w pool; [cbn; lia|].
  change (run_events (w, pool) (map Start (p :: ps)))
    with (run_events (ev_step (w, pool) (Start p)) (map Start ps)).
  cbn [ev_step]. destruct (advance p w) as [w' t]. rewrite IH, length_app. cbn. lia.
Qed.

Lemma op_task_one_shot {S} `{!Gateway S} (o : StoreOp) (w : World S) :
  one_shot (S:=S) (suspended (snd (advance (op_task o) w))).
Proof.
  destruct o; unfold op_task, task, TicketProvider.fetchTickets, TicketProvider.createTicket,
    TicketProvider.updateTicket, TicketProvider.addActivity, try_catch_finally,
    TicketService.getAllTickets, TicketService.createTicket, TicketService.updateTicket,
    TicketService.createActivity; cbn -[handle hdrs];
    destruct (handle _ _ _) as [s' x]; cbn; intros w'; destruct x; cbn; eauto.
Qed.

Lemma resume_one_shot {S} `{!Gateway S} (w : World S) (pool : Pool) i :
  Forall (one_shot (S:=S)) pool ->
  let '(w', pool') := ev_step (w, pool) (Resume i) in
  length pool' = length pool /\ Forall (one_shot (S:=S)) pool' /\
  (i < length pool -> pool' !! i = Some None) /\
  (forall j, j <> i -> pool' !! j = pool !! j).
Proof.
  intros Hf. cbn [ev_step]. destruct (pool !! i) as [[[r x k]|]|] eqn:Hi.
  - pose proof (proj1 (Forall_lookup _ _) Hf i _ Hi w) as (w' & res & Hk). cbn in Hk. rewrite Hk.
    cbn [suspended]. split_and!.
    + apply length_insert.
    + apply Forall_insert; [done|exact I].
    + intros _. apply list_lookup_insert_eq. by eapply lookup_lt_Some.
    + intros j Hj. by apply list_lookup_insert_ne.
  - split_and!; [done|done| |done]. intros _. done.
  - split_and!; [done|done| |done]. intros Hl. apply lookup_lt_is_Some_2 in Hl. rewrite Hi in Hl. by destruct Hl.
Qed.

Lemma resume_keeps_none {S} `{!Gateway S} (w : World S) (pool : Pool) i j :
  pool !! j = Some None -> snd (ev_step (w, pool) (Resume i)) !! j = Some None.
Proof.
  intros Hj. cbn [ev_step]. destruct (pool !! i) as [[[r x k]|]|] eqn:Hi; [|done|done].
  destruct (advance (k x) w) as [w' o]. cbn [snd].
  destruct (decide (i = j)) as [->|Hne]; [congruence|]. by rewrite list_lookup_insert_ne.
Qed.

Lemma resumes_keep_none {S} `{!Gateway S} (w : World S) (pool : Pool) order j :
  pool !! j = Some None -> snd (run_events (w, pool) (map Resume order)) !! j = Some None.
Proof.
  revert w pool. induction order as [|i order IH]; intros w pool Hj; [done|].
  change (run_events (w, pool) (map Resume (i :: order)))
    with (run_events (ev_step (w, pool) (Resume i)) (map Resume order)).
  pose proof (resume_keeps_none w pool i j Hj) as H1.
  destruct (ev_step (w, pool) (Resume i)) as [w1 pool1]. by apply IH.
Qed.

Lemma resumes_one_shot {S} `{!Gateway S} (w : World S) (pool : Pool) order :
  Forall (one_shot (S:=S)) pool ->
  forall j, j ∈ order -> j < length pool ->
  snd (run_events (w, pool) (map Resume order)) !! j = Some None.
Proof.
  revert w pool. induction order as [|i order IH]; intros w pool Hf j Hj Hlt;
    [by inversion Hj|].
  change (run_events (w, pool) (map Resume (i :: order)))
    with (run_events (ev_step (w, pool) (Resume i)) (map Resume order)).
  pose proof (resume_one_shot w pool i Hf) as Hr.
  destruct (ev_step (w, pool) (Resume i)) as [w1 pool1]. destruct Hr as (Hl1 & Hf1 & Hi1 & _).
  destruct (decide (j = i)) as [->|Hne].
  - apply resumes_keep_none. by apply Hi1.
  - apply IH; [done| |lia]. apply elem_of_cons in Hj as [?|?]; [done|done].
Qed.

Lemma resumes_length {S} `{!Gateway S} (w : World S) (pool : Pool) order :
  length (snd (run_events (w, pool) (map Resume order))) = length pool.
Proof.
  revert w pool. induction order as [|i order IH]; intros w pool; [done|].
  change (run_events (w, pool) (map Resume (i :: order)))
    with (run_events (ev_step (w, pool) (Resume i)) (map Resume order)).
  assert (length (snd (ev_step (w, pool) (Resume i))) = length pool) as Hl.
  { cbn [ev_step]. destruct (pool !! i) as [[[r x k]|]|]; [|done|done].
    destruct (advance (k x) w). apply length_insert. }
  destruct (ev_step (w, pool) (Resume i)) as [w1 pool1]. rewrite IH. exact Hl.
Qed.

Lemma starts_one_shot {S} `{!Gateway S} (w : World S) (pool : Pool) os :
  Forall (one_shot (S:=S)) pool ->
  Forall (one_shot (S:=S)) (snd (run_events (w, pool) (map (fun o => Start (op_task o)) os))).
Proof.
  revert w pool. induction os as [|o os IH]; intros w pool Hf; [done|].
  change (run_events (w, pool) (map (fun o => Start (op_task o)) (o :: os)))
    with (run_events (ev_step (w, pool) (Start (op_task o))) (map (fun o => Start (op_task o)) os)).
  pose proof (op_task_one_shot o w) as Ho. cbn [ev_step].
  destruct (advance (op_task o) w) as [w1 t]. apply IH. apply Forall_app. split; [done|by constructor].
Qed.

(** C25. Each operation of the provider awaits exactly one request: once
    the UI has started any operations, in any number and order, resuming
    every started task once, in any order (repetitions allowed), finishes
    all of them.  An operation with a second [await] (a retry, a refetch
    after the update) would leave its task suspended. *)
Theorem store_ops_finish {S} `{!Gateway S} (w : World S) (os : list StoreOp) (order : list nat) :
  Forall (fun j => j ∈ order) (seq 0 (length os)) ->
  all_done (snd (run_events (w, []) (map (fun o => Start (op_task o)) os ++ map Resume order))).
Proof.
  intros Hord. rewrite run_events_app.
  pose proof (starts_length w [] (map op_task os)) as Hl. rewrite map_map in Hl. cbn in Hl.
  rewrite length_map in Hl.
  pose proof (starts_one_shot w [] os (List.Forall_nil _)) as Hf.
  destruct (run_events (w, []) (map (fun o => Start (op_task o)) os)) as [w1 pool1]. cbn [snd] in Hl, Hf.
  apply Forall_lookup. intros j t Hj.
  pose proof (lookup_lt_Some _ _ _ Hj) as Hlt. rewrite resumes_length in Hlt.
  rewrite (resumes_one_shot w1 pool1 order Hf j) in Hj; [congruence| |lia].
  apply (proj1 (Forall_seq _ 0 (length os)) Hord). lia.
Qed.



(** ** What interleavings do to the snapshot *)

(** C4. A ticket created while the mount-time fetch is in flight is lost
    from the list.  For any backend honouring the contract, any client
    state and any submission: when the fetch's GET and then the creation's
    POST both succeed and the creation's answer arrives first, the
    creation appends the new ticket to the snapshot and announces "Ticket
    Created"; then the fetch's older list replaces the snapshot wholesale,
    and the ticket, which the backend holds under a fresh id, is missing
    from it.  The operations that each keep the snapshot in step with the
    backend when run alone do not when they interleave. *)
Theorem created_ticket_lost {S} `{!Gateway S} `{!BackendSpec S} (w : World S) i s1 L s2 d :
  srv_inv (srv w) ->
  handle (srv w) (hdrs (client w) GetTickets) GetTickets = (s1, Ok L) ->
  let r := PostTicket (createTicketDto i) in
  handle s1 (hdrs (client w) r) r = (s2, Ok d) ->
  let '(w1, _) := run_events (w, []) (take 3 (mount_then_submit i)) in
  let '(w2, pool) := run_events (w, []) (mount_then_submit i) in
  snapshot w1 = snapshot w ++ [transformTicket d] /\
  all_done pool /\ DjangoTicket.id d ∈ ticket_ids (srv_tickets (srv w2)) /\
  snapshot w2 = map transformTicket L /\ DjangoTicket.id d ∉ snapshot_ids w2 /\
  last (toasts (client w2)) =
    Some (mkToast "Ticket Created" "Your ticket has been submitted successfully." false).
Proof.
  intros Hinv H1 r H2. subst r.
  destruct (fetch_task w s1 L H1) as (kf & f & Hf & Hfc & Kf).
  destruct (create_task (mkWorld s1 (map_store (setLoading true) (client w)) (log w ++ [GetTickets])) i s2 d)
    as (kc & Hc & Kc); [cbn [srv client]; by rewrite hdrs_map_store|].
  unfold mount_then_submit. cbn [take run_events foldl ev_step]. rewrite Hf. cbn [suspended app ev_step].
  rewrite Hc. cbn [suspended app ev_step lookup list_lookup]. rewrite Kc.
  cbn [suspended insert list_insert ev_step lookup list_lookup]. rewrite Kf.
  cbn [suspended insert list_insert srv client log].
  pose proof (get_tickets_ok _ _ _ _ H1) as ->.
  assert (srv_inv s1) as Hs1 by (pose proof (handle_inv _ (hdrs (client w) GetTickets) GetTickets Hinv) as Hi; by rewrite H1 in Hi).
  destruct (post_ticket_ok _ _ _ _ _ Hs1 H2) as (Hfresh & Hin & _).
  unfold snapshot_ids, snapshot. cbn [client srv]. state_simp.
  rewrite (proj1 (Hfc _)), (proj2 (Hfc _)), transformTicket_ids. state_simp.
  split_and!; [done|repeat constructor|done|done|done|by rewrite last_app].
Qed.


(** C3. A fetch that starts after a creation and resolves before it shows
    the new ticket twice.  For any backend honouring the contract: the
    list the fetch receives already holds the created ticket (the backend
    forgets no ticket), the fetch replaces the snapshot with it, and the
    creation then appends the ticket again.  Ids in the snapshot are then
    not unique, and the snapshot invariant [Sync] that every operation
    preserves when run alone fails. *)
Theorem created_ticket_duplicated {S} `{!Gateway S} `{!BackendSpec S} (w : World S) i s1 d s2 L :
  srv_inv (srv w) ->
  let r := PostTicket (createTicketDto i) in
  handle (srv w) (hdrs (client w) r) r = (s1, Ok d) ->
  handle s1 (hdrs (client w) GetTickets) GetTickets = (s2, Ok L) ->
  let '(w', pool) := run_events (w, []) (submit_then_fetch i) in
  all_done pool /\ snapshot w' = map transformTicket L ++ [transformTicket d] /\
  DjangoTicket.id d ∈ ticket_ids L /\ ~ NoDup (snapshot_ids w') /\ ~ Sync w'.
Proof.
  intros Hinv r H1 H2. subst r.
  destruct (create_task w i s1 d H1) as (kc & Hc & Kc).
  destruct (fetch_task (mkWorld s1 (map_store (setLoading true) (client w))
                          (log w ++ [PostTicket (createTicketDto i)])) s2 L)
    as (kf & f & Hf & Hfc & Kf); [cbn [srv client]; by rewrite hdrs_map_store|].
  unfold submit_then_fetch. cbn [run_events foldl ev_step]. rewrite Hc. cbn [suspended app ev_step].
  rewrite Hf. cbn [suspended app ev_step lookup list_lookup]. rewrite Kf.
  cbn [suspended insert list_insert ev_step lookup list_lookup]. rewrite Kc.
  cbn [suspended insert list_insert srv client log].
  assert (srv_inv s1) as Hs1
    by (pose proof (handle_inv _ (hdrs (client w) (PostTicket (createTicketDto i))) (PostTicket (createTicketDto i)) Hinv) as Hi; by rewrite H1 in Hi).
  destruct (post_ticket_ok _ _ _ _ _ Hinv H1) as (_ & Hin & _).
  pose proof (handle_ids_grow _ (hdrs (client w) GetTickets) GetTickets Hs1) as Hgrow. rewrite H2 in Hgrow.
  pose proof (get_tickets_ok _ _ _ _ H2) as ->.
  assert (DjangoTicket.id d ∈ ticket_ids (srv_tickets s2)) as Hd by (apply Hgrow, Hin).
  assert (~ NoDup (ticket_ids (srv_tickets s2) ++ [DjangoTicket.id d])) as Hdup.
  { intros (_ & Hdis & _)%NoDup_app. apply (Hdis _ Hd). by left. }
  unfold Sync, snapshot_ids, snapshot. cbn [client srv]. state_simp. rewrite (proj1 (Hfc _)).
  rewrite map_app, transformTicket_ids. cbn [map]. rewrite transformTicket_id.
  split_and!; [repeat constructor|done|done|exact Hdup|intros (_ & Hnd & _); exact (Hdup Hnd)].
Qed.


(** ** Witnesses *)

Lemma created_ticket_lost_witness :
  let '(w2, pool) := run_events (demo_world, []) (mount_then_submit demo_input) in
  all_done pool /\ snapshot w2 = [] /\ server_ids w2 = ["0"%string].
Proof.
  assert (Hi : srv_inv (srv demo_world)) by (split; repeat constructor).
  pose proof (created_ticket_lost demo_world demo_input _ _ _ _ Hi eq_refl eq_refl) as H.
  revert H. destruct (run_events (demo_world, []) (take 3 (mount_then_submit demo_input))) as [w1 p1].
  destruct (run_events (demo_world, []) (mount_then_submit demo_input)) as [w2 pool] eqn:E.
  intros (_ & Hd & _ & Hs & _). split_and!; [exact Hd|rewrite Hs; reflexivity|].
  replace w2 with (fst (run_events (demo_world, []) (mount_then_submit demo_input))) by (by rewrite E).
  vm_compute. reflexivity.
Defined.

Lemma created_ticket_duplicated_witness :
  let '(w', pool) := run_events (demo_world, []) (submit_then_fetch demo_input) in
  all_done pool /\ ~ Sync w'.
Proof.
  assert (Hi : srv_inv (srv demo_world)) by (split; repeat constructor).
  pose proof (created_ticket_duplicated demo_world demo_input _ _ _ _ Hi eq_refl eq_refl) as H.
  revert H. destruct (run_events (demo_world, []) (submit_then_fetch demo_input)) as [w' pool].
  intros (Hd & _ & _ & _ & Hs). split; [exact Hd|exact Hs].
Defined.

Lemma store_ops_finish_witness :
  Forall (fun j => j ∈ [1; 0]) (seq 0 2) /\
  all_done (snd (run_events (demo_world, [])
    (map (fun o => Start (op_task o)) [OpFetch; OpCreate demo_input] ++ map Resume [1; 0]))).
Proof.
  assert (H : Forall (fun j => j ∈ [1; 0]) (seq 0 2)) by (repeat constructor).
  split; [exact H|]. apply (store_ops_finish demo_world [OpFetch; OpCreate demo_input] [1; 0] H).
Defined.
