(* ===== verification/Repo.v ===== *)
(** * The ticket repository as an abstract machine (spec §4.2-4.3)

    The contract of the Ticket Repository and the Activity Log, stated
    without React, requests or toasts: a state is the table of ticket ids
    the gateway knows and the client's [Repo] (snapshot, activity
    collection, error flag), and [repo_step] says which states each
    operation may lead to, on success and on failure.  The gateway may grow
    its table in between (other users' submissions) but never forgets a
    ticket and never repeats an id.

    The one clause of §4.2 the code does not implement, the local
    [NotFoundError] of [update], is left out here: [updateTicket] sends
    the request for any id ([updateTicket_no_local_check] in [Store]).  Everything else of the
    contract is a rule.

    [abs] forgets the loading flag, the toasts and the request log of a
    [World]; [exec_op_refines] shows that every operation of
    [TicketProvider] is one step of the abstract machine, whatever the
    backend answers, and [repo_inv_step] that the abstract machine keeps the
    snapshot's ids unique and known to the gateway. *)

From stdpp Require Import base list strings relations.
From S2P Require Import Prelude Model Api Prog Service Backend Store.

Import TicketProvider.

(** The client-side part of the repository's state. *)
Record Repo := mkRepo {
  r_tickets : list Ticket.t;
  r_activities : list Activity.t;
  r_error : option string }.

(** The gateway's ticket ids and the client's repository. *)
Abbreviation RState := (list string * Repo)%type.

Definition r_ids (R : Repo) : list string := map Ticket.id (r_tickets R).

(** The gateway's table after a request: it keeps every id it had and its
    ids stay unique. *)
Definition grows (T T' : list string) : Prop := T ⊆ T' /\ NoDup T'.

(** The contract, one rule per operation and outcome. *)
Inductive repo_step : StoreOp -> RState -> RState -> Prop :=
| FetchOk T T' R l :
    (** [fetchAll]: the snapshot becomes the gateway's whole collection *)
    grows T T' -> map Ticket.id l = T' ->
    repo_step OpFetch (T, R) (T', mkRepo l (r_activities R) None)
| FetchFail T T' R e :
    (** the previous snapshot is retained and the error flag set *)
    grows T T' ->
    repo_step OpFetch (T, R) (T', mkRepo (r_tickets R) (r_activities R) (Some e))
| CreateOk T T' R i t :
    (** [create]: a new id, status [new], the submitted fields; appended *)
    grows T T' -> Ticket.id t ∉ T -> Ticket.id t ∈ T' ->
    Ticket.status t = new -> Ticket.title t = in_title i ->
    Ticket.description t = in_description i -> Ticket.priority t = in_priority i ->
    Ticket.createdBy t = in_createdBy i ->
    repo_step (OpCreate i) (T, R) (T', mkRepo (r_tickets R ++ [t]) (r_activities R) (r_error R))
| CreateFail T T' R i :
    grows T T' -> repo_step (OpCreate i) (T, R) (T', R)
| UpdateOk T T' R id u t :
    (** [update]: the entry [id] is replaced by the server's record, which
        has every field the request set *)
    grows T T' -> Ticket.id t = id ->
    (forall v, up_status u = Some v -> Ticket.status t = v) ->
    (forall v, up_priority u = Some v -> Ticket.priority t = v) ->
    repo_step (OpUpdate id u) (T, R)
      (T', mkRepo (replace_where (same_id id) t (r_tickets R)) (r_activities R) (r_error R))
| UpdateFail T T' R id u :
    grows T T' -> repo_step (OpUpdate id u) (T, R) (T', R)
| AppendOk T T' R a x :
    (** [append]: the canonical record is added last, receipt order *)
    grows T T' -> Activity.ticketId x = Activity.in_ticketId a ->
    Activity.type x = Activity.in_type a -> Activity.message x = Activity.in_message a ->
    Activity.createdBy x = Activity.in_createdBy a ->
    repo_step (OpAddActivity a) (T, R)
      (T', mkRepo (r_tickets R) (r_activities R ++ [x]) (r_error R))
| AppendFail T T' R a :
    grows T T' -> repo_step (OpAddActivity a) (T, R) (T', R).

(** The snapshot's ids are unique and known to the gateway. *)
Definition repo_inv (st : RState) : Prop :=
  NoDup st.1 /\ NoDup (r_ids st.2) /\ r_ids st.2 ⊆ st.1.

(** What the client's state and the backend's table say of the
    repository. *)
Definition abs {S} `{!Gateway S} `{!BackendSpec S} (w : World S) : RState :=
  (ticket_ids (srv_tickets (srv w)),
   mkRepo (tickets (store (client w))) (activities (store (client w))) (error (store (client w)))).

(** ** The abstract machine keeps its invariant *)

Lemma repo_inv_step o st st' : repo_inv st -> repo_step o st st' -> repo_inv st'.
Proof.
  intros (HT & Hnd & Hsub) Hs.
  destruct Hs as [T T' R l [HT' HnT'] Hl|T T' R e [HT' HnT']|T T' R i t [HT' HnT'] Hf Hin _ _ _ _ _
                 |T T' R i [HT' HnT']|T T' R id u t [HT' HnT'] Hid _ _|T T' R id u [HT' HnT']
                 |T T' R a x [HT' HnT'] _ _ _ _|T T' R a [HT' HnT']];
    unfold repo_inv, r_ids in *; cbn in *; split_and!; try done; try by etransitivity.
  - by rewrite Hl.
  - by rewrite Hl.
  - rewrite map_app. apply NoDup_app. split; [done|]. split; [|apply NoDup_singleton].
    intros y Hy ->%list_elem_of_singleton. apply Hf, Hsub, Hy.
  - rewrite map_app. apply list_subseteq_app_iff_l.
    split; [by etransitivity|by intros y ->%list_elem_of_singleton].
  - rewrite replace_where_keys; [done|]. intros y Hy%same_id_true. by rewrite Hy.
  - rewrite replace_where_keys; [by etransitivity|]. intros y Hy%same_id_true. by rewrite Hy.
Qed.

(** ** The provider implements the contract *)

Section Refinement.
Context {S : Type} `{!Gateway S} `{!BackendSpec S}.

Lemma handle_grows s h r s' x :
  srv_inv s -> handle s h r = (s', x) -> grows (ticket_ids (srv_tickets s)) (ticket_ids (srv_tickets s')).
Proof.
  intros Hi Hh. split; [by eapply handle_grow_eq|]. apply srv_nodup. by eapply handle_inv_eq.
Qed.

(** C1. Refinement: every operation of [TicketProvider], run against any
    backend that honours [BackendSpec], is one step of the repository
    contract of spec §4.2-4.3, on every answer of the backend: [fetchTickets]
    replaces the snapshot by the gateway's collection or keeps it and sets
    the error flag, [createTicket] appends a fresh ticket in status [new]
    with the submitted fields or changes nothing, [updateTicket] replaces
    the entry by the server's record or changes nothing, [addActivity]
    appends the submitted activity or changes nothing. *)
Theorem exec_op_refines o w :
  srv_inv (srv w) -> repo_step o (abs w) (abs (exec_op o w)).
Proof.
  intros Hi.
  destruct o as [|i|id u|a]; cbn [exec_op]; store_unfold; run_simp;
    match goal with |- context [handle ?s ?h ?r] =>
      destruct (handle s h r) as [s' [d|e]] eqn:Hh end;
    run_simp; state_simp; unfold abs; cbn;
    pose proof (handle_grows _ _ _ _ _ Hi Hh) as Hg.
  - apply FetchOk; [done|]. apply get_tickets_ok in Hh as ->. apply transformTicket_ids.
  - by apply FetchFail.
  - destruct (created_ticket_fields _ _ _ _ _ Hi Hh) as (? & ? & ? & ? & ? & ? & ?).
    by apply CreateOk.
  - by apply CreateFail.
  - destruct (patch_ticket_ok _ _ _ _ _ _ Hh) as (Hid & Hst & Hpr). by apply UpdateOk.
  - by apply UpdateFail.
  - destruct (post_activity_ok _ _ _ _ _ Hh) as (? & ? & ? & ?). by apply AppendOk.
  - by apply AppendFail.
Qed.
End Refinement.

(** ** Witness *)

Lemma exec_op_refines_witness :
  srv_inv (srv demo_world) /\
  repo_step (OpCreate demo_input) (abs demo_world) (abs (exec_op (OpCreate demo_input) demo_world)).
Proof.
  assert (Hi : srv_inv (srv demo_world)) by (split; repeat constructor).
  split; [exact Hi|]. apply exec_op_refines. exact Hi.
Defined.
