(* ===== verification/Cards.v ===== *)
(** * Ticket cards and the admin sidebar

    [components/TicketCard.tsx] renders one ticket of the dashboard's
    recent list ([pages/admin/Dashboard.tsx] 170-176) and of the ticket list
    ([pages/admin/TicketList.tsx] 113-115), with a link to the ticket's
    page; [components/admin/AdminSidebar.tsx] is the navigation of the
    admin layout: two [NavLink]s highlighted by React Router's rule, the
    signed-in user and the logout button.

    A card's avatar is the creator's initial through [toUpperCase] on
    Latin-1 code units ([upper_char]).

    The theorem of this file composes five components: a card of either
    page links to a path that the route table sends to the detail page of
    that ticket, the sidebar highlights "Tickets" there, and the detail page
    finds the ticket in the snapshot. *)

From Stdlib Require Import String Ascii ZArith.
From stdpp Require Import base list strings.
From S2P Require Import Prelude Model Api Prog Service Store Workflow Queries Auth Pages.

Local Open Scope string_scope.
Local Open Scope js_scope.

Import TicketProvider.

Module TicketCard.

(** [linkPath] (lines 20-22). *)
Definition linkPath (ticket : Ticket.t) (isAdmin : bool) : string :=
  if isAdmin then "/admin/tickets/" +s+ Ticket.id ticket else "/ticket/" +s+ Ticket.id ticket.

(** [String.prototype.toUpperCase] on one Latin-1 code unit: ASCII [a-z]
    and [U+00E0..U+00FE] except the division sign [U+00F7] map to the
    code unit 32 below, [U+00DF] (sharp s) becomes ["SS"], and [U+00B5]
    (micro sign) and [U+00FF] become [U+039C] and [U+0178], which the 8-bit
    strings of the model cannot hold ([None]). *)
Definition upper_char (c : ascii) : option string :=
  let n := nat_of_ascii c in
  if ((97 <=? n) && (n <=? 122))%nat%bool then Some (String (ascii_of_nat (n - 32)) EmptyString)
  else if ((224 <=? n) && (n <=? 254) && negb (n =? 247))%nat%bool
  then Some (String (ascii_of_nat (n - 32)) EmptyString)
  else if (n =? 223)%nat then Some "SS"
  else if ((n =? 181) || (n =? 255))%nat%bool then None
  else Some (String c EmptyString).

(** [name.charAt(0).toUpperCase()] (line 81): [charAt(0)] of the empty
    string is the empty string. *)
Definition initial (name : string) : option string :=
  match name with EmptyString => Some "" | String c _ => upper_char c end.

(** What a card shows (lines 28-101); the date's locale format is not
    modelled. *)
Record Card := mkCard {
  link : string; title : string; statusClass : string; statusLabel : string;
  description : string; shortId : string; priorityClass : string;
  priorityLabel : string; avatar : option string; creator : string; commentCount : nat }.

Definition commentCount0 : nat := 0.

Definition card (ticket : Ticket.t) (isAdmin : bool) : Card :=
  {| link := linkPath ticket isAdmin;
     title := Ticket.title ticket;
     statusClass := Badges.statusClasses (Ticket.status ticket);
     statusLabel := Badges.statusLabels (Ticket.status ticket);
     description := Ticket.description ticket;
     shortId := "#" +s+ String.substring 0 8 (Ticket.id ticket);
     priorityClass := Badges.priorityClasses (Ticket.priority ticket);
     priorityLabel := Badges.priorityLabels (Ticket.priority ticket);
     avatar := initial (Ticket.name (Ticket.createdBy ticket));
     creator := Ticket.name (Ticket.createdBy ticket);
     commentCount := commentCount0 |}.

End TicketCard.

(** The cards of the two admin pages, both with [isAdmin={true}]. *)
Definition dashboard_cards (getTime : string -> option Z) (tickets : list Ticket.t)
    : list TicketCard.Card :=
  map (fun t => TicketCard.card t true) (recentTickets getTime tickets).

Definition list_cards (tickets : list Ticket.t) (statusFilter priorityFilter searchQuery : string)
    : list TicketCard.Card :=
  map (fun t => TicketCard.card t true) (filteredTickets tickets statusFilter priorityFilter searchQuery).

Module AdminSidebar.

(** The [NavLink]s (lines 37-67), target and label. *)
Definition links : list (string * string) :=
  [("/admin/dashboard", "Dashboard"); ("/admin/tickets", "Tickets")].

(** React Router's [NavLink] without [end] or [caseSensitive]: active when
    the location, lower-cased, is the target or lies below it. *)
Definition isActive (pathname to : string) : bool :=
  let p := toLowerCase pathname in
  let t := toLowerCase to in
  String.eqb p t || (String.prefix t p && String.eqb (String.substring (String.length t) 1 p) "/").

(** The [className] callback (lines 40-46 and 56-62). *)
Definition linkClass (active : bool) : string :=
  "flex items-center gap-3 px-3 py-2 rounded-md text-sm transition-colors " +s+
  (if active then "bg-primary text-primary-foreground" else "text-gray-700 hover:bg-gray-100").

(** The labels of the highlighted links. *)
Definition active_links (pathname : string) : list string :=
  map snd (List.filter (fun l => isActive pathname l.1) links).

(** [user?.username] and [user?.email] (lines 79-80). *)
Definition shown_user (a : AuthState) : option (string * string) :=
  (fun u => (User.username u, User.email u)) <$> user a.

(** The logout button (line 87). *)
Definition onLogout : Prog unit := AuthProvider.logout.

End AdminSidebar.

Import Routes TicketCard AdminSidebar.
Local Close Scope string_scope.

(** ** Paths with a ticket id *)

(** An id React Router takes as one [:id] segment. *)
Definition segment_id (i : string) : Prop := i <> ""%string /\ "/"%char ∉ list_ascii_of_string i.

(** A card's avatar (line 81) is one capital letter, the same letter, for
    a creator whose name starts with an ASCII letter; it is empty for an
    empty name, and two letters for a name starting with sharp s. *)
Lemma card_avatar_initial t isAdmin c s :
  Ticket.name (Ticket.createdBy t) = String c s ->
  (97 <= nat_of_ascii c <= 122 \/ 65 <= nat_of_ascii c <= 90)%nat ->
  exists u, TicketCard.avatar (TicketCard.card t isAdmin) = Some (String u EmptyString) /\
    (65 <= nat_of_ascii u <= 90)%nat /\ lower_char u = lower_char c.
Proof.
  intros Hn Hc. cbn. rewrite Hn. cbn.
  destruct c as [[] [] [] [] [] [] [] []]; vm_compute in Hc; try lia;
    eexists; (split; [reflexivity|]); vm_compute; (split; [lia|reflexivity]).
Qed.

Lemma card_avatar_initial_witness :
  exists u, TicketCard.avatar (TicketCard.card demo_ticket true) = Some (String u EmptyString) /\
    (65 <= nat_of_ascii u <= 90)%nat /\ lower_char u = lower_char "A"%char.
Proof. apply (card_avatar_initial demo_ticket true "A"%char "na"); [reflexivity|vm_compute; lia]. Defined.

Lemma card_avatar_edge_cases :
  TicketCard.initial "" = Some "" /\ TicketCard.initial (String "223"%char "ma") = Some "SS" /\
  TicketCard.initial (String "255"%char "") = None.
Proof. split_and!; reflexivity. Qed.

Lemma list_ascii_of_string_append a b :
  list_ascii_of_string (a +s+ b) = list_ascii_of_string a ++ list_ascii_of_string b.
Proof. induction a as [|c a IH]; simpl; [done|]. by rewrite IH. Qed.

Lemma bool_decide_ascii (a b : ascii) : bool_decide (a = b) = Ascii.eqb a b.
Proof. destruct (Ascii.eqb_spec a b); [by apply bool_decide_true|by apply bool_decide_false]. Qed.

Lemma split_path_noslash l cur :
  "/"%char ∉ l ->
  split_path l cur = if bool_decide (rev cur ++ l = []) then [] else [string_of_list_ascii (rev cur ++ l)].
Proof.
  revert cur. induction l as [|c l IH]; intros cur Hl; cbn [split_path].
  - rewrite app_nil_r. by destruct cur as [|x cur]; [|rewrite !bool_decide_false by (cbn; by destruct (rev cur))].
  - apply not_elem_of_cons in Hl as [Hc Hl]. rewrite bool_decide_false by done.
    rewrite IH by done. cbn [rev]. by rewrite <- app_assoc.
Qed.

Lemma detail_segments i :
  segment_id i -> segments ("/admin/tickets/" +s+ i) = ["admin"; "tickets"; i]%string.
Proof.
  intros [Hne Hs]. unfold segments. rewrite list_ascii_of_string_append.
  cbn [list_ascii_of_string app split_path]. rewrite !bool_decide_ascii. cbn.
  rewrite split_path_noslash by done. cbn.
  rewrite bool_decide_false by (destruct i; [done|discriminate]).
  by rewrite string_of_list_ascii_of_string.
Qed.

Lemma getTicketById_unique l t :
  NoDup (map Ticket.id l) -> t ∈ l -> getTicketById l (Ticket.id t) = Some t.
Proof.
  induction l as [|x l IH]; intros Hnd Ht; [by apply not_elem_of_nil in Ht|].
  cbn in Hnd. apply NoDup_cons in Hnd as [Hx Hnd]. unfold getTicketById. cbn.
  unfold same_id at 1. apply elem_of_cons in Ht as [<-|Ht]; [by rewrite bool_decide_true|].
  rewrite bool_decide_false; [by apply IH|].
  intros Heq. apply Hx. rewrite Heq. by apply list_elem_of_fmap_2.
Qed.

Lemma shown_ticket_in getTime l sf pf q t :
  t ∈ recentTickets getTime l ++ filteredTickets l sf pf q -> t ∈ l.
Proof.
  intros [Ht|Ht]%elem_of_app.
  - apply subseteq_take in Ht. by rewrite (sort_by_perm _ l) in Ht.
  - unfold filteredTickets in Ht. apply list_elem_of_In, filter_In in Ht as [Ht _].
    by apply list_elem_of_In.
Qed.

(** C40. Composition of the ticket cards, the route table, the admin guard,
    the sidebar and the detail page: for a signed-in user, every card of
    the dashboard's recent list and of the ticket list shows one ticket of
    the snapshot and links to a path that the router renders as that
    ticket's detail page, where the sidebar highlights "Tickets" alone and
    the page's lookup finds exactly that ticket, provided ids are unique
    and each is one path segment. *)
Theorem card_opens_its_ticket getTime tickets sf pf q a c :
  NoDup (map Ticket.id tickets) -> Forall (fun t => segment_id (Ticket.id t)) tickets ->
  AuthProvider.isAuthenticated a = true -> isLoading a = false ->
  c ∈ dashboard_cards getTime tickets ++ list_cards tickets sf pf q ->
  exists t, t ∈ tickets /\ c = card t true /\
    render a (link c) = Shows (PTicketDetail (Ticket.id t)) /\
    active_links (link c) = ["Tickets"%string] /\
    getTicketById tickets (Ticket.id t) = Some t.
Proof.
  intros Hnd Hseg Ha Hl Hc. unfold dashboard_cards, list_cards in Hc.
  rewrite <- map_app in Hc. apply list_elem_of_fmap_1 in Hc as (t & -> & Ht).
  apply shown_ticket_in in Ht. exists t. split_and!; [done|done| | |by apply getTicketById_unique].
  - rewrite Forall_forall in Hseg. cbn. unfold render, route.
    rewrite detail_segments by (by apply Hseg). cbn. unfold admin_layout. by rewrite Hl, Ha.
  - cbn. unfold active_links, AdminSidebar.isActive. rewrite toLowerCase_append. simpl. by destruct (toLowerCase (Ticket.id t)).
Qed.

(** ** Witness *)

Definition admin_auth : AuthState :=
  mkAuthState (Some (User.mk "1" "admin" "admin@x.com" "" "")) false.

Lemma card_opens_its_ticket_witness :
  render admin_auth (link (card (sample_ticket "4" "2024-03-01") true)) =
    Shows (PTicketDetail "4") /\
  getTicketById sample_tickets "4" = Some (sample_ticket "4" "2024-03-01").
Proof.
  destruct (card_opens_its_ticket sample_time sample_tickets "all" "all" "" admin_auth
              (card (sample_ticket "4" "2024-03-01") true)) as (t & Ht & Hc & Hr & _ & Hg).
  - apply (bool_decide_unpack _). vm_compute. reflexivity.
  - repeat constructor; try discriminate; apply (bool_decide_unpack _); vm_compute; reflexivity.
  - reflexivity.
  - reflexivity.
  - apply elem_of_app. right. apply list_elem_of_In. vm_compute. repeat (first [left; reflexivity | right]).
  - apply list_elem_of_In in Ht. vm_compute in Ht.
    destruct Ht as [<-|[<-|[<-|[<-|[<-|[<-|[<-|[]]]]]]]]; vm_compute in Hc; try discriminate Hc.
    split; [exact Hr|exact Hg].
Defined.
