(* ===== verification/Loading.v ===== *)
(** * The loading overlay of [AppRouter] (timers and effects)

    [components/AppRouter.tsx] 22-59 keeps two flags: [isLoading], set to
    false by a 1500 ms timer started on mount, and [isNavigating], set by
    an effect on [[location.pathname, isLoading]] and cleared by an 800 ms
    timer that the effect's cleanup cancels when it re-runs.  The overlay
    [<Loader isLoading={true} />] is shown while either flag holds
    ([components/Loader.tsx] 9-11 returns [null] otherwise).

    The state holds the clock (in ms, an [N]), the path, both flags and
    the deadlines of the pending timers.  React's effect semantics are
    written out: after a render whose dependencies changed, the previous
    cleanup runs and then the effect.  Time passes by [tick]; due timers
    fire in deadline order, each callback followed by the effects its state
    change triggers.  At most one timer is pending at a time (the
    navigation timer is only started once loading is over), so two firings
    are enough for any [tick] ([tick_fuel_enough]). *)

From Stdlib Require Import String NArith.
From stdpp Require Import base list strings.
From S2P Require Import Prelude.

Local Open Scope N_scope.

Module AppRouter.

Definition SPLASH_DELAY : N := 1500.
Definition NAVIGATION_DELAY : N := 800.

Record State := mk {
  now : N;
  pathname : string;
  isLoading : bool;
  isNavigating : bool;
  splashAt : option N;     (** the mount timer (lines 33-35) *)
  navAt : option N }.      (** the navigation timer (lines 47-49) *)

(** The second effect (lines 42-53), after the cleanup of its previous
    run ([clearTimeout], line 51). *)
Definition navigation_effect (s : State) : State :=
  if negb (isLoading s)
  then mk (now s) (pathname s) (isLoading s) true (splashAt s) (Some (now s + NAVIGATION_DELAY))
  else mk (now s) (pathname s) (isLoading s) (isNavigating s) (splashAt s) None.

(** The first render at [path] and both effects of the mount (lines 27-53). *)
Definition mount (path : string) : State :=
  navigation_effect (mk 0 path true false (Some SPLASH_DELAY) None).

(** [location.pathname] changes: the effect re-runs only when its
    dependency did. *)
Definition navigate (path : string) (s : State) : State :=
  if String.eqb path (pathname s) then s
  else navigation_effect (mk (now s) path (isLoading s) (isNavigating s) (splashAt s) (navAt s)).

(** [setIsLoading(false)] (line 34); [isLoading] is a dependency of the
    second effect, which therefore re-runs. *)
Definition fire_splash (s : State) : State :=
  navigation_effect (mk (now s) (pathname s) false (isNavigating s) None (navAt s)).

(** [setIsNavigating(false)] (line 48); no dependency changes. *)
Definition fire_nav (s : State) : State :=
  mk (now s) (pathname s) (isLoading s) false (splashAt s) None.

Definition set_now (t : N) (s : State) : State :=
  mk t (pathname s) (isLoading s) (isNavigating s) (splashAt s) (navAt s).

(** The earliest pending timer, the mount timer first on a tie. *)
Definition next_timer (s : State) : option (N * bool) :=
  match splashAt s, navAt s with
  | Some a, Some b => if b <? a then Some (b, false) else Some (a, true)
  | Some a, None => Some (a, true)
  | None, Some b => Some (b, false)
  | None, None => None
  end.

(** Let the clock reach [T], firing at most [fuel] due timers. *)
Fixpoint run_until (fuel : nat) (T : N) (s : State) : State :=
  match fuel with
  | O => set_now T s
  | S f =>
      match next_timer s with
      | Some (d, splash) =>
          if d <=? T
          then run_until f T ((if splash then fire_splash else fire_nav) (set_now d s))
          else set_now T s
      | None => set_now T s
      end
  end.

Definition tick (dt : N) (s : State) : State := run_until 2 (now s + dt) s.

(** [{(isLoading || isNavigating) && <Loader isLoading={true} />}] (line 59). *)
Definition loader_shown (s : State) : bool := isLoading s || isNavigating s.

Inductive Event := Navigate (path : string) | Wait (dt : N).

Definition step (s : State) (e : Event) : State :=
  match e with
  | Navigate p => navigate p s
  | Wait dt => tick dt s
  end.

Definition run_events (s : State) (es : list Event) : State := foldl step s es.

(** The invariant: while loading, the mount timer is pending at 1500 and
    nothing else; afterwards no mount timer, and the overlay's navigation
    flag is set exactly while a navigation timer is pending, at most 800 ms
    ahead. *)
Definition inv (s : State) : Prop :=
  if isLoading s
  then splashAt s = Some SPLASH_DELAY /\ now s <= SPLASH_DELAY /\ navAt s = None /\ isNavigating s = false
  else splashAt s = None /\
       match navAt s with
       | Some d => isNavigating s = true /\ now s <= d <= now s + NAVIGATION_DELAY
       | None => isNavigating s = false
       end.

End AppRouter.

Import AppRouter.

(** ** The invariant *)

Lemma mount_inv path : inv (mount path).
Proof. unfold inv. cbn. split_and!; done. Qed.

Lemma navigate_inv path s : inv s -> inv (navigate path s).
Proof.
  unfold navigate. destruct (String.eqb path (pathname s)); [done|].
  destruct s as [n p [] nv sp na]; unfold inv, navigation_effect; cbn.
  - intros (? & ? & ? & ?). by split_and!.
  - intros [-> _]. split; [done|]. split; [done|lia].
Qed.

(** What a [tick] does, by the state it starts from. *)
Lemma tick_loading n p dt :
  let s := mk n p true false (Some SPLASH_DELAY) None in
  n <= SPLASH_DELAY ->
  tick dt s =
    if n + dt <? SPLASH_DELAY then mk (n + dt) p true false (Some SPLASH_DELAY) None
    else if n + dt <? SPLASH_DELAY + NAVIGATION_DELAY
    then mk (n + dt) p false true None (Some (SPLASH_DELAY + NAVIGATION_DELAY))
    else mk (n + dt) p false false None None.
Proof.
  intros s Hn. unfold tick, s, SPLASH_DELAY, NAVIGATION_DELAY in *.
  cbn [run_until next_timer splashAt navAt]. unfold fire_splash, fire_nav, navigation_effect, set_now.
  unfold NAVIGATION_DELAY. cbn. n_cases; reflexivity.
Qed.

Lemma tick_loaded n p nv d dt :
  tick dt (mk n p false nv None d) =
    match d with
    | Some t => if t <=? n + dt then mk (n + dt) p false false None None
                else mk (n + dt) p false nv None (Some t)
    | None => mk (n + dt) p false nv None None
    end.
Proof.
  unfold tick. destruct d as [t|]; cbn [run_until next_timer splashAt navAt now]; [|done].
  unfold fire_nav, set_now. cbn. n_cases; reflexivity.
Qed.

Lemma tick_inv dt s : inv s -> inv (tick dt s).
Proof.
  destruct s as [n p [] nv sp na]; unfold inv; cbn [isLoading splashAt navAt now isNavigating].
  - intros (-> & Hn & -> & ->). rewrite tick_loading by done.
    unfold SPLASH_DELAY, NAVIGATION_DELAY in *. n_cases; split_and!; done || lia.
  - intros [-> Hna]. rewrite tick_loaded. unfold NAVIGATION_DELAY in *.
    destruct na as [t|]; [destruct Hna as [-> Ht]|subst]; n_cases; split_and!; done || lia.
Qed.

Lemma overlay_step_inv s e : inv s -> inv (step s e).
Proof. destruct e; [apply navigate_inv|apply tick_inv]. Qed.

Lemma run_events_inv s es : inv s -> inv (run_events s es).
Proof. revert s. induction es as [|e es IH]; intros s Hs; [done|]. apply IH, overlay_step_inv, Hs. Qed.

Lemma run_until_idle k T s : next_timer s = None -> run_until k T s = set_now T s.
Proof. intros H. destruct k; cbn; [done|]. by rewrite H. Qed.

(** ** Fuel *)

(** Two firings are all a [tick] can need: more fuel changes nothing. *)
Lemma tick_fuel_enough k s T :
  inv s -> (2 <= k)%nat -> run_until k T s = run_until 2 T s.
Proof.
  intros Hs Hk. destruct k as [|[|k]]; [lia|lia|].
  destruct s as [n p [] nv sp na]; unfold inv in Hs; cbn [isLoading splashAt navAt now isNavigating] in Hs;
    [destruct Hs as (-> & _ & -> & ->)|destruct Hs as [-> _]; destruct na as [t|]];
    cbn [run_until next_timer splashAt navAt];
    unfold fire_splash, fire_nav, navigation_effect, set_now, SPLASH_DELAY, NAVIGATION_DELAY; cbn;
    n_cases; rewrite ?run_until_idle; done.
Qed.

(** ** The overlay always goes away *)

Lemma navigate_isLoading path s : isLoading (navigate path s) = isLoading s.
Proof. unfold navigate, navigation_effect. by destruct (String.eqb _ _), (isLoading s). Qed.

Lemma tick_clears s dt :
  inv s -> (if isLoading s then SPLASH_DELAY + NAVIGATION_DELAY else NAVIGATION_DELAY) <= dt ->
  loader_shown (tick dt s) = false.
Proof.
  destruct s as [n p [] nv sp na]; unfold inv; cbn [isLoading splashAt navAt now isNavigating].
  - intros (-> & Hn & -> & ->) Hdt. rewrite tick_loading by done.
    unfold SPLASH_DELAY, NAVIGATION_DELAY in *. n_cases.
  - intros [-> Hna] Hdt. rewrite tick_loaded. unfold NAVIGATION_DELAY in *.
    destruct na as [t|]; [destruct Hna as [-> Ht]|subst]; n_cases.
Qed.

(** C33. On first load the overlay stays 2300 ms, not the 1500 ms of the
    mount timer: when [isLoading] turns false, the navigation effect, which
    depends on it, re-runs as if the user had navigated and shows the
    overlay for 800 ms more. *)
Theorem splash_lasts_2300 path t :
  isLoading (tick t (mount path)) = (t <? SPLASH_DELAY) /\
  loader_shown (tick t (mount path)) = (t <? SPLASH_DELAY + NAVIGATION_DELAY).
Proof.
  change (mount path) with (mk 0 path true false (Some SPLASH_DELAY) None).
  rewrite tick_loading by (unfold SPLASH_DELAY; lia). unfold SPLASH_DELAY, NAVIGATION_DELAY.
  n_cases.
Qed.

(** C34. Liveness of the overlay: after any navigations and waits since the
    mount, 2300 ms without navigation hide it; once loading is over, it is
    gone 800 ms after the last navigation, because each navigation cancels
    the previous timer and starts one of 800 ms. *)
Theorem loader_always_clears path es dt path' :
  let s := run_events (mount path) es in
  (SPLASH_DELAY + NAVIGATION_DELAY <= dt -> loader_shown (tick dt s) = false) /\
  (isLoading s = false -> NAVIGATION_DELAY <= dt -> loader_shown (tick dt (navigate path' s)) = false).
Proof.
  cbv zeta. pose proof (run_events_inv _ es (mount_inv path)) as Hs. split.
  - intros Hdt. apply tick_clears; [done|]. destruct (isLoading _); [done|unfold NAVIGATION_DELAY in *; lia].
  - intros Hl Hdt. apply tick_clears; [by apply navigate_inv|]. by rewrite navigate_isLoading, Hl.
Qed.

(** ** Witnesses *)

Lemma loader_always_clears_witness :
  isLoading (run_events (mount "/"%string) [Wait 2400]) = false /\
  loader_shown (tick 800 (navigate "/submit-ticket"%string (run_events (mount "/"%string) [Wait 2400]))) = false.
Proof.
  destruct (loader_always_clears "/"%string [Wait 2400] 800 "/submit-ticket"%string) as [_ H].
  split; [reflexivity|]. apply H; [reflexivity|unfold NAVIGATION_DELAY; lia].
Defined.
