(* ===== verification/AdminPages.v ===== *)
(** * The dashboard and the ticket list as pages

    [pages/admin/Dashboard.tsx] renders the memoised [stats] as four summary
    cards and two bar charts, and the recent tickets as cards or an empty
    message; [pages/admin/TicketList.tsx] keeps three filter values in React
    state, changed by a search box and two [Select]s, and renders the
    filtered tickets as cards or an empty message.  A page is modelled by
    what it shows: the texts and numbers of its [View], computed from the
    snapshot and the page's state.

    The theorems say that the dashboard's numbers agree with each other and
    with the badges' labels, and that whatever the user does with the list
    page's controls, the page shows the context's [filterTickets] for the
    options selected. *)

From Stdlib Require Import String Ascii ZArith.
From stdpp Require Import base list strings.
From S2P Require Import Prelude Model Store Queries Pages Cards.

Local Open Scope string_scope.

Import TicketProvider.

Module DashboardPage.

(** The recent-tickets section (lines 162-183). *)
Inductive Recent :=
| RecentCards (cards : list TicketCard.Card)
| NoTickets (message : string).

(** What the page shows (lines 65-186). *)
Record View := mkView {
  header : string * string;
  summary : list (string * nat);
  priorityChart : string * list (string * nat);
  statusChart : string * list (string * nat);
  recent : Recent }.

Definition view (getTime : string -> option Z) (tickets : list Ticket.t) : View :=
  let s := stats tickets in
  {| header := ("Dashboard", "Overview of ticket activity and status");
     summary := [("Total Tickets", totalTickets s); ("Open Tickets", openTickets s);
                 ("Pending", pendingTickets s); ("Resolved", resolvedTickets s)];
     priorityChart := ("Tickets by Priority", priorityStats s);
     statusChart := ("Tickets by Status", statusStats s);
     recent := if (0 <? length (recentTickets getTime tickets))%nat
               then RecentCards (dashboard_cards getTime tickets)
               else NoTickets "No tickets submitted yet." |}.

End DashboardPage.

Module TicketListPage.

(** The page's state (lines 23-25). *)
Record State := mkState { statusFilter : string; priorityFilter : string; searchQuery : string }.

Definition initialState : State := mkState "all" "all" "".

(** The controls: the search box (line 77) and the two [Select]s (lines 81
    and 95), whose values are the options' strings. *)
Inductive Event :=
| SearchInput (value : string)
| SelectStatus (o : option TicketStatus)
| SelectPriority (o : option TicketPriority).

Definition step (s : State) (e : Event) : State :=
  match e with
  | SearchInput v => mkState (statusFilter s) (priorityFilter s) v
  | SelectStatus o => mkState (status_select o) (priorityFilter s) (searchQuery s)
  | SelectPriority o => mkState (statusFilter s) (priority_select o) (searchQuery s)
  end.

Inductive Body :=
| Cards (cards : list TicketCard.Card)
| Empty (message : string).

(** The grid (lines 111-121). *)
Definition view (tickets : list Ticket.t) (s : State) : Body :=
  let ft := filteredTickets tickets (statusFilter s) (priorityFilter s) (searchQuery s) in
  if (0 <? length ft)%nat then Cards (list_cards tickets (statusFilter s) (priorityFilter s) (searchQuery s))
  else Empty "No tickets match your filters.".

End TicketListPage.

Import DashboardPage TicketListPage.
Local Close Scope string_scope.

(** ** The dashboard *)

Lemma recentTickets_length getTime l : length (recentTickets getTime l) = Nat.min 5 (length l).
Proof. unfold recentTickets. by rewrite length_take, (Permutation_length (sort_by_perm _ l)). Qed.

(** C27. The dashboard's numbers agree: the open, pending and resolved
    cards add up to the total card ([new] counts as open, [closed] as
    resolved); each chart has one bar per value of its enumeration, named
    as the badges name it, and its bars add up to the total; the recent
    section shows the empty message exactly when there are no tickets, and
    otherwise [min 5 n] cards. *)
Theorem dashboard_view_consistent getTime tickets :
  let v := DashboardPage.view getTime tickets in
  (exists o p r, summary v = [("Total Tickets"%string, length tickets); ("Open Tickets"%string, o);
                              ("Pending"%string, p); ("Resolved"%string, r)] /\
                 o + p + r = length tickets) /\
  map fst (priorityChart v).2 = map Badges.priorityLabels [low; medium; high; urgent] /\
  sum_values (priorityChart v).2 = length tickets /\
  map fst (statusChart v).2 = map Badges.statusLabels all_statuses /\
  sum_values (statusChart v).2 = length tickets /\
  (recent v = NoTickets "No tickets submitted yet." <-> tickets = []) /\
  (forall cs, recent v = RecentCards cs -> length cs = Nat.min 5 (length tickets)).
Proof.
  destruct (dashboard_stats_partition tickets) as (Hp & Hs & Hpr).
  cbv zeta. unfold DashboardPage.view. cbn [summary priorityChart statusChart recent snd].
  rewrite recentTickets_length. split_and!.
  - eexists _, _, _. split; [reflexivity|exact Hp].
  - reflexivity.
  - exact Hpr.
  - reflexivity.
  - exact Hs.
  - destruct tickets as [|t l]; cbn; [done|]. split; [discriminate|done].
  - intros cs. destruct (Nat.ltb_spec 0 (Nat.min 5 (length tickets))); [|discriminate].
    intros [= <-]. unfold dashboard_cards. rewrite length_map. apply recentTickets_length.
Qed.

(** ** The ticket list page *)

(** The filters always hold the value of an option their [Select]
    offers. *)
Lemma list_state_options es :
  exists os op,
    statusFilter (foldl TicketListPage.step initialState es) = status_select os /\
    priorityFilter (foldl TicketListPage.step initialState es) = priority_select op.
Proof.
  assert (forall s, (exists os op, statusFilter s = status_select os /\ priorityFilter s = priority_select op) ->
          exists os op, statusFilter (foldl TicketListPage.step s es) = status_select os /\
                        priorityFilter (foldl TicketListPage.step s es) = priority_select op) as H.
  { induction es as [|e es IH]; intros s Hs; [done|]. apply IH.
    destruct Hs as (os & op & Hos & Hop).
    destruct e as [v|o|o]; cbn; [by exists os, op|by exists o, op|by exists os, o]. }
  apply H. by exists None, None.
Qed.

(** Whatever the user does with the search box and the two
    [Select]s, the filters hold an option's value; and as long as the
    search box is empty the page shows the cards of the context's
    [filterTickets] for the selected options, in snapshot order, or the
    empty message when no ticket matches. *)
Theorem ticket_list_filters es tickets :
  let s := foldl TicketListPage.step initialState es in
  exists os op,
    statusFilter s = status_select os /\ priorityFilter s = priority_select op /\
    (searchQuery s = ""%string ->
     TicketListPage.view tickets s =
       match filterTickets tickets os op with
       | [] => Empty "No tickets match your filters."
       | ft => TicketListPage.Cards (map (fun t => TicketCard.card t true) ft)
       end).
Proof.
  cbv zeta. destruct (list_state_options es) as (os & op & Hos & Hop).
  exists os, op. split_and!; [done|done|]. intros Hq.
  unfold TicketListPage.view, list_cards. rewrite Hos, Hop, Hq, filteredTickets_selects.
  by destruct (filterTickets tickets os op).
Qed.
