(* ===== verification/Forms.v ===== *)
(** * The login and submission pages as state machines

    [pages/admin/Login.tsx] and [pages/SubmitTicket.tsx] keep page-local
    React state: the field values, [isSubmitting], and the validation
    errors.  Their submit handlers are async: they set [isSubmitting],
    [await] the provider's [login] or [createTicket], and reset the flag in
    [finally].  A page is a record of its local state with the suspended
    handler ([Interleave.advance] runs it to its [await]), and events: the
    user's edits, the submit, and the response.  [view] is what the page
    renders for its state and the session.

    The theorems: on the login page the label "Logging in..." (line 224)
    is never rendered, because [login] sets the session's [isLoading]
    before its request and the page shows a spinner instead of the form
    while it is set; an invalid login shows each field's message until the
    first keystroke in that field; on the submission page a submission in
    flight disables the button, so no second ticket is posted, a failed one
    keeps what the user typed, and a successful one resets the form and
    leaves for the confirmation page. *)

From Stdlib Require Import String Ascii.
From stdpp Require Import base list strings.
From S2P Require Import Prelude Model Api Prog Service Backend Store Toast Auth Pages Interleave.

Local Open Scope string_scope.
Local Open Scope js_scope.

Section Suspension.
Context {S : Type} `{!Gateway S}.

(** A suspended handler whose rest, once the response is in, runs to its
    end without another [await], with an outcome satisfying [P]. *)
Definition finishes {A} (P : Res A -> Prop) (t : Task A) : Prop :=
  match t with
  | Suspended _ x k => forall w0 : World S, exists w1 r, advance (k x) w0 = (w1, inl r) /\ P r
  end.

End Suspension.

(** The outcome of a page's submit handler: it never rejects, and it
    navigates to [to] or nowhere. *)
Definition settles_to (to : string) (r : Res (option string)) : Prop := r = Ok (Some to) \/ r = Ok None.

Module LoginForm.
Import LoginPage.

(** The page's state (lines 27-33). *)
Record State := mkState {
  email : string; password : string; isSubmitting : bool;
  validationErrors : ValidationErrors }.

Definition initialState : State := mkState "" "" false (mkErrors "" "").

(** The e-mail input's [onChange] (lines 172-178): the error is cleared
    when there is one. *)
Definition onEmailChange (v : string) (s : State) : State :=
  let errs := validationErrors s in
  mkState v (password s) (isSubmitting s)
    (if truthy (err_email errs) then mkErrors "" (err_password errs) else errs).

(** The password input's [onChange] (lines 201-207). *)
Definition onPasswordChange (v : string) (s : State) : State :=
  let errs := validationErrors s in
  mkState (email s) v (isSubmitting s)
    (if truthy (err_password errs) then mkErrors (err_email errs) "" else errs).

(** A labelled input (lines 157-213): the message is shown when the error
    is a non-empty string, and the input then has a red border. *)
Record Field := mkField { label : string; shownError : option string; inputClass : string }.

Definition field (lbl err : string) : Field :=
  mkField lbl (if truthy err then Some err else None)
    ("focus:ring-2 focus:ring-primary/30 transition-all duration-300 " +s+
     (if truthy err then "border-destructive" else "")).

Inductive Screen :=
| ToDashboard                (** [<Navigate to="/admin/dashboard" />] (lines 36-38) *)
| Spinner                    (** the loading state (lines 100-106) *)
| Form (emailField passwordField : Field) (buttonLabel : string) (buttonDisabled : bool).

(** What the page renders (lines 36-38 and 100-236). *)
Definition view (a : AuthState) (s : State) : Screen :=
  if (AuthProvider.isAuthenticated a && negb (isLoading a))%bool then ToDashboard
  else if isLoading a then Spinner
  else Form (field "Email" (err_email (validationErrors s)))
            (field "Password" (err_password (validationErrors s)))
            (if isSubmitting s then "Logging in..." else "Log in") (isSubmitting s).

(** The inputs are on screen. *)
Definition accepts_input (a : AuthState) (s : State) : bool :=
  match view a s with Form _ _ _ _ => true | _ => false end.

(** The form can be submitted: it is on screen and its submit button is
    enabled (a disabled default button also blocks submission by Enter). *)
Definition can_submit (a : AuthState) (s : State) : bool :=
  match view a s with Form _ _ _ d => negb d | _ => false end.

(** The page with its submission: [pending] is [handleSubmit] suspended at
    the login request; [navigatedTo] the route it left for. *)
Record Page := mkPage {
  form : State; pending : option (Task (option string)); navigatedTo : option string }.

Definition initialPage : Page := mkPage initialState None None.

Definition mounted (pg : Page) : bool :=
  match navigatedTo pg with None => true | Some _ => false end.

Inductive Event := EmailInput (v : string) | PasswordInput (v : string) | SubmitForm | Response.

Definition touches_email (e : Event) : bool := match e with EmailInput _ => true | _ => false end.
Definition touches_password (e : Event) : bool := match e with PasswordInput _ => true | _ => false end.

Definition set_form (f : State -> State) (pg : Page) : Page :=
  mkPage (f (form pg)) (pending pg) (navigatedTo pg).

(** Where [handleSubmit] stands after running: suspended, or ended, with
    [setIsSubmitting(false)] of its [finally] (line 95) and the navigation
    of line 87. *)
Definition settle (o : Res (option string) + Task (option string)) (pg : Page) : Page :=
  match o with
  | inr t => mkPage (form pg) (Some t) (navigatedTo pg)
  | inl r =>
      mkPage (mkState (email (form pg)) (password (form pg)) false (validationErrors (form pg))) None
        (match r with Ok (Some to) => Some to | _ => navigatedTo pg end)
  end.

Section Machine.
Context {S : Type} `{!Gateway S}.

(** [handleSubmit] (lines 77-97): [setValidationErrors] (line 67); on a
    valid form [setIsSubmitting(true)] (line 85) and the call. *)
Definition submit (w : World S) (pg : Page) : World S * Page :=
  let s := form pg in
  let '(errs, ok) := validateForm (email s) (password s) in
  if ok then
    let '(w', o) := advance (handleSubmit (email s) (password s)) w in
    (w', settle o (mkPage (mkState (email s) (password s) true errs) None (navigatedTo pg)))
  else (w, set_form (fun s => mkState (email s) (password s) (isSubmitting s) errs) pg).

Definition step (st : World S * Page) (e : Event) : World S * Page :=
  let '(w, pg) := st in
  let a := auth (client w) in
  match e with
  | EmailInput v =>
      if (mounted pg && accepts_input a (form pg))%bool then (w, set_form (onEmailChange v) pg) else st
  | PasswordInput v =>
      if (mounted pg && accepts_input a (form pg))%bool then (w, set_form (onPasswordChange v) pg) else st
  | SubmitForm => if (mounted pg && can_submit a (form pg))%bool then submit w pg else st
  | Response =>
      match pending pg with
      | Some (Suspended _ x k) => let '(w', o) := advance (k x) w in (w', settle o pg)
      | None => st
      end
  end.

Definition run_page (st : World S * Page) (es : list Event) : World S * Page := foldl step st es.

(** While the login request is in flight the flag is set and so is the
    session's [isLoading]; otherwise the flag is clear. *)
Definition inv (st : World S * Page) : Prop :=
  let '(w, pg) := st in
  match pending pg with
  | None => isSubmitting (form pg) = false
  | Some t => isSubmitting (form pg) = true /\ isLoading (auth (client w)) = true /\
              finishes (S:=S) (settles_to "/admin/dashboard") t
  end.

End Machine.
End LoginForm.

Module SubmitForm.
Import SubmitPage.

(** A change of one form control (lines 156-261). *)
Inductive Edit :=
| EditName (v : string) | EditEmail (v : string) | EditTitle (v : string)
| EditDescription (v : string) | EditPriority (p : TicketPriority).

Definition edited (e : Edit) : FieldName :=
  match e with
  | EditName _ => FName | EditEmail _ => FEmail | EditTitle _ => FTitle
  | EditDescription _ => FDescription | EditPriority _ => FPriority
  end.

Definition set_value (f : TicketFormValues) (e : Edit) : TicketFormValues :=
  match e with
  | EditName v => mkForm v (f_email f) (f_title f) (f_description f) (f_priority f)
  | EditEmail v => mkForm (f_name f) v (f_title f) (f_description f) (f_priority f)
  | EditTitle v => mkForm (f_name f) (f_email f) v (f_description f) (f_priority f)
  | EditDescription v => mkForm (f_name f) (f_email f) (f_title f) v (f_priority f)
  | EditPriority p => mkForm (f_name f) (f_email f) (f_title f) (f_description f) p
  end.

(** The form's state: [useForm] (lines 49-58) keeps the values, the errors
    and whether a submit was attempted ([formState.isSubmitted], which
    switches on re-validation at each change); [isSubmitting] is the page's
    own (line 46). *)
Record State := mkState {
  values : TicketFormValues; errors : FieldName -> option string;
  isSubmitted : bool; isSubmitting : bool }.

Definition no_errors : FieldName -> option string := fun _ => None.

Definition initialState : State := mkState defaultValues no_errors false false.

(** [form.reset()] (line 84): the default values, no errors, not
    submitted. *)
Definition reset (s : State) : State := mkState defaultValues no_errors false (isSubmitting s).

(** What the form shows: each field's [<FormMessage />] and the submit
    button (lines 156-305). *)
Record View := mkView {
  messages : list (FieldName * option string); submitLabel : string; submitDisabled : bool }.

Definition view (s : State) : View :=
  mkView (map (fun n => (n, errors s n)) fieldNames)
    (if isSubmitting s then "Submitting..." else "Submit Ticket") (isSubmitting s).

Record Page := mkPage {
  form : State; pending : option (Task (option string)); navigatedTo : option string }.

Definition initialPage : Page := mkPage initialState None None.

Definition mounted (pg : Page) : bool :=
  match navigatedTo pg with None => true | Some _ => false end.

Inductive Event := Change (e : Edit) | SubmitForm | Response | Cancel.

Definition set_form (f : State -> State) (pg : Page) : Page :=
  mkPage (f (form pg)) (pending pg) (navigatedTo pg).

(** The end of the submission: [form.reset()] and the navigation on
    success (lines 84-85), [setIsSubmitting(false)] in [finally] (line
    94), and react-hook-form marking the form submitted. *)
Definition settle (o : Res (option string) + Task (option string)) (pg : Page) : Page :=
  match o with
  | inr t => mkPage (form pg) (Some t) (navigatedTo pg)
  | inl r =>
      let s := match r with Ok (Some _) => reset (form pg) | _ => form pg end in
      mkPage (mkState (values s) (errors s) true false) None
        (match r with Ok (Some to) => Some to | _ => navigatedTo pg end)
  end.

Section Machine.
Context {S : Type} `{!Gateway S}.
Variable zod_email : string -> bool.

(** A change: the value is set; once a submit was attempted the field is
    validated again (react-hook-form's default [reValidateMode]). *)
Definition onChange (e : Edit) (s : State) : State :=
  let v := set_value (values s) e in
  mkState v
    (if isSubmitted s
     then fun n => if bool_decide (n = edited e) then field_issue zod_email v n else errors s n
     else errors s)
    (isSubmitted s) (isSubmitting s).

(** [form.handleSubmit(onSubmit)] (line 147): all fields are validated;
    a valid form runs [onSubmit] (lines 64-96), which sets [isSubmitting]
    and awaits [createTicket]. *)
Definition submit (w : World S) (pg : Page) : World S * Page :=
  let s := form pg in
  let errs := field_issue zod_email (values s) in
  match schema_errors zod_email (values s) with
  | [] =>
      let '(w', o) := advance (SubmitPage.submit zod_email (values s)) w in
      (w', settle o (mkPage (mkState (values s) errs (isSubmitted s) true) None (navigatedTo pg)))
  | _ :: _ => (w, set_form (fun s => mkState (values s) errs true (isSubmitting s)) pg)
  end.

Definition step (st : World S * Page) (e : Event) : World S * Page :=
  let '(w, pg) := st in
  match e with
  | Change c => if mounted pg then (w, set_form (onChange c) pg) else st
  | SubmitForm =>
      if (mounted pg && negb (submitDisabled (view (form pg))))%bool then submit w pg else st
  | Response =>
      match pending pg with
      | Some (Suspended _ x k) => let '(w', o) := advance (k x) w in (w', settle o pg)
      | None => st
      end
  | Cancel => if mounted pg then (w, mkPage (form pg) (pending pg) (Some "/")) else st
  end.

Definition run_page (st : World S * Page) (es : list Event) : World S * Page := foldl step st es.

(** The part of the invariant about the errors. *)
Definition errors_ok (s : State) : Prop :=
  (isSubmitted s = false -> forall n, errors s n = None) /\
  (forall n m, errors s n = Some m -> field_issue zod_email (values s) n = Some m).

(** A submission is in flight exactly while [isSubmitting] is set, and
    its rest finishes; there is no error before a submit attempt, and
    every error is the schema's message for the field's current value. *)
Definition inv (st : World S * Page) : Prop :=
  let '(w, pg) := st in
  (match pending pg with
   | None => isSubmitting (form pg) = false
   | Some t => isSubmitting (form pg) = true /\ finishes (S:=S) (settles_to "/ticket-submitted") t
   end) /\
  errors_ok (form pg).

End Machine.
End SubmitForm.

Import LoginPage LoginForm.

(** A suspended handler that finishes: its response ends it where [run]
    ends. *)
Lemma advance_finish {S} `{!Gateway S} {A} (P : Res A -> Prop) (p : Prog A) (w w' : World S) t :
  advance p w = (w', inr t) -> finishes (S:=S) P t ->
  match t with
  | Suspended _ x k => exists w1 r, advance (k x) w' = (w1, inl r) /\ run p w = (w1, r) /\ P r
  end.
Proof.
  destruct t as [q x k]. intros Ha Hf. destruct (Hf w') as (w1 & r & Hk & HP).
  exists w1, r. split_and!; [done| |done].
  rewrite (advance_suspends _ _ _ _ Ha). by apply advance_done.
Qed.

(** ** The login page *)

Section Login.
Context {S : Type} `{!Gateway S}.

Lemma handleSubmit_suspends e p (w : World S) :
  snd (LoginPage.validateForm e p) = true ->
  exists w' t, advance (LoginPage.handleSubmit e p) w = (w', inr t) /\
               isLoading (auth (client w')) = true /\ finishes (S:=S) (settles_to "/admin/dashboard") t.
Proof.
  intros Hv. unfold LoginPage.handleSubmit. rewrite Hv. cbn.
  destruct (handle _ _ _) as [s' x]. eexists _, _. split; [reflexivity|]. split; [reflexivity|].
  intros w0. destruct x; cbn; eexists _, _; (split; [reflexivity|]); unfold settles_to; auto.
Qed.

Lemma view_form a s f1 f2 l d :
  view a s = Form f1 f2 l d ->
  isLoading a = false /\ AuthProvider.isAuthenticated a = false /\
  l = (if isSubmitting s then "Logging in..." else "Log in") /\ d = isSubmitting s.
Proof.
  unfold view. destruct (isLoading a), (AuthProvider.isAuthenticated a); cbn; try discriminate.
  by intros [= _ _ <- <-].
Qed.

Lemma can_submit_idle a s :
  can_submit a s = true ->
  isLoading a = false /\ AuthProvider.isAuthenticated a = false /\ isSubmitting s = false.
Proof.
  unfold can_submit. destruct (view a s) as [| |f1 f2 l d] eqn:Hv; try discriminate.
  apply view_form in Hv as (-> & -> & _ & ->). by destruct (isSubmitting s).
Qed.

Lemma can_submit_accepts a s : can_submit a s = true -> accepts_input a s = true.
Proof. unfold can_submit, accepts_input. by destruct (view a s). Qed.

Lemma login_step_inv (st : World S * Page) e : inv st -> inv (step st e).
Proof.
  destruct st as [w [s pend nav]]. intros Hi.
  destruct e as [v|v| |]; cbn [step form pending navigatedTo].
  - destruct (_ && _)%bool; [|done]. unfold inv, set_form, onEmailChange; cbn. done.
  - destruct (_ && _)%bool; [|done]. unfold inv, set_form, onPasswordChange; cbn. done.
  - destruct (mounted _ && can_submit _ _)%bool eqn:Hc; [|done].
    apply andb_prop in Hc as [_ (Hl & _ & Hs)%can_submit_idle]. cbn in Hs.
    unfold submit. cbn [form]. destruct (LoginPage.validateForm _ _) as [errs ok] eqn:Hv. destruct ok.
    + destruct (handleSubmit_suspends (email s) (password s) w) as (w' & t & -> & Hl' & Hf);
        [by rewrite Hv|]. cbn. done.
    + unfold inv in *; cbn. destruct pend as [t|]; [|done]. destruct Hi as (_ & Hl' & _). congruence.
  - destruct pend as [[r x k]|]; [|done]. destruct Hi as (_ & _ & Hf).
    destruct (Hf w) as (w1 & r' & -> & _). done.
Qed.

Lemma login_run_inv (st : World S * Page) es : inv st -> inv (run_page st es).
Proof.
  revert st. induction es as [|e es IH]; intros st Hi; [done|]. apply IH, login_step_inv, Hi.
Qed.

(** C5. The label "Logging in..." of the submit button (line 224) is
    never rendered, nor the button disabled: whatever the user does on the
    login page, the form is on screen only while the session is not
    loading, and while the login request is in flight [login] has set the
    session's [isLoading], so the page shows its spinner instead. *)
Theorem logging_in_never_shown (w : World S) es :
  let '(w', pg) := run_page (w, initialPage) es in
  (forall f1 f2 l d, view (auth (client w')) (form pg) = Form f1 f2 l d -> l = "Log in" /\ d = false) /\
  (is_Some (pending pg) -> view (auth (client w')) (form pg) = Spinner).
Proof.
  pose proof (login_run_inv (w, initialPage) es eq_refl) as Hi.
  destruct (run_page _ es) as [w' [s pend nav]]. cbn [form pending] in *. split.
  - intros f1 f2 l d (Hl & _ & -> & ->)%view_form.
    destruct pend as [t|]; [destruct Hi as (_ & Hl' & _); congruence|]. by rewrite Hi.
  - intros [t ->]. destruct Hi as (_ & Hl & _). unfold view. rewrite Hl. by rewrite andb_false_r.
Qed.

(** ** Field messages of the login form *)

Lemma accepts_input_form a s s' : accepts_input a s = accepts_input a s'.
Proof. unfold accepts_input, view. by destruct (_ && _)%bool, (isLoading a). Qed.

Lemma onEmailChange_errors v s :
  err_email (validationErrors (onEmailChange v s)) = "" /\
  err_password (validationErrors (onEmailChange v s)) = err_password (validationErrors s).
Proof.
  unfold onEmailChange. cbn. destruct (truthy _) eqn:E; [done|]. split; [|done]. by apply truthy_false.
Qed.

Lemma onPasswordChange_errors v s :
  err_password (validationErrors (onPasswordChange v s)) = "" /\
  err_email (validationErrors (onPasswordChange v s)) = err_email (validationErrors s).
Proof.
  unfold onPasswordChange. cbn. destruct (truthy _) eqn:E; [done|]. split; [|done]. by apply truthy_false.
Qed.

(** Keystrokes in the inputs: the world and the flag stay, and each
    field's error is cleared by the first keystroke in that field. *)
Lemma inputs_run (w : World S) pg es :
  mounted pg = true -> accepts_input (auth (client w)) (form pg) = true ->
  Forall (fun e => touches_email e || touches_password e = true) es ->
  exists pg', run_page (w, pg) es = (w, pg') /\ isSubmitting (form pg') = isSubmitting (form pg) /\
    err_email (validationErrors (form pg')) =
      (if existsb touches_email es then "" else err_email (validationErrors (form pg))) /\
    err_password (validationErrors (form pg')) =
      (if existsb touches_password es then "" else err_password (validationErrors (form pg))).
Proof.
  revert pg. induction es as [|e es IH]; intros pg Hm Ha Hes; [by exists pg|].
  apply Forall_cons in Hes as [He Hes].
  destruct e as [v|v| |]; cbn in He; try discriminate; cbn [run_page foldl step];
    rewrite Hm, Ha; cbn [andb existsb touches_email touches_password orb];
    match goal with |- context [foldl step (w, ?p) es] =>
      destruct (IH p) as (pg' & Hr & Hs & He' & Hp'); [done|by erewrite accepts_input_form|done|] end;
    exists pg'; (split; [exact Hr|]); rewrite Hs, He', Hp'; cbn [set_form form].
  - destruct (onEmailChange_errors v (form pg)) as [-> ->]. split; [reflexivity|]. destruct (existsb touches_email es), (existsb touches_password es); split; reflexivity.
  - destruct (onPasswordChange_errors v (form pg)) as [-> ->]. split; [reflexivity|]. destruct (existsb touches_email es), (existsb touches_password es); split; reflexivity.
Qed.

(** C23. An invalid login sends nothing and shows the messages of
    [validateForm] (lines 160-165 and 190-195), each until the first
    keystroke in its own field (lines 175-177 and 204-206): typing in one
    field does not clear the other's message. *)
Theorem invalid_login_messages (w : World S) pg es errs :
  mounted pg = true -> can_submit (auth (client w)) (form pg) = true ->
  LoginPage.validateForm (email (form pg)) (password (form pg)) = (errs, false) ->
  Forall (fun e => touches_email e || touches_password e = true) es ->
  let '(w', pg') := run_page (w, pg) (SubmitForm :: es) in
  w' = w /\ exists f1 f2,
    view (auth (client w)) (form pg') = Form f1 f2 "Log in" false /\
    shownError f1 = (if existsb touches_email es then None else shownError (field "Email" (err_email errs))) /\
    shownError f2 = (if existsb touches_password es then None
                     else shownError (field "Password" (err_password errs))).
Proof.
  intros Hm Hc Hv Hes. pose proof Hc as (Hl & Ha & Hs)%can_submit_idle.
  unfold run_page. cbn [foldl step]. rewrite Hm, Hc. cbn [andb]. unfold submit. rewrite Hv.
  destruct (inputs_run w (set_form (fun s => mkState (email s) (password s) (isSubmitting s) errs) pg) es)
    as (pg' & Hr & Hs' & He & Hp);
    [done|rewrite (accepts_input_form _ _ (form pg)); by apply can_submit_accepts|done|].
  unfold run_page in Hr. rewrite Hr. split; [done|]. unfold view. rewrite Hl, Ha. cbn in Hs'. rewrite Hs', Hs.
  eexists _, _. split; [reflexivity|]. cbn. rewrite He, Hp. cbn.
  by destruct (existsb touches_email es), (existsb touches_password es).
Qed.

(** C21. The login page's submission, driven by the event loop (submit,
    then the response), ends exactly where the sequential [handleSubmit]
    ends, the flag cleared; the page navigates to the dashboard when
    [handleSubmit] returns it and stays otherwise, and no rejection
    escapes.  The sequential theorems on [handleSubmit] hold of the page. *)
Theorem login_page_runs_handleSubmit (w : World S) pg :
  mounted pg = true -> can_submit (auth (client w)) (form pg) = true ->
  snd (validateForm (email (form pg)) (password (form pg))) = true ->
  let '(w', pg') := run_page (w, pg) [SubmitForm; Response] in
  let '(w1, r) := run (handleSubmit (email (form pg)) (password (form pg))) w in
  w' = w1 /\ pending pg' = None /\ isSubmitting (form pg') = false /\
  ((r = Ok (Some "/admin/dashboard") /\ navigatedTo pg' = Some "/admin/dashboard") \/
   (r = Ok None /\ navigatedTo pg' = None)).
Proof.
  intros Hm Hc Hv. unfold run_page. cbn [foldl step]. rewrite Hm, Hc. cbn [andb]. unfold submit.
  destruct (validateForm _ _) as [errs ok] eqn:E. cbn in Hv. subst ok.
  destruct (handleSubmit_suspends (email (form pg)) (password (form pg)) w) as (w' & t & Ha & _ & Hf);
    [by rewrite E|].
  rewrite Ha. pose proof (advance_finish _ _ _ _ _ Ha Hf) as Ht.
  destruct t as [q x k]. destruct Ht as (w1 & r & Hk & -> & [->| ->]); cbn; rewrite Hk; cbn;
    unfold mounted in Hm; destruct (navigatedTo pg); try discriminate;
    split_and!; try done; first [left; split_and!; done | right; split_and!; done].
Qed.

End Login.

(** ** The submission page *)

Import SubmitPage SubmitForm.

Section Submission.
Context {S : Type} `{!Gateway S}.
Variable zod_email : string -> bool.

Lemma schema_errors_nil f : schema_errors zod_email f = [] -> forall n, field_issue zod_email f n = None.
Proof.
  unfold schema_errors. intros H n. destruct (field_issue zod_email f n) as [m|] eqn:E; [|done].
  assert (m ∈ omap (field_issue zod_email f) fieldNames) as Hm
    by (apply list_elem_of_omap; exists n; split; [apply list_elem_of_In; destruct n; cbn; tauto|done]).
  rewrite H in Hm. by apply not_elem_of_nil in Hm.
Qed.

Lemma field_issue_other f e n :
  n <> edited e -> field_issue zod_email (set_value f e) n = field_issue zod_email f n.
Proof. destruct e, n; cbn; congruence. Qed.

Lemma submit_suspends f (w : World S) :
  schema_errors zod_email f = [] ->
  exists w' t, advance (SubmitPage.submit zod_email f) w = (w', inr t) /\
               finishes (S:=S) (settles_to "/ticket-submitted") t.
Proof.
  intros Hs. unfold SubmitPage.submit. rewrite Hs. cbn.
  destruct (handle _ _ _) as [s' x]. eexists _, _. split; [reflexivity|].
  intros w0. destruct x; cbn; eexists _, _; (split; [reflexivity|]); unfold settles_to; auto.
Qed.

Lemma onChange_errors_ok e s : errors_ok zod_email s -> errors_ok zod_email (onChange zod_email e s).
Proof.
  intros [H1 H2]. unfold onChange, errors_ok; cbn. split.
  - intros Hs n. rewrite Hs. by apply H1.
  - intros n m. destruct (isSubmitted s) eqn:Hs.
    + case_bool_decide as Hn; [by subst|]. rewrite field_issue_other by done. apply H2.
    + by rewrite (H1 eq_refl n).
Qed.

Lemma submit_step_inv (st : World S * Page) e : inv zod_email st -> inv zod_email (step zod_email st e).
Proof.
  destruct st as [w [s pend nav]]. intros (Hp & Hok).
  destruct e as [c| | |]; cbn [step form pending navigatedTo mounted].
  - destruct nav; [done|]. split; [done|]. apply onChange_errors_ok, Hok.
  - destruct nav; cbn; [done|]. destruct (isSubmitting s) eqn:Hs; cbn; [done|].
    assert (pend = None) as -> by (destruct pend; [cbn in Hp; destruct Hp; congruence|done]).
    unfold submit. cbn [form]. destruct (schema_errors zod_email (values s)) eqn:Hv.
    + destruct (submit_suspends (values s) w) as (w' & t & -> & Hf); [done|].
      cbn. split; [by split|]. split; cbn; [intros _ n|intros n m]; by rewrite (schema_errors_nil _ Hv n).
    + cbn. split; [done|]. split; cbn; [done|]. by intros n m ->.
  - destruct pend as [[r x k]|]; [|done]. destruct Hp as (_ & Hf).
    destruct (Hf w) as (w1 & r' & -> & _). cbn.
    destruct r' as [[to|]|]; cbn; (split; [done|]); (split; cbn; [done|]);
      [by intros n m|apply (proj2 Hok)..].
  - destruct nav; done.
Qed.

End Submission.

Section SubmissionTheorems.
Context {S : Type} `{!Gateway S}.
Variable zod_email : string -> bool.

Lemma submit_inv_initial (w : World S) : inv zod_email (w, initialPage).
Proof. split; [done|]. split; [done|]. by intros n m. Qed.

Lemma submit_run_inv (st : World S * Page) es :
  inv zod_email st -> inv zod_email (run_page zod_email st es).
Proof.
  revert st. induction es as [|e es IH]; intros st Hi; [done|]. apply IH, submit_step_inv, Hi.
Qed.

(** C7. No ticket is submitted twice: whatever the user does on the
    submission page, while a submission is in flight the button reads
    "Submitting..." and is disabled (lines 288 and 292), so a second
    submit does nothing; otherwise it reads "Submit Ticket" and is
    enabled. *)
Theorem no_double_submission (w : World S) es :
  let st := run_page zod_email (w, initialPage) es in
  (is_Some (pending st.2) ->
     submitLabel (view (form st.2)) = "Submitting..." /\ submitDisabled (view (form st.2)) = true /\
     step zod_email st SubmitForm = st) /\
  (pending st.2 = None ->
     submitLabel (view (form st.2)) = "Submit Ticket" /\ submitDisabled (view (form st.2)) = false).
Proof.
  cbv zeta. pose proof (submit_run_inv _ es (submit_inv_initial w)) as Hi.
  destruct (run_page zod_email _ es) as [w' [s pend nav]]. destruct Hi as [Hp _]. cbn in *.
  split.
  - intros [t ->]. destruct Hp as [Hs _]. unfold view. cbn. rewrite Hs. split_and!; try done.
    by destruct nav.
  - intros ->. unfold view. cbn. by rewrite Hp.
Qed.

(** C22. No stale message: whatever the user does, the form shows no
    message before the first submit attempt, and every message it shows
    is the schema's message for the field's current value. *)
Theorem messages_never_stale (w : World S) es :
  let pg := snd (run_page zod_email (w, initialPage) es) in
  (isSubmitted (form pg) = false -> Forall (fun p => p.2 = None) (messages (view (form pg)))) /\
  (forall n m, (n, Some m) ∈ messages (view (form pg)) -> field_issue zod_email (values (form pg)) n = Some m).
Proof.
  cbv zeta. pose proof (submit_run_inv _ es (submit_inv_initial w)) as Hi.
  destruct (run_page zod_email _ es) as [w' pg]. destruct Hi as [_ [H1 H2]]. cbn [snd view messages].
  split.
  - intros Hs. apply List.Forall_forall. intros p (n & -> & _)%list_elem_of_In%list_elem_of_fmap_1.
    by apply H1.
  - intros n m (n' & [= <- Hm] & _)%list_elem_of_fmap_1. by apply H2.
Qed.

(** C20. The submission page, driven by the event loop, ends exactly where
    the sequential [submit] ends, the flag cleared, and no rejection
    escapes: on success the form is reset to its default values and the
    page leaves for "/ticket-submitted"; on failure it stays with what the
    user typed. *)
Theorem submission_outcome (w : World S) pg :
  mounted pg = true -> isSubmitting (form pg) = false -> schema_errors zod_email (values (form pg)) = [] ->
  let '(w', pg') := run_page zod_email (w, pg) [SubmitForm; Response] in
  let '(w1, r) := run (SubmitPage.submit zod_email (values (form pg))) w in
  w' = w1 /\ pending pg' = None /\ isSubmitting (form pg') = false /\
  ((r = Ok (Some "/ticket-submitted") /\ navigatedTo pg' = Some "/ticket-submitted" /\
    values (form pg') = defaultValues) \/
   (r = Ok None /\ navigatedTo pg' = None /\ values (form pg') = values (form pg))).
Proof.
  intros Hm Hs Hv. unfold run_page. cbn [foldl step]. rewrite Hm. unfold view. cbn. rewrite ?Hs. cbn.
  unfold submit. rewrite Hv.
  destruct (submit_suspends zod_email (values (form pg)) w) as (w' & t & Ha & Hf); [done|].
  rewrite Ha. pose proof (advance_finish _ _ _ _ _ Ha Hf) as Ht.
  destruct t as [q x k]. destruct Ht as (w1 & r & Hk & -> & [->| ->]); cbn; rewrite Hk; cbn;
    unfold mounted in Hm; destruct (navigatedTo pg); try discriminate;
    split_and!; try done; first [left; split_and!; done | right; split_and!; done].
Qed.

(** C6. Cancel does not cancel: the Cancel button (line 274) stays
    enabled while a submission is in flight and only navigates to "/";
    the request has been sent, its response is handled as without the
    click, and a successful one then takes the user to the confirmation
    page from wherever they went. *)
Theorem cancel_keeps_submission (w : World S) pg :
  mounted pg = true -> isSubmitting (form pg) = false -> schema_errors zod_email (values (form pg)) = [] ->
  let '(w1, pg1) := run_page zod_email (w, pg) [SubmitForm; Response] in
  let '(w2, pg2) := run_page zod_email (w, pg) [SubmitForm; Cancel; Response] in
  w2 = w1 /\ navigatedTo pg2 = match navigatedTo pg1 with Some to => Some to | None => Some "/" end.
Proof.
  destruct pg as [f pend [to|]]; [discriminate|]. intros _ Hs Hv. cbn [form] in *.
  unfold run_page. cbn [foldl step mounted]. unfold view. cbn. rewrite ?Hs. cbn.
  unfold submit. cbn [form]. rewrite Hv.
  destruct (submit_suspends zod_email (values f) w) as (w' & t & Ha & Hf); [done|].
  rewrite Ha. pose proof (advance_finish _ _ _ _ _ Ha Hf) as Ht.
  destruct t as [q x k]. destruct Ht as (w1 & r & Hk & _ & [->| ->]); cbn; rewrite Hk; cbn; done.
Qed.

End SubmissionTheorems.

(** ** Witnesses *)

Lemma invalid_login_messages_witness :
  exists f1 f2,
    LoginForm.view (auth (client (fst (run AuthProvider.checkAuth auth_world))))
      (LoginForm.form (snd (LoginForm.run_page (fst (run AuthProvider.checkAuth auth_world), LoginForm.initialPage)
                              [LoginForm.SubmitForm; PasswordInput "secret"]))) = Form f1 f2 "Log in" false /\
    shownError f1 = Some "Email is required" /\ shownError f2 = None.
Proof.
  pose proof (invalid_login_messages (fst (run AuthProvider.checkAuth auth_world)) LoginForm.initialPage
                [PasswordInput "secret"] (mkErrors "Email is required" "Password is required")
                eq_refl ltac:(vm_compute; reflexivity) eq_refl ltac:(repeat constructor)) as H.
  destruct (LoginForm.run_page _ _) as [w' pg'] eqn:E. destruct H as [_ (f1 & f2 & Hv & H1 & H2)].
  exists f1, f2. split_and!; [exact Hv|exact H1|exact H2].
Defined.

Lemma login_page_runs_handleSubmit_witness :
  LoginForm.navigatedTo (snd (LoginForm.run_page (fst (run AuthProvider.checkAuth auth_world),
      LoginForm.mkPage (LoginForm.mkState "ana@x.com" "secret1" false (mkErrors "" "")) None None)
      [LoginForm.SubmitForm; LoginForm.Response])) = Some "/admin/dashboard".
Proof.
  pose proof (login_page_runs_handleSubmit (fst (run AuthProvider.checkAuth auth_world))
                (LoginForm.mkPage (LoginForm.mkState "ana@x.com" "secret1" false (mkErrors "" "")) None None)
                eq_refl ltac:(vm_compute; reflexivity) ltac:(vm_compute; reflexivity)) as H.
  destruct (LoginForm.run_page _ _) as [w' pg'] eqn:E.
  destruct (run (handleSubmit _ _) _) as [w1 r] eqn:E1. vm_compute in E1. injection E1 as _ <-.
  cbn [snd]. destruct H as (_ & _ & _ & [[_ ->]|[Hr _]]); [reflexivity|discriminate Hr].
Defined.

Lemma submission_outcome_witness :
  let pg := SubmitForm.mkPage (SubmitForm.mkState demo_form no_errors false false) None None in
  let pg' := snd (SubmitForm.run_page (fun e => LoginPage.email_test (list_ascii_of_string e))
                    (demo_world, pg) [SubmitForm.SubmitForm; SubmitForm.Response]) in
  SubmitForm.navigatedTo pg' = Some "/ticket-submitted" /\ values (SubmitForm.form pg') = defaultValues.
Proof.
  cbv zeta.
  pose proof (submission_outcome (fun e => LoginPage.email_test (list_ascii_of_string e)) demo_world
                (SubmitForm.mkPage (SubmitForm.mkState demo_form no_errors false false) None None)
                eq_refl eq_refl ltac:(vm_compute; reflexivity)) as H.
  destruct (SubmitForm.run_page _ _ _) as [w' pg'] eqn:E.
  destruct (run (SubmitPage.submit _ _) _) as [w1 r] eqn:E1. vm_compute in E1. injection E1 as _ <-.
  cbn [snd]. destruct H as (_ & _ & _ & [(_ & -> & ->)|[Hr _]]); [split; reflexivity|discriminate Hr].
Defined.

Lemma cancel_keeps_submission_witness :
  SubmitForm.navigatedTo (snd (SubmitForm.run_page (fun e => LoginPage.email_test (list_ascii_of_string e))
    (demo_world, SubmitForm.mkPage (SubmitForm.mkState demo_form no_errors false false) None None)
    [SubmitForm.SubmitForm; SubmitForm.Cancel; SubmitForm.Response])) = Some "/ticket-submitted".
Proof.
  pose proof (cancel_keeps_submission (fun e => LoginPage.email_test (list_ascii_of_string e)) demo_world
                (SubmitForm.mkPage (SubmitForm.mkState demo_form no_errors false false) None None)
                eq_refl eq_refl ltac:(vm_compute; reflexivity)) as H.
  destruct (SubmitForm.run_page _ _ [SubmitForm.SubmitForm; SubmitForm.Response]) as [w1 pg1] eqn:E1.
  destruct (SubmitForm.run_page _ _ [SubmitForm.SubmitForm; SubmitForm.Cancel; SubmitForm.Response])
    as [w2 pg2] eqn:E2.
  cbn [snd]. destruct H as [_ ->]. vm_compute in E1. injection E1 as _ <-. reflexivity.
Defined.
