(* ===== verification/Landing.v ===== *)
(** * The public pages, the footer and the loader

    [pages/Index.tsx], [pages/TicketSubmitted.tsx], [pages/NotFound.tsx],
    [components/Footer.tsx] and [components/Loader.tsx], by what they show
    and where their links lead.  A link is a React Router [<Link to>], which
    navigates inside the running app, or a plain [<a href>], which loads the
    document again and remounts the app, or an external link opened in a
    new tab.  The confetti of [TicketSubmitted] is a loop of
    [requestAnimationFrame] callbacks against [Date.now()], modelled with
    the frame interval as a parameter.

    The theorems: every in-app link of the public pages opens a page of the
    route table; following the 404 page's plain link reloads the app and
    costs the 2300 ms splash, where a [<Link>] costs the 800 ms overlay; and
    the confetti loop stops after [ceil(2000 / dt) + 1] frames. *)

From Stdlib Require Import String Ascii NArith Lia.
From stdpp Require Import base list strings.
From S2P Require Import Prelude Model Auth Pages Loading.

Local Open Scope string_scope.

(** Where a link leads. *)
Inductive Nav :=
| ClientLink (to : string)        (** [<Link to={to}>] *)
| DocumentLink (href : string)    (** [<a href={href}>] *)
| ExternalLink (href : string).   (** [<a href={href} target="_blank">] *)

Record Link := mkLink { nav : Nav; text : string }.

(** Following a link, as the loading overlay of [AppRouter] sees it: a
    [<Link>] changes [location.pathname]; a plain link loads the document
    and mounts the app afresh at [href]; an external link opens a tab. *)
Definition follow (l : Link) (s : AppRouter.State) : AppRouter.State :=
  match nav l with
  | ClientLink to => AppRouter.navigate to s
  | DocumentLink href => AppRouter.mount href
  | ExternalLink _ => s
  end.

Definition in_app_target (l : Link) : option string :=
  match nav l with ClientLink to | DocumentLink to => Some to | ExternalLink _ => None end.

Module Footer.

(** The footer (lines 8-63). *)
Record View := mkView { brand : string; tagline : string; links : list Link; notice : string }.

Definition view : View :=
  mkView "TicketRax"
    "Streamlined ticket management system for efficient customer support and issue resolution."
    [mkLink (ExternalLink "https://abdelrhmantarek.me/") "Eng. Abdelrhman Tarek"]
    "© 2025. All rights reserved.".

End Footer.

Module Index.

(** [FeatureCard] (lines 149-185): its props; the delay in ms. *)
Record FeatureCard := mkFeature { title : string; description : string; delay_ms : N }.

(** The page (lines 19-147): the hero with its call to action, the three
    feature cards, the closing call to action and the footer.  The
    decorative bubbles of lines 26-38 have random sizes and places. *)
Record View := mkView {
  heading : string; heroLinks : list Link; features : list FeatureCard;
  ctaHeading : string; ctaLinks : list Link; footer : Footer.View }.

Definition view : View :=
  mkView "Welcome to TicketRax"
    [mkLink (ClientLink "/submit-ticket") "Submit a Ticket"]
    [mkFeature "Submit Your Issue"
       "Fill out a simple form with details about your problem, and our team will get notified immediately." 0;
     mkFeature "Track Progress"
       "Receive proactive email notifications—every status update and revised ETA comes straight to your inbox." 200;
     mkFeature "Get Resolution"
       "Our experts resolve your issue, then send a final email summary for your review. Once you confirm, your ticket is closed." 400]
    "Need Help Right Now?"
    [mkLink (ClientLink "/submit-ticket") "Create a Support Ticket"]
    Footer.view.

Definition links (v : View) : list Link := (heroLinks v ++ ctaLinks v ++ Footer.links (footer v))%list.

End Index.

Module TicketSubmitted.

Record View := mkView { heading : string; message : string; links : list Link }.

(** The page (lines 53-119). *)
Definition view : View :=
  mkView "Ticket Submitted Successfully!"
    "Thank you for submitting your ticket. Our support team has been notified and will respond as soon as possible."
    [mkLink (ClientLink "/") "Return to Home"; mkLink (ClientLink "/submit-ticket") "Submit Another Ticket"].

(** One call of [confetti] (lines 29-43). *)
Record Burst := mkBurst { particleCount : N; angle : N; spread : N; originX : N }.

Definition frame_bursts : list Burst := [mkBurst 2 60 55 0; mkBurst 2 120 55 1].

Definition duration : N := 2000.

(** [confettiAnimation] (lines 28-48), first called at mount time [t0]
    (line 50) with [end = t0 + duration] (lines 20-21): each frame fires
    two bursts and asks for another frame while [Date.now() < end]; frames
    come every [dt] ms.  [None] when [fuel] frames were not enough. *)
Fixpoint confetti (fuel : nat) (now end_ dt : N) : option (list Burst) :=
  match fuel with
  | O => None
  | S f =>
      if (now <? end_)%N
      then (fun rest => (frame_bursts ++ rest)%list) <$> confetti f (now + dt)%N end_ dt
      else Some frame_bursts
  end.

Definition on_mount (fuel : nat) (t0 dt : N) : option (list Burst) := confetti fuel t0 (t0 + duration)%N dt.

End TicketSubmitted.

Module NotFound.

Record View := mkView { code : string; message : string; links : list Link }.

(** The page (lines 26-36): its link is a plain [<a href="/">]. *)
Definition view : View :=
  mkView "404" "Oops! Page not found" [mkLink (DocumentLink "/") "Return to Home"].

End NotFound.

Module Loader.

Record View := mkView { title : string; dotDelays_ms : list N }.

(** [Loader] (lines 9-84): nothing when not loading; otherwise the overlay
    with the title and three dots, the [i]-th delayed by [i * 0.2] s. *)
Definition view (isLoading : bool) : option View :=
  if negb isLoading then None
  else Some (mkView "TicketRax" (map (fun i : N => i * 200)%N [0; 1; 2]%N)).

End Loader.

(** The in-app links of the public pages. *)
Definition public_links : list Link :=
  (Index.links Index.view ++ TicketSubmitted.links TicketSubmitted.view ++ NotFound.links NotFound.view)%list.

Import AppRouter Routes.
Local Open Scope N_scope.

(** ** The confetti loop *)

Section Confetti.
Variable dt : N.
Hypothesis dt_pos : 0 < dt.

(** Frames left from a time [x] ms before [end]: [ceil (x / dt)]. *)
Lemma ceil_succ x : 0 < x -> (x + dt - 1) / dt = 1 + (x - 1) / dt.
Proof.
  intros Hx. replace (x + dt - 1) with (1 * dt + (x - 1)) by lia.
  rewrite N.div_add_l by lia. lia.
Qed.

Lemma ceil_step x : 0 < x -> (x + dt - 1) / dt = 1 + (x - dt + dt - 1) / dt.
Proof.
  intros Hx. rewrite ceil_succ by done. f_equal.
  destruct (N.le_gt_cases dt x) as [Hle|Hlt].
  - f_equal. lia.
  - rewrite !N.div_small; lia.
Qed.

Lemma ceil_zero x : (x + dt - 1) / dt = 0 -> x = 0.
Proof.
  intros H. destruct (N.eq_dec x 0) as [|Hx]; [done|]. rewrite ceil_succ in H by lia.
  revert H. generalize ((x - 1) / dt). lia.
Qed.

Lemma ceil_pos x : (0 < N.to_nat ((x + dt - 1) / dt))%nat -> 0 < x.
Proof.
  intros H. destruct (N.eq_dec x 0) as [->|]; [|lia]. rewrite N.div_small in H by lia. cbn in H. lia.
Qed.

Lemma confetti_exact k : forall fuel now end_,
  N.to_nat ((end_ - now + dt - 1) / dt) = k -> (k < fuel)%nat ->
  TicketSubmitted.confetti fuel now end_ dt = Some (concat (replicate (S k) TicketSubmitted.frame_bursts)).
Proof.
  induction k as [|k IH]; intros [|fuel] now end_ Hk Hf; try lia; cbn [TicketSubmitted.confetti].
  - assert (end_ - now = 0) by (apply ceil_zero; lia). n_cases. reflexivity.
  - assert (0 < end_ - now) as Hx by (apply ceil_pos; lia).
    rewrite ceil_step in Hk by done. n_cases.
    rewrite (IH fuel); [done| |lia]. replace (end_ - (now + dt)) with (end_ - now - dt) by lia. lia.
Qed.

Lemma confetti_short fuel : forall now end_,
  (fuel <= N.to_nat ((end_ - now + dt - 1) / dt))%nat -> TicketSubmitted.confetti fuel now end_ dt = None.
Proof.
  induction fuel as [|fuel IH]; intros now end_ Hf; [done|]. cbn [TicketSubmitted.confetti].
  assert (0 < end_ - now) as Hx by (apply ceil_pos; lia).
  rewrite ceil_step in Hf by done. n_cases. rewrite IH; [done|].
  replace (end_ - (now + dt)) with (end_ - now - dt) by lia. lia.
Qed.

End Confetti.

(** C35. The confetti loop of [TicketSubmitted] stops: with frames every
    [dt > 0] ms it runs exactly [ceil (2000 / dt) + 1] frames, two bursts of
    two particles each, and asks for no frame after the last; fewer frames
    never end it.  At 16 ms a frame that is 126 frames and 504 particles. *)
Theorem confetti_stops t0 dt :
  0 < dt ->
  let k := N.to_nat ((TicketSubmitted.duration + dt - 1) / dt) in
  (forall fuel, (k < fuel)%nat ->
     TicketSubmitted.on_mount fuel t0 dt = Some (concat (replicate (S k) TicketSubmitted.frame_bursts))) /\
  (forall fuel, (fuel <= k)%nat -> TicketSubmitted.on_mount fuel t0 dt = None).
Proof.
  intros Hdt. cbv zeta. unfold TicketSubmitted.on_mount.
  replace (t0 + TicketSubmitted.duration - t0) with TicketSubmitted.duration by lia. split.
  - intros fuel Hf. apply confetti_exact; [done| |done].
    replace (t0 + TicketSubmitted.duration - t0) with TicketSubmitted.duration by lia. done.
  - intros fuel Hf. apply confetti_short; [done|].
    replace (t0 + TicketSubmitted.duration - t0) with TicketSubmitted.duration by lia. done.
Qed.

(** ** Links of the public pages *)

(** A [<Link>] to another path, once loading is over, starts the 800 ms
    navigation overlay. *)
Lemma navigate_loaded s to :
  inv s -> isLoading s = false -> to <> pathname s ->
  navigate to s = mk (now s) to false true None (Some (now s + NAVIGATION_DELAY)).
Proof.
  destruct s as [n p l nv sp na]. cbn. intros Hi -> Hne. unfold inv in Hi. cbn in Hi.
  destruct Hi as [-> _]. unfold navigate. cbn. by rewrite (proj2 (String.eqb_neq _ _) Hne).
Qed.

(** The links of the public pages: every in-app link of the home
    page, the confirmation page and the 404 page opens a page of the route
    table, whatever the session; once the first load is over, a [<Link>]
    to another path shows the overlay for 800 ms, but the 404 page's
    "Return to Home", a plain [<a href="/">], reloads the document and the
    app shows its splash for 2300 ms, losing the app's state. *)
Theorem public_links_open_pages a path es t :
  let s := run_events (mount path) es in
  (forall l to, l ∈ public_links -> in_app_target l = Some to ->
     exists p, render a to = Shows p /\ p <> PNotFound) /\
  (isLoading s = false -> forall l to, l ∈ public_links -> nav l = ClientLink to -> to <> pathname s ->
     loader_shown (tick t (follow l s)) = (t <? NAVIGATION_DELAY)) /\
  (forall l, l ∈ NotFound.links NotFound.view ->
     follow l s = mount "/" /\ loader_shown (tick t (follow l s)) = (t <? SPLASH_DELAY + NAVIGATION_DELAY)).
Proof.
  cbv zeta. pose proof (run_events_inv _ es (mount_inv path)) as Hi. split_and!.
  - intros l to Hl Ht. apply list_elem_of_In in Hl. cbn in Hl.
    repeat destruct Hl as [<-|Hl]; try contradiction; cbn in Ht; try discriminate;
      injection Ht as <-; eexists; (split; [reflexivity|done]).
  - intros Hl l to _ Hn Hne. unfold follow. rewrite Hn, navigate_loaded by done.
    rewrite tick_loaded. unfold NAVIGATION_DELAY. n_cases.
  - intros l Hl. apply list_elem_of_In in Hl. destruct Hl as [<-|[]]. unfold follow. cbn [nav]. split; [done|].
    change (mount "/") with (mk 0 "/" true false (Some SPLASH_DELAY) None).
    rewrite tick_loading by (unfold SPLASH_DELAY; lia). unfold SPLASH_DELAY, NAVIGATION_DELAY. n_cases.
Qed.

(** ** Witness *)

Lemma confetti_stops_witness :
  length <$> TicketSubmitted.on_mount 200 0 16 = Some 252%nat.
Proof.
  destruct (confetti_stops 0 16 ltac:(lia)) as [H _]. rewrite (H 200%nat) by (vm_compute; lia).
  reflexivity.
Defined.

Lemma public_links_open_pages_witness :
  loader_shown (tick 500 (follow (mkLink (ClientLink "/submit-ticket") "Submit a Ticket")
                            (run_events (mount "/") [Wait 2400]))) = true.
Proof.
  destruct (public_links_open_pages (mkAuthState None false) "/" [Wait 2400] 500) as (_ & H & _).
  rewrite (H eq_refl _ "/submit-ticket"); [reflexivity| |reflexivity|].
  - apply list_elem_of_In. cbn. tauto.
  - vm_compute. discriminate.
Defined.
