(* ===== verification/DetailView.v ===== *)
(** * What the ticket detail page shows

    The render of [pages/admin/TicketDetail.tsx] (lines 89-100 and 223-371)
    as a function of the snapshot, the route's [id] and the page's local
    state [Detail.t] (modelled in [Workflow]): the not-found screen, or the
    header, the ticket's information with its badges, the activity log,
    the comment box, the two [Select]s of the actions card and the
    requester.  Dates are shown with [toLocaleString], a locale-dependent
    library call that is not modelled.

    The theorems: the page for an id the snapshot does not hold shows "Ticket
    Not Found" but still requests the activities of that id; after a status
    change whose PATCH fails the page contradicts itself, the [Select]
    showing the new status and the badge the ticket's old one; a page
    mounted ([mount_page]) before [fetchTickets] brings its ticket keeps
    the initial [new] and [medium] once the ticket is shown, so its
    [Select] disagrees with the badge. *)

From stdpp Require Import base list strings.
From S2P Require Import Prelude Model Api Prog Service Backend Store Workflow Pages Landing.

Local Open Scope string_scope.
Local Open Scope js_scope.

Module DetailView.
Import TicketProvider.

(** One entry of the activity log (lines 279-287). *)
Record Entry := mkEntry { author : string; message : string }.

(** The log's content (lines 276-291). *)
Inductive Log := LogLoading | LogEntries (entries : list Entry) | LogEmpty.

(** The page for a ticket (lines 223-371). *)
Record View := mkView {
  back : Link;
  heading : string;
  subtitle : string;
  infoTitle : string;
  email : string;
  description : string;
  statusBadge : string * string;
  priorityBadge : string * string;
  log : Log;
  commentValue : string;
  addCommentDisabled : bool;
  statusValue : TicketStatus;
  priorityValue : TicketPriority;
  requester : string * string }.

Inductive Screen :=
| NotFoundScreen (heading message : string) (links : list Link)   (** lines 89-100 *)
| TicketScreen (v : View).

Definition log_of (d : Detail.t) : Log :=
  if Detail.loadingActivities d then LogLoading
  else match Detail.activities d with
       | [] => LogEmpty
       | acts => LogEntries (map (fun a => mkEntry (Activity.createdBy a) (Activity.message a)) acts)
       end.

(** [getTicketById(id || '')] (line 48) and the render. *)
Definition view (tickets : list Ticket.t) (id : string) (d : Detail.t) : Screen :=
  match getTicketById tickets (if truthy id then id else "") with
  | None =>
      NotFoundScreen "Ticket Not Found" "The ticket you're looking for doesn't exist or has been removed."
        [mkLink (ClientLink "/admin/tickets") "Return to Tickets"]
  | Some t =>
      TicketScreen
        {| back := mkLink (ClientLink "/admin/tickets") "Back to Tickets";
           heading := "Ticket #" +s+ String.substring 0 8 (Ticket.id t);
           subtitle := Ticket.title t;
           infoTitle := Ticket.title t;
           email := Ticket.email (Ticket.createdBy t);
           description := Ticket.description t;
           statusBadge := (Badges.statusLabels (Ticket.status t), Badges.statusClasses (Ticket.status t));
           priorityBadge := (Badges.priorityLabels (Ticket.priority t), Badges.priorityClasses (Ticket.priority t));
           log := log_of d;
           commentValue := Detail.comment d;
           addCommentDisabled := (negb (truthy (trim (Detail.comment d))) || Detail.isSubmitting d)%bool;
           statusValue := Detail.status d;
           priorityValue := Detail.priority d;
           requester := (Ticket.name (Ticket.createdBy t), Ticket.email (Ticket.createdBy t)) |}
  end.

(** Mounting the page for [id] (lines 48-57): the [useState] initial
    values are read once, from the snapshot at the first render. *)
Definition mount_page {S} (id : string) (w : World S) : World S :=
  mkWorld (srv w) (map_detail (fun _ => TicketDetail.mountDetail (snapshot w) id) (client w)) (Prog.log w).

End DetailView.

(** A reload of the detail page of ticket ["0"] after it was opened: a
    fresh client over the backend of the demo scenario. *)
Definition reload_world : World Django.state :=
  mkWorld (srv (fst (run (TicketProvider.updateTicket "0" open_updates) demo_world1))) (initialClient "csrftoken=abc") [].

Import DetailView.
Import TicketProvider TicketDetail.

Lemma statusLabels_inj a b : Badges.statusLabels a = Badges.statusLabels b -> a = b.
Proof. destruct a, b; cbn; congruence. Qed.

(** The page of an id the snapshot does not hold shows "Ticket Not Found",
    yet its activity effect (lines 59-76), which runs before the early
    return, requests that id's activities. *)
Theorem not_found_still_loads {S} `{!Gateway S} (w : World S) id :
  truthy id = true -> getTicketById (snapshot w) id = None ->
  view (snapshot w) id (mountDetail (snapshot w) id) =
    NotFoundScreen "Ticket Not Found" "The ticket you're looking for doesn't exist or has been removed."
      [mkLink (ClientLink "/admin/tickets") "Return to Tickets"] /\
  Prog.log (fst (run (loadActivities id) w)) = (Prog.log w ++ [GetActivities id])%list.
Proof.
  intros Hid Hn. split; [unfold view; by rewrite Hid, Hn|].
  unfold loadActivities, TicketService.getTicketActivities. rewrite Hid. cbn [negb].
  run_simp. destruct (handle _ _ _) as [s' [raw|err]]; run_simp; reflexivity.
Qed.

(** C17. After a status change whose PATCH fails, the detail page
    contradicts itself: the status [Select] shows the value the admin
    picked, which the ticket does not have, while the badge and the
    snapshot keep the ticket's old status. *)
Theorem failed_change_contradicts {S} `{!Gateway S} (w : World S) id t v s1 e :
  truthy id = true -> getTicketById (snapshot w) id = Some t ->
  v <> Detail.status (detail (client w)) -> v <> Ticket.status t ->
  let r1 := PatchTicket (Ticket.id t) (updateData (status_updates v)) in
  handle (srv w) (hdrs (client w) r1) r1 = (s1, Err e) ->
  let w1 := step_event id w (SelectStatus v) in
  exists dv, view (snapshot w1) id (detail (client w1)) = TicketScreen dv /\
    statusValue dv = v /\
    statusBadge dv = (Badges.statusLabels (Ticket.status t), Badges.statusClasses (Ticket.status t)) /\
    (statusBadge dv).1 <> Badges.statusLabels (statusValue dv).
Proof.
  intros Hid Hf Hne Hv r1 H1. cbv zeta.
  destruct (status_change_patch_fails id w t v s1 e Hf Hne H1) as (Hf1 & Hd1 & _).
  unfold view. rewrite Hid, Hf1. eexists. split; [reflexivity|]. cbn. rewrite Hd1.
  split_and!; [done|done|]. intros Heq%statusLabels_inj. by apply Hv.
Qed.

(** C16. A detail page opened before the tickets have loaded (a direct
    link or a reload: the snapshot does not hold the ticket at the first
    render) takes ['new'] and ['medium'] as its initial selection, and the
    fetch that then brings the ticket does not change them: once the
    ticket is there, the page shows its badge with the ticket's status
    while the status [Select] shows ['new'] and the priority [Select]
    ['medium'], whatever the ticket holds. *)
Theorem mount_before_load_stale {S} `{!Gateway S} (w : World S) id s1 L t :
  truthy id = true -> getTicketById (snapshot w) id = None ->
  handle (srv w) (hdrs (client w) GetTickets) GetTickets = (s1, Ok L) ->
  getTicketById (map transformTicket L) id = Some t -> Ticket.status t <> new ->
  let w1 := fst (run TicketProvider.fetchTickets (mount_page id w)) in
  exists dv, view (snapshot w1) id (detail (client w1)) = TicketScreen dv /\
    statusValue dv = new /\ priorityValue dv = medium /\
    statusBadge dv = (Badges.statusLabels (Ticket.status t), Badges.statusClasses (Ticket.status t)) /\
    (statusBadge dv).1 <> Badges.statusLabels (statusValue dv).
Proof.
  intros Hid Hn H Ht Hs. cbv zeta. unfold mount_page. store_exec H.
  unfold view, snapshot, mountDetail in *. cbn. rewrite Hid, Hn. unfold getTicketById in Ht. rewrite Ht.
  eexists. split; [reflexivity|].
  cbn. split_and!; [done|done|done|]. intros Heq. apply Hs, (statusLabels_inj _ new). exact Heq.
Qed.

(** ** Witnesses *)

Lemma failed_change_contradicts_witness :
  exists dv,
    view (snapshot (step_event "0" (flaky_world is_patch) (SelectStatus open))) "0"
      (detail (client (step_event "0" (flaky_world is_patch) (SelectStatus open)))) = TicketScreen dv /\
    statusValue dv = open /\ (statusBadge dv).1 = "New".
Proof.
  destruct (failed_change_contradicts (flaky_world is_patch) "0" demo_ticket open
              (mkFlaky is_patch 0 (srv demo_world1)) NetworkError) as (dv & Hv & Hs & Hb & _);
    try reflexivity; try discriminate.
  exists dv. split_and!; [exact Hv|exact Hs|by rewrite Hb].
Defined.

Lemma not_found_still_loads_witness :
  Prog.log (fst (run (loadActivities "7") demo_world)) = [GetActivities "7"].
Proof. apply (not_found_still_loads demo_world "7"); reflexivity. Defined.

Lemma mount_before_load_stale_witness :
  exists dv, view (snapshot (fst (run TicketProvider.fetchTickets (mount_page "0" reload_world))))
    "0" (detail (client (fst (run TicketProvider.fetchTickets (mount_page "0" reload_world))))) = TicketScreen dv /\
    statusValue dv = new /\ (statusBadge dv).1 = "Open".
Proof.
  edestruct (mount_before_load_stale reload_world "0") as (dv & Hv & Hs & _ & Hb & _);
    [reflexivity|reflexivity|reflexivity|reflexivity|vm_compute; discriminate|].
  exists dv. split_and!; [exact Hv|exact Hs|by rewrite Hb].
Defined.
