(* ===== verification/DetailRace.v ===== *)
(** * Two status changes in flight on the detail page

    The two [Select]s of [TicketDetail.tsx] (lines 325 and 340) are never
    disabled, so the admin can pick a second status before the first
    change's PATCH has been answered.  Each pick starts its own
    [handleStatusChange] (lines 104-136), which reads the page's [status]
    when it starts, sets it optimistically, awaits [updateTicket] and then
    [addActivity].  [ui_event] is a pick as the rendered page fires it; the
    schedules of [Interleave] let the two handlers' responses arrive in
    either order.

    The lemmas [status_pick_steps] and [comment_click_steps] run one
    handler as the event loop does, up to each request and from each
    answer, for any gateway; the theorems hold for every backend that
    satisfies [BackendSpec], and their witnesses run them on the Django
    model.  When the two status responses arrive in the reverse order the
    snapshot (and the badge) keeps the first status while the [Select]
    shows the second, the status the backend was last told, and the
    page's activity log lists the two changes in the wrong order
    ([concurrent_status_changes]).  A status change that ends while a
    comment is being posted clears the [isSubmitting] flag the comment
    button relies on, and a second click posts the comment twice
    ([comment_posted_twice]). *)

From stdpp Require Import base list strings.
From S2P Require Import Prelude Model Api Prog Service Backend Store Workflow Pages Interleave DetailView.

Import TicketProvider TicketDetail DetailView.

(** A pick as the rendered page fires it: the handler sees the page's
    state at that moment. *)
Definition ui_event (id : string) (e : DetailEvent) : Prog unit := Get (fun c => on_event id c e).

(** The status the backend holds for a ticket. *)
Definition server_status (w : World Django.state) (id : string) : option TicketStatus :=
  DjangoTicket.status <$> Django.find_ticket (srv w) id.

(** The status the snapshot holds for a ticket. *)
Definition snapshot_status {S} (w : World S) (id : string) : option TicketStatus :=
  Ticket.status <$> getTicketById (snapshot w) id.

(** Pick [v1], then [v2] before the first PATCH is answered; the handlers
    resume in the order [order] gives. *)
Definition two_picks (id : string) (v1 v2 : TicketStatus) (order : list nat) : list Ev :=
  [Start (ui_event id (SelectStatus v1)); Start (ui_event id (SelectStatus v2))] ++ map Resume order.

(** The admin clicks Add Comment, then picks [v] while the comment is
    being posted; the status change ends, and the admin clicks Add
    Comment again while the first comment's POST is still unanswered. *)
Definition comment_during_status_change (id : string) (v : TicketStatus) : list Ev :=
  [Start (ui_event id ClickAddComment); Start (ui_event id (SelectStatus v)); Resume 1; Resume 1;
   Start (ui_event id ClickAddComment); Resume 0; Resume 2].

(** The admin has typed a comment on the page of ticket "0". *)
Definition typed_world : World Django.state :=
  mkWorld (srv demo_world1) (map_detail (setComment "Looking into it") (client demo_world1)) [].

Lemma find_replace_where {A} (p : A -> bool) (y x : A) (l : list A) :
  List.find p l = Some x -> p y = true -> List.find p (replace_where p y l) = Some y.
Proof.
  intros Hf Hy. induction l as [|z l IH]; cbn in *; [done|].
  destruct (p z) eqn:Hz; [by rewrite Hy|]. rewrite Hz. by apply IH.
Qed.

Lemma same_id_found l id t : getTicketById l id = Some t -> Ticket.id t = id.
Proof. intros H. apply find_some in H as [_ H]. unfold same_id in H. by apply bool_decide_eq_true in H. Qed.

Lemma getTicketById_replace l i id t x :
  getTicketById l id = Some t -> Ticket.id t = i -> Ticket.id x = i ->
  getTicketById (replace_where (same_id i) x l) id = Some x.
Proof.
  intros Hf <- Hx. pose proof (same_id_found _ _ _ Hf) as <-.
  eapply find_replace_where; [exact Hf|]. unfold same_id. by apply bool_decide_eq_true.
Qed.

Lemma status_patch_answer {S} `{!Gateway S} `{!BackendSpec S} s h i v s' d :
  handle s h (PatchTicket i (updateData (status_updates v))) = (s', Ok d) ->
  DjangoTicket.id d = i /\ Ticket.status (transformTicket d) = v.
Proof. intros H. destruct (patch_ticket_ok _ _ _ _ _ _ H) as (Hi & Hs & _). split; [done|by apply Hs]. Qed.

Lemma activity_answer {S} `{!Gateway S} `{!BackendSpec S} s h i ty m u s' a :
  handle s h (PostActivity (createActivityDto (Activity.mkInput i ty m u))) = (s', Ok a) ->
  Activity.message (transformActivity a) = m.
Proof. intros H. destruct (post_activity_ok _ _ _ _ _ H) as (_ & _ & Hm & _). exact Hm. Qed.

(** A status pick, step by step as the event loop runs it: up to the
    PATCH of [updateTicket]; from its answer up to the POST of
    [addActivity]; from that answer to the end of the handler. *)
Lemma status_pick_steps {S} `{!Gateway S} (w : World S) id t v :
  getTicketById (snapshot w) id = Some t ->
  let c := client w in
  let s := Detail.status (detail c) in
  v <> s ->
  let p := PatchTicket (Ticket.id t) (updateData (status_updates v)) in
  let q := PostActivity (createActivityDto (Activity.mkInput (Ticket.id t) status_change
             (status_message s v) (getUserDisplayName (user (auth c))))) in
  exists k1 k2,
  advance (ui_event id (SelectStatus v)) w =
    (let '(s', x) := handle (srv w) (hdrs c p) p in
     (mkWorld s' (map_store (setLoading true) (map_detail (setStatus v) (map_detail (setIsSubmitting true) c)))
        (Prog.log w ++ [p]), inr (Suspended p x k1))) /\
  (forall d w1, advance (k1 (Ok d)) w1 =
    let '(s', x) := handle (srv w1) (hdrs (client w1) q) q in
    (mkWorld s' (map_store (setLoading true) (map_store (setLoading false)
        (push_toast (mkToast "Ticket Updated" "Ticket has been updated successfully." false)
        (map_store (setTickets (replace_where (same_id (Ticket.id t)) (transformTicket d))) (client w1)))))
        (Prog.log w1 ++ [q]), inr (Suspended q x k2))) /\
  (forall a w2, advance (k2 (Ok a)) w2 =
    (mkWorld (srv w2) (map_detail (setIsSubmitting false)
        (push_toast (mkToast "Status Updated" ("Ticket status changed to " +s+ TicketStatus_str v)%js false)
        (map_detail (setDetailActivities (fun prev => prev ++ [transformActivity a]))
        (map_store (setLoading false) (map_store (setActivities (fun prev => prev ++ [transformActivity a]))
          (client w2)))))) (Prog.log w2), inl (Ok tt))).
Proof.
  intros Hf c s Hv p q. unfold snapshot in Hf.
  unfold ui_event, on_event, handleStatusChange, try_catch_finally,
    TicketProvider.updateTicket, TicketProvider.addActivity, TicketService.updateTicket,
    TicketService.createActivity, rethrow.
  cbn [advance]. rewrite Hf. rewrite ?bool_decide_false by done.
  cbn -[handle hdrs status_message getUserDisplayName transformTicket transformActivity
        createActivityDto updateData replace_where same_id].
  rewrite !hdrs_map_store, !hdrs_map_detail.
  do 2 eexists. split; [reflexivity|]. split.
  - intros d w1. cbn -[handle hdrs status_message getUserDisplayName transformTicket
        transformActivity createActivityDto updateData replace_where same_id].
    by rewrite !hdrs_map_store, !hdrs_push_toast.
  - intros a w2. done.
Qed.

(** A click on Add Comment, step by step: up to the POST of
    [addActivity]; from its answer to the end of [handleAddComment]. *)
Lemma comment_click_steps {S} `{!Gateway S} (w : World S) id t i :
  getTicketById (snapshot w) id = Some t -> Ticket.id t = i ->
  let c := client w in
  truthy (trim (Detail.comment (detail c))) = true -> Detail.isSubmitting (detail c) = false ->
  let q := PostActivity (createActivityDto (Activity.mkInput i comment
             (Detail.comment (detail c)) (getUserDisplayName (user (auth c))))) in
  exists k,
  advance (ui_event id ClickAddComment) w =
    (let '(s', x) := handle (srv w) (hdrs c q) q in
     (mkWorld s' (map_store (setLoading true) (map_detail (setIsSubmitting true) c))
        (Prog.log w ++ [q]), inr (Suspended q x k))) /\
  (forall a w2, advance (k (Ok a)) w2 =
    (mkWorld (srv w2) (map_detail (setIsSubmitting false)
        (push_toast (mkToast "Comment Added" "Your comment has been added to the ticket" false)
        (map_detail (setComment "")
        (map_detail (setDetailActivities (fun prev => prev ++ [transformActivity a]))
        (map_store (setLoading false) (map_store (setActivities (fun prev => prev ++ [transformActivity a]))
          (client w2))))))) (Prog.log w2), inl (Ok tt))).
Proof.
  intros Hf <- c Hc Hs q. subst c q. unfold snapshot in Hf.
  assert (Hc' : truthy (Detail.comment (detail (client w))) = true)
    by (destruct (Detail.comment (detail (client w))); [discriminate Hc|reflexivity]).
  unfold ui_event, on_event, handleAddComment, try_catch_finally,
    TicketProvider.addActivity, TicketService.createActivity, rethrow.
  cbn [advance]. rewrite Hf, Hc, Hs. cbn [negb orb].
  cbn -[handle hdrs getUserDisplayName transformActivity createActivityDto trim].
  rewrite ?Hc, ?Hc'. cbn -[handle hdrs getUserDisplayName transformActivity createActivityDto trim].
  autorewrite with prog_rw. eexists. split; [reflexivity|]. done.
Qed.

(** C18. Two status picks on the detail page whose responses arrive in
    the reverse order: for any backend that answers [PATCH] with the
    status asked for and [POST /activities/] with the message sent, the
    handlers send [PATCH v1], [PATCH v2], then the activity of the second
    change before that of the first; both handlers end; the snapshot (and
    the badge) keeps the first status [v1] while the [Select] shows [v2],
    the status the backend was last told, and the page's activity log
    lists "v1 to v2" before "s to v1". *)
Theorem concurrent_status_changes {S} `{!Gateway S} `{!BackendSpec S} (w : World S) id t v1 v2
    s1 d1 s2 d2 s3 a2 s4 a1 :
  truthy id = true -> getTicketById (snapshot w) id = Some t ->
  let s := Detail.status (detail (client w)) in
  v1 <> s -> v2 <> v1 ->
  let u := getUserDisplayName (user (auth (client w))) in
  let p1 := PatchTicket (Ticket.id t) (updateData (status_updates v1)) in
  let p2 := PatchTicket (Ticket.id t) (updateData (status_updates v2)) in
  let q2 := PostActivity (createActivityDto (Activity.mkInput (Ticket.id t) status_change (status_message v1 v2) u)) in
  let q1 := PostActivity (createActivityDto (Activity.mkInput (Ticket.id t) status_change (status_message s v1) u)) in
  handle (srv w) (hdrs (client w) p1) p1 = (s1, Ok d1) ->
  handle s1 (hdrs (client w) p2) p2 = (s2, Ok d2) ->
  handle s2 (hdrs (client w) q2) q2 = (s3, Ok a2) ->
  handle s3 (hdrs (client w) q1) q1 = (s4, Ok a1) ->
  let '(w', pool) := run_events (w, []) (two_picks id v1 v2 [1; 0; 1; 0]) in
  all_done pool /\ Prog.log w' = Prog.log w ++ [p1; p2; q2; q1] /\
  snapshot_status w' id = Some v1 /\ Detail.status (detail (client w')) = v2 /\
  (exists dv, view (snapshot w') id (detail (client w')) = TicketScreen dv /\
     statusValue dv = v2 /\ (statusBadge dv).1 = Badges.statusLabels v1) /\
  map Activity.message (Detail.activities (detail (client w'))) =
    map Activity.message (Detail.activities (detail (client w))) ++ [status_message v1 v2; status_message s v1].
Proof.
  intros Hid Hf s Hv1 Hv2 u p1 p2 q2 q1 H1 H2 H3 H4.
  destruct (status_patch_answer _ _ _ _ _ _ H1) as (Hi1 & Hs1).
  destruct (status_patch_answer _ _ _ _ _ _ H2) as (Hi2 & Hs2).
  pose proof (activity_answer _ _ _ _ _ _ _ _ H3) as Hm2.
  pose proof (activity_answer _ _ _ _ _ _ _ _ H4) as Hm1.
  subst s u p1 p2 q1 q2.
  destruct (status_pick_steps w id t v1 Hf Hv1) as (k1 & k2 & E1 & F1 & G1).
  unfold two_picks, run_events. cbn [foldl app map ev_step]. rewrite E1, H1.
  cbn [foldl ev_step suspended app].
  match goal with |- context [advance (ui_event id (SelectStatus v2)) ?W] =>
    destruct (status_pick_steps W id t v2) as (k1' & k2' & E2 & F2 & G2);
    [unfold snapshot; state_simp; exact Hf|state_simp; exact Hv2|] end.
  rewrite E2. cbn [srv client Prog.log] in *. state_simp. autorewrite with prog_rw. rewrite H2.
  cbn [ev_step suspended lookup list_lookup]. rewrite F2. cbn [srv client Prog.log].
  autorewrite with prog_rw. rewrite H3.
  cbn [ev_step suspended lookup list_lookup insert list_insert]. rewrite F1. cbn [srv client Prog.log].
  autorewrite with prog_rw. rewrite H4.
  cbn [ev_step suspended lookup list_lookup insert list_insert]. rewrite G2.
  cbn [ev_step suspended lookup list_lookup insert list_insert]. rewrite G1.
  cbn [ev_step suspended lookup list_lookup insert list_insert srv client Prog.log].
  split; [repeat constructor|]. split; [by rewrite <-!(assoc_L (++))|].
  unfold snapshot_status, snapshot, view. cbn [client]. state_simp.
  assert (Hget : getTicketById (replace_where (same_id (Ticket.id t)) (transformTicket d1)
    (replace_where (same_id (Ticket.id t)) (transformTicket d2) (tickets (store (client w))))) id =
    Some (transformTicket d1)).
  { apply (getTicketById_replace _ _ _ (transformTicket d2)); [|done|done].
    eapply getTicketById_replace; [exact Hf|done|done]. }
  rewrite Hid, Hget. cbn [fmap option_fmap option_map]. rewrite Hs1.
  split; [done|]. split; [done|]. split; [eexists; split; [reflexivity|by cbn]|].
  rewrite <-(assoc_L (++)), map_app. cbn [map app]. by rewrite Hm1, Hm2.
Qed.

(** C19. A status change that ends while a comment is being posted
    clears the [isSubmitting] flag the Add Comment button relies on: for
    any backend that echoes the activities it is sent, after the admin
    clicks Add Comment, picks a status, and the status change ends, the
    comment's POST is still pending but the button is enabled again; a
    second click posts the same comment again, and once both answers are
    in, the page lists the comment twice and the comment box is empty. *)
Theorem comment_posted_twice {S} `{!Gateway S} `{!BackendSpec S} (w : World S) id t v
    s1 a1 s2 d s3 b s4 a2 :
  getTicketById (snapshot w) id = Some t ->
  let m := Detail.comment (detail (client w)) in
  truthy (trim m) = true -> Detail.isSubmitting (detail (client w)) = false ->
  let st := Detail.status (detail (client w)) in
  v <> st ->
  let u := getUserDisplayName (user (auth (client w))) in
  let qc := PostActivity (createActivityDto (Activity.mkInput (Ticket.id t) comment m u)) in
  let p := PatchTicket (Ticket.id t) (updateData (status_updates v)) in
  let qs := PostActivity (createActivityDto (Activity.mkInput (Ticket.id t) status_change (status_message st v) u)) in
  handle (srv w) (hdrs (client w) qc) qc = (s1, Ok a1) ->
  handle s1 (hdrs (client w) p) p = (s2, Ok d) ->
  handle s2 (hdrs (client w) qs) qs = (s3, Ok b) ->
  handle s3 (hdrs (client w) qc) qc = (s4, Ok a2) ->
  (let '(w3, pool3) := run_events (w, []) (take 4 (comment_during_status_change id v)) in
   Detail.isSubmitting (detail (client w3)) = false /\ exists tk, pool3 !! 0 = Some (Some tk)) /\
  (let '(w', pool) := run_events (w, []) (comment_during_status_change id v) in
   all_done pool /\ Prog.log w' = Prog.log w ++ [qc; p; qs; qc] /\
   map Activity.message (Detail.activities (detail (client w'))) =
     map Activity.message (Detail.activities (detail (client w))) ++ [status_message st v; m; m] /\
   Detail.comment (detail (client w')) = "").
Proof.
  intros Hf m Hc Hs st Hv u qc p qs H1 H2 H3 H4.
  pose proof (activity_answer _ _ _ _ _ _ _ _ H3) as Hmb.
  pose proof (activity_answer _ _ _ _ _ _ _ _ H1) as Hm1.
  pose proof (activity_answer _ _ _ _ _ _ _ _ H4) as Hm2.
  subst m st u qc p qs.
  destruct (status_patch_answer _ _ _ _ _ _ H2) as (Hi & _).
  destruct (comment_click_steps w id t _ Hf eq_refl Hc Hs) as (k & E1 & G1).
  unfold comment_during_status_change, run_events. cbn [take foldl ev_step suspended app].
  rewrite E1, H1. cbn [foldl ev_step suspended app].
  match goal with |- context [advance (ui_event id (SelectStatus v)) ?W] =>
    destruct (status_pick_steps W id t v) as (k1 & k2 & E2 & F2 & G2);
    [unfold snapshot; state_simp; exact Hf|state_simp; exact Hv|] end.
  rewrite E2. cbn [srv client Prog.log] in *. state_simp. autorewrite with prog_rw. rewrite H2.
  cbn [ev_step suspended lookup list_lookup]. rewrite F2. cbn [srv client Prog.log].
  autorewrite with prog_rw. rewrite H3.
  cbn [ev_step suspended lookup list_lookup insert list_insert]. rewrite G2.
  cbn [ev_step suspended lookup list_lookup insert list_insert srv client Prog.log foldl].
  split; [split; [by state_simp|by eexists]|].
  match goal with |- context [advance (ui_event id ClickAddComment) ?W] =>
    destruct (comment_click_steps W id (transformTicket d) (Ticket.id t)) as (k' & E3 & G3);
    [unfold snapshot; state_simp; eapply getTicketById_replace; [exact Hf|done|done]
    |exact Hi|by state_simp|by state_simp|] end.
  rewrite E3. cbn [srv client Prog.log] in *. state_simp. autorewrite with prog_rw. rewrite H4.
  cbn [app ev_step suspended lookup list_lookup insert list_insert]. rewrite G1.
  cbn [app ev_step suspended lookup list_lookup insert list_insert]. rewrite G3.
  cbn [ev_step suspended lookup list_lookup insert list_insert srv client Prog.log].
  split; [repeat constructor|]. split; [by rewrite <-!(assoc_L (++))|].
  state_simp. split; [|done].
  rewrite <-!(assoc_L (++)), !map_app. cbn [map app]. by rewrite Hmb, Hm1, Hm2.
Qed.

Lemma concurrent_status_changes_witness :
  let '(w', pool) := run_events (demo_world1, []) (two_picks "0" open resolved [1; 0; 1; 0]) in
  all_done pool /\ snapshot_status w' "0" = Some open /\ Detail.status (detail (client w')) = resolved /\
  server_status w' "0" = Some resolved.
Proof.
  pose proof (concurrent_status_changes demo_world1 "0" _ open resolved _ _ _ _ _ _ _ _
    eq_refl eq_refl ltac:(discriminate) ltac:(discriminate) eq_refl eq_refl eq_refl eq_refl) as H.
  revert H. destruct (run_events (demo_world1, []) (two_picks "0" open resolved [1; 0; 1; 0])) as [w' pool] eqn:E.
  intros (Hd & _ & Hs & Hv & _). split_and!; [exact Hd|exact Hs|exact Hv|].
  replace w' with (fst (run_events (demo_world1, []) (two_picks "0" open resolved [1; 0; 1; 0]))) by (by rewrite E).
  vm_compute. reflexivity.
Defined.

Lemma comment_posted_twice_witness :
  (let '(w3, pool3) := run_events (typed_world, []) (take 4 (comment_during_status_change "0" open)) in
   Detail.isSubmitting (detail (client w3)) = false /\ exists tk, pool3 !! 0 = Some (Some tk)) /\
  (let '(w', pool) := run_events (typed_world, []) (comment_during_status_change "0" open) in
   all_done pool /\
   map Activity.message (Detail.activities (detail (client w'))) =
     [status_message new open; "Looking into it"; "Looking into it"]).
Proof.
  pose proof (comment_posted_twice typed_world "0" _ open _ _ _ _ _ _ _ _
    eq_refl eq_refl eq_refl ltac:(discriminate) eq_refl eq_refl eq_refl eq_refl) as [H3 H].
  split; [exact H3|]. revert H.
  destruct (run_events (typed_world, []) (comment_during_status_change "0" open)) as [w' pool].
  intros (Hd & _ & Hm & _). split; [exact Hd|]. rewrite Hm. reflexivity.
Defined.
