(* ===== verification/Responsive.v ===== *)
(** * Small screens: the [useIsMobile] hook and the navigation bar's menu

    [hooks/use-mobile.tsx] keeps [isMobile : boolean | undefined], set on
    mount from [window.innerWidth] and again by a [matchMedia] listener on
    [(max-width: 767px)], which the browser calls only when the query's
    match changes; the hook returns [!!isMobile].  [components/Navbar.tsx]
    shows, below the [md] breakpoint, a toggle button and, while it is
    open, a menu with the same destinations as the desktop bar.

    The theorems: after any resizes the hook's value is the current width's
    verdict, although the listener hears only the crossings of the
    breakpoint; the open mobile menu offers exactly the desktop items, and
    any route change closes it; but only a route change does, so a link to
    the page already shown, or the menu's Logout, leaves it open. *)

From Stdlib Require Import String NArith Lia.
From stdpp Require Import base list strings.
From S2P Require Import Prelude Model Prog Backend Auth Pages.

Local Open Scope N_scope.

Module UseMobile.

Definition MOBILE_BREAKPOINT : N := 768.

(** Does [(max-width: 767px)] match at this (integer) width? *)
Definition query_matches (width : N) : bool := width <=? MOBILE_BREAKPOINT - 1.

(** The hook's state and the window's width. *)
Record State := mk { isMobile : option bool; width : N }.

(** The first render, before the effect: [useState(undefined)] (line 23). *)
Definition initial (width : N) : State := mk None width.

(** The effect (lines 25-42): the listener is added and [isMobile] set from
    [innerWidth]. *)
Definition mount (s : State) : State := mk (Some (width s <? MOBILE_BREAKPOINT)) (width s).

(** A resize: the browser calls [onChange] (lines 30-32) only when the
    query's match changes. *)
Definition resize (w' : N) (s : State) : State :=
  if Bool.eqb (query_matches w') (query_matches (width s)) then mk (isMobile s) w'
  else mk (Some (w' <? MOBILE_BREAKPOINT)) w'.

(** [!!isMobile] (line 45). *)
Definition value (s : State) : bool := match isMobile s with Some b => b | None => false end.

End UseMobile.

Module NavbarMobile.
Import Navbar.

(** The mobile menu (lines 161-211), while [mobileMenuOpen]. *)
Definition mobile_menu (s : NavState) (a : AuthState) : list NavItem :=
  if mobileMenuOpen s then
    [NavLink "/" "Home"; NavLink "/submit-ticket" "Submit a Ticket"] ++
    (if negb (AuthProvider.isAuthenticated a) then [NavLink "/admin/login" "Admin Login"]
     else [NavLink "/admin/dashboard" "Dashboard"; NavText (getUserDisplayName (user a)); LogoutButton])
  else [].

(** Following a [<Link>] of the menu: the links have no [onClick], and
    React Router changes [location.pathname] only when the target differs
    from it; only that change closes the menu (lines 33-35). *)
Definition follow_link (pathname target : string) (s : NavState) : NavState :=
  if String.eqb pathname target then s else nav_step s PathChange.

End NavbarMobile.

Import UseMobile.

(** ** The hook follows the width *)

Lemma resize_value s w' :
  isMobile s = Some (width s <? MOBILE_BREAKPOINT) ->
  isMobile (resize w' s) = Some (w' <? MOBILE_BREAKPOINT).
Proof.
  intros H. unfold resize, query_matches, MOBILE_BREAKPOINT in *. cbn.
  destruct (Bool.eqb _ _) eqn:E; [|done]. cbn. rewrite H. f_equal.
  apply Bool.eqb_prop in E. revert E. n_cases.
Qed.

Lemma resize_width s w' : width (resize w' s) = w'.
Proof. unfold resize. by destruct (Bool.eqb _ _). Qed.

Lemma resizes_follow s ws :
  isMobile s = Some (width s <? MOBILE_BREAKPOINT) ->
  let s' := foldl (fun s w => resize w s) s ws in
  width s' = default (width s) (last ws) /\ isMobile s' = Some (width s' <? MOBILE_BREAKPOINT).
Proof.
  revert s. induction ws as [|w ws IH]; intros s Hs; cbn zeta; [done|].
  cbn [foldl]. destruct (IH (resize w s)) as [Hw Hm].
  { rewrite resize_width. by apply resize_value. }
  split; [|done]. rewrite Hw, resize_width, last_cons. by destruct (last ws).
Qed.

(** Whatever resizes follow the mount, the hook returns whether the
    current width is below 768 px, though [onChange] runs only when the
    media query's match flips; before the effect it returns [false]. *)
Theorem useIsMobile_tracks_width w0 ws :
  value (initial w0) = false /\
  value (foldl (fun s w => resize w s) (mount (initial w0)) ws) =
    (default w0 (last ws) <? MOBILE_BREAKPOINT).
Proof.
  split; [done|]. destruct (resizes_follow (mount (initial w0)) ws eq_refl) as [Hw Hm].
  unfold value. rewrite Hm, Hw. done.
Qed.

(** ** The mobile menu *)

Import Navbar NavbarMobile.

(** The open mobile menu offers exactly the desktop bar's items, for any
    session, and a route change closes it (lines 33-35). *)
Theorem mobile_menu_matches_desktop s a :
  (mobileMenuOpen s = true -> mobile_menu s a = desktop_nav a) /\
  mobile_menu (nav_step s PathChange) a = [].
Proof. unfold mobile_menu, desktop_nav. cbn. split; [by intros ->|done]. Qed.

Lemma mobile_menu_matches_desktop_witness :
  mobile_menu (mkNav false true) (mkAuthState None false) = desktop_nav (mkAuthState None false).
Proof. apply (mobile_menu_matches_desktop (mkNav false true) (mkAuthState None false)). reflexivity. Defined.

(** The menu closes only when a link leads elsewhere: following its link
    to the page already shown (say "Home" on [/]) leaves it open.  Its
    Logout button calls [logout] and does not navigate, so on a public
    page the menu stays open and now offers "Admin Login". *)
Theorem mobile_menu_stays_open {S} `{!Gateway S} s p target (w : World S) :
  mobileMenuOpen s = true ->
  mobileMenuOpen (follow_link p target s) = String.eqb p target /\
  mobile_menu s (auth (client (fst (run AuthProvider.logout w)))) =
    [NavLink "/" "Home"; NavLink "/submit-ticket" "Submit a Ticket"; NavLink "/admin/login" "Admin Login"].
Proof.
  intros Ho. split.
  - unfold follow_link. destruct (String.eqb p target); [done|reflexivity].
  - pose proof (logout_clears w) as Hl. destruct (run AuthProvider.logout w) as [w' x].
    destruct Hl as (_ & _ & _ & Hu & _). unfold mobile_menu. rewrite Ho. cbn.
    unfold AuthProvider.isAuthenticated. rewrite Hu. reflexivity.
Qed.

Lemma mobile_menu_stays_open_witness :
  mobileMenuOpen (follow_link "/" "/" (mkNav false true)) = true.
Proof.
  destruct (mobile_menu_stays_open (mkNav false true) "/" "/" auth_world1) as [H _]; [reflexivity|].
  rewrite H. reflexivity.
Defined.
